(** * remote-swe-agents: LLM client, session store and agent turn loop

    A shallow embedding of
    - [packages/agent-core/src/lib/converse.ts] (Bedrock path: [bedrockConverse],
      [shouldUltraThink], [preProcessInput]),
    - [packages/agent-core/src/lib/anthropic-client.ts] (Anthropic path:
      [modelTypeToAnthropicModel], [convertToAnthropicFormat]),
    - [packages/agent-core/src/lib/sessions.ts] ([generateSessionTitle],
      [updateSession]),
    - [packages/worker/src/agent/index.ts] ([agentLoop], [onMessageReceived]),
    together with the properties the specification states about them. *)

From Stdlib Require Import ZArith Lia Bool Ascii String.
From stdpp Require Import base option list strings gmap fin_maps.

Open Scope string_scope.
Open Scope list_scope.
Open Scope Z_scope.

(** ** JavaScript helpers *)

Module JS.

(** [Array.prototype.at]: a negative index counts from the end; out of range
    is [undefined]. *)
Definition at_ {A : Type} (l : list A) (i : Z) : option A :=
  let n := Z.of_nat (length l) in
  let k := if i <? 0 then n + i else i in
  if (k <? 0) || (n <=? k) then None else l !! Z.to_nat k.

(** [Array.prototype.pop] on a fresh array: the last element, if any. *)
Definition pop {A : Type} (l : list A) : option A := last l.

(** [Array.prototype.some] and [Array.prototype.every]. *)
Definition some {A : Type} (p : A -> bool) (l : list A) : bool := existsb p l.
Definition every {A : Type} (p : A -> bool) (l : list A) : bool := forallb p l.

(** [Array.prototype.filter]. *)
Fixpoint filter {A : Type} (p : A -> bool) (l : list A) : list A :=
  match l with
  | [] => []
  | x :: l' => if p x then x :: filter p l' else filter p l'
  end.

(** [for (let i = n - 1; i >= 0; i--) if (p(a[i])) a.splice(i, 1)]: the
    loop runs over the indices [n-1, ..., 0] of the array as it is mutated. *)
Fixpoint splice_loop {A : Type} (p : A -> bool) (a : list A) (n : nat) : list A :=
  match n with
  | O => a
  | S i =>
      match a !! i with
      | Some x => splice_loop p (if p x then delete i a else a) i
      | None => splice_loop p a i
      end
  end.

Definition splice_all {A : Type} (p : A -> bool) (a : list A) : list A :=
  splice_loop p a (length a).

(** [Array.prototype.join]. *)
Fixpoint join (sep : string) (l : list string) : string :=
  match l with
  | [] => EmptyString
  | [s] => s
  | s :: l' => s +:+ sep +:+ join sep l'
  end.

(** [String.prototype.includes]. *)
Fixpoint includes (s kw : string) : bool :=
  String.prefix kw s ||
  match s with
  | EmptyString => false
  | String _ s' => includes s' kw
  end.

(** [String.prototype.startsWith] and removal of a leading prefix. *)
Fixpoint strip_prefix (p s : string) : option string :=
  match p, s with
  | EmptyString, _ => Some s
  | String a p', String b s' => if Ascii.eqb a b then strip_prefix p' s' else None
  | String _ _, EmptyString => None
  end.

(** [s.split(',')]: always at least one piece. *)
Fixpoint split_comma_aux (cur : string) (s : string) : list string :=
  match s with
  | EmptyString => [cur]
  | String c s' =>
      if Ascii.eqb c ","%char then cur :: split_comma_aux EmptyString s'
      else split_comma_aux (cur +:+ String c EmptyString) s'
  end.

Definition split_comma (s : string) : list string := split_comma_aux EmptyString s.

(** The ASCII part of [String.prototype.toLowerCase]. *)
Definition lower_ascii (c : ascii) : ascii :=
  let n := nat_of_ascii c in
  if (Nat.leb 65 n && Nat.leb n 90)%bool then ascii_of_nat (n + 32) else c.

Fixpoint toLowerCase_ascii (s : string) : string :=
  match s with
  | EmptyString => EmptyString
  | String c s' => String (lower_ascii c) (toLowerCase_ascii s')
  end.

(** White space and line terminators as [String.prototype.trim] removes
    them. A string is the UTF-8 encoding of the JavaScript string, so a code
    point is one to three bytes here. In ASCII: TAB, LF, VT, FF, CR and the
    space. *)
Definition is_space (c : ascii) : bool :=
  let n := nat_of_ascii c in
  (Nat.eqb n 32 || (Nat.leb 9 n && Nat.leb n 13))%bool.

(** U+00A0, as the bytes C2 A0. *)
Definition is_space2 (a b : ascii) : bool :=
  (Nat.eqb (nat_of_ascii a) 194 && Nat.eqb (nat_of_ascii b) 160)%bool.

(** U+1680 (E1 9A 80), U+2000 to U+200A (E2 80 80 to E2 80 8A), U+2028 and
    U+2029 (E2 80 A8, E2 80 A9), U+202F (E2 80 AF), U+205F (E2 81 9F),
    U+3000 (E3 80 80) and U+FEFF (EF BB BF). *)
Definition is_space3 (a b c : ascii) : bool :=
  let x := nat_of_ascii a in
  let y := nat_of_ascii b in
  let z := nat_of_ascii c in
  ((Nat.eqb x 225 && Nat.eqb y 154 && Nat.eqb z 128)
   || (Nat.eqb x 226 && Nat.eqb y 128
       && ((Nat.leb 128 z && Nat.leb z 138) || Nat.eqb z 168 || Nat.eqb z 169
           || Nat.eqb z 175))
   || (Nat.eqb x 226 && Nat.eqb y 129 && Nat.eqb z 159)
   || (Nat.eqb x 227 && Nat.eqb y 128 && Nat.eqb z 128)
   || (Nat.eqb x 239 && Nat.eqb y 187 && Nat.eqb z 191))%bool.

(** Drop the white space code points at the head of a byte sequence; the
    tests say which one, two and three byte sequences are white space. *)
Fixpoint drop_spaces (sp1 : ascii -> bool) (sp2 : ascii -> ascii -> bool)
         (sp3 : ascii -> ascii -> ascii -> bool) (l : list ascii) : list ascii :=
  match l with
  | [] => []
  | a :: r1 =>
      if sp1 a then drop_spaces sp1 sp2 sp3 r1
      else
        match r1 with
        | [] => l
        | b :: r2 =>
            if sp2 a b then drop_spaces sp1 sp2 sp3 r2
            else
              match r2 with
              | [] => l
              | c :: r3 => if sp3 a b c then drop_spaces sp1 sp2 sp3 r3 else l
              end
        end
  end.

(** Does the sequence start with a white space code point. *)
Definition starts_with_space (sp1 : ascii -> bool) (sp2 : ascii -> ascii -> bool)
           (sp3 : ascii -> ascii -> ascii -> bool) (l : list ascii) : bool :=
  match l with
  | [] => false
  | a :: r1 =>
      sp1 a
      || match r1 with
         | [] => false
         | b :: r2 =>
             sp2 a b || match r2 with [] => false | c :: _ => sp3 a b c end
         end
  end.

Definition trim_start_bytes (l : list ascii) : list ascii :=
  drop_spaces is_space is_space2 is_space3 l.

(** From the end: the same on the reversed bytes, with the tests reversed. *)
Definition trim_end_bytes (l : list ascii) : list ascii :=
  rev (drop_spaces is_space (fun a b => is_space2 b a) (fun a b c => is_space3 c b a)
                   (rev l)).

Definition trim_start (s : string) : string :=
  string_of_list_ascii (trim_start_bytes (list_ascii_of_string s)).

Definition trim_end (s : string) : string :=
  string_of_list_ascii (trim_end_bytes (list_ascii_of_string s)).

Definition trim (s : string) : string := trim_end (trim_start s).

(** Truthiness of an optional string: [undefined] and [''] are falsy. *)
Definition truthy_str (o : option string) : bool :=
  match o with
  | Some EmptyString => false
  | Some _ => true
  | None => false
  end.

End JS.

(** ** Data model of a provider-neutral request ([ConverseCommandInput])

    The block types are the tagged unions of the Bedrock SDK: a value carries
    exactly one member ([text], [image], [toolUse], ..., [cachePoint]), the
    other members being typed [never]. *)

Module Model.

Inductive Role := user | assistant.

Definition Role_eqb (a b : Role) : bool :=
  match a, b with
  | user, user | assistant, assistant => true
  | _, _ => false
  end.

(** [{ cachePoint: { type } }] *)
Record CachePoint := { cp_type : string }.

Definition default_cachePoint : CachePoint := {| cp_type := "default" |}.

Record Image := { img_format : option string; img_bytes : option (list Z) }.

(** A JSON document ([DocumentType]): the code only tests whether one is
    truthy and passes it on, so numbers are kept by their integer value and
    arrays and objects by their JSON text. *)
Inductive Document :=
| DNull
| DBool (b : bool)
| DNumber (n : Z)
| DString (s : string)
| DArray (json : string)
| DObject (json : string).

(** Truthiness of a document: [null], [false], [0] and [''] are falsy. *)
Definition truthy_doc (d : Document) : bool :=
  match d with
  | DNull => false
  | DBool b => b
  | DNumber n => negb (n =? 0)
  | DString s => JS.truthy_str (Some s)
  | DArray _ | DObject _ => true
  end.

(** [{}] *)
Definition emptyObject : Document := DObject "{}".

Record ToolUse := {
  toolUseId : option string;
  tu_name : option string;
  tu_input : option Document
}.

Inductive ToolResultContentBlock :=
| TRText (text : string)
| TRImage (image : Image)
| TROther.

Record ToolResult := {
  tr_toolUseId : option string;
  tr_content : option (list ToolResultContentBlock);
  tr_status : option string
}.

(** [reasoningContent]: the SDK shape [{ reasoningText: { text } }] and the
    flat [{ text }] shape that the Anthropic path also reads. *)
Record ReasoningContent := {
  rc_text : option string;
  rc_reasoningText : option string
}.

Inductive ContentBlock :=
| CText (text : string)
| CImage (image : Image)
| CToolUse (toolUse : ToolUse)
| CToolResult (toolResult : ToolResult)
| CReasoningContent (reasoningContent : ReasoningContent)
| CCachePoint (cachePoint : CachePoint).

Record Message := { role : Role; content : option (list ContentBlock) }.

Inductive SystemContentBlock :=
| SysText (text : string)
| SysCachePoint (cachePoint : CachePoint).

Record JsonSchema := { js_type : option string; js_rest : string }.

Record ToolSpec := {
  ts_name : option string;
  ts_description : option string;
  ts_inputSchema : option JsonSchema   (* inputSchema?.json *)
}.

Inductive Tool :=
| ToolSpecMember (toolSpec : ToolSpec)
| ToolCachePoint (cachePoint : CachePoint).

Inductive ToolChoiceKind := K_auto | K_any | K_tool.

Definition ToolChoiceKind_eqb (a b : ToolChoiceKind) : bool :=
  match a, b with
  | K_auto, K_auto | K_any, K_any | K_tool, K_tool => true
  | _, _ => false
  end.

(** [{ auto: {} } | { any: {} } | { tool: { name } }] *)
Inductive ToolChoice := TCAuto | TCAny | TCTool (name : string).

(** [kind in toolChoice] *)
Definition kind_in (k : ToolChoiceKind) (tc : ToolChoice) : bool :=
  match k, tc with
  | K_auto, TCAuto | K_any, TCAny | K_tool, TCTool _ => true
  | _, _ => false
  end.

Record ToolConfig := {
  tools : option (list Tool);
  toolChoice : option ToolChoice
}.

(** [temperature] and [topP] are only passed through; they are kept as the
    decimal literal. *)
Record InferenceConfig := {
  maxTokens : option Z;
  temperature : option string;
  topP : option string
}.

Record ReasoningConfig := { budget_tokens : Z }.   (* type: 'enabled' *)

Record AdditionalModelRequestFields := {
  reasoning_config : option ReasoningConfig;
  anthropic_beta : option (list string)
}.

Record ConverseCommandInput := {
  modelId : option string;
  messages : option (list Message);
  system : option (list SystemContentBlock);
  toolConfig : option ToolConfig;
  inferenceConfig : option InferenceConfig;
  additionalModelRequestFields : option AdditionalModelRequestFields
}.

Inductive CacheLayer := L_system | L_tool | L_message.

Definition CacheLayer_eqb (a b : CacheLayer) : bool :=
  match a, b with
  | L_system, L_system | L_tool, L_tool | L_message, L_message => true
  | _, _ => false
  end.

(** One entry of [modelConfigs] (the table itself lives in [schema/model.ts]). *)
Record ModelConfig := {
  mc_modelId : string;
  maxOutputTokens : Z;
  reasoningSupport : bool;
  interleavedThinkingSupport : bool;
  toolChoiceSupport : list ToolChoiceKind;
  cacheSupport : list CacheLayer;
  supportedCriProfiles : list string
}.

(** [cacheSupport.includes(layer)] *)
Definition supports (cfg : ModelConfig) (l : CacheLayer) : bool :=
  existsb (CacheLayer_eqb l) (cacheSupport cfg).

(** Block tests written as in the source. *)
Definition has_text (c : ContentBlock) : bool :=          (* 'text' in c *)
  match c with CText _ => true | _ => false end.
Definition text_of (c : ContentBlock) : option string :=  (* c.text *)
  match c with CText t => Some t | _ => None end.
Definition has_reasoningContent (c : ContentBlock) : bool :=
  match c with CReasoningContent _ => true | _ => false end.
Definition has_toolUse (c : ContentBlock) : bool :=
  match c with CToolUse _ => true | _ => false end.
Definition has_cachePoint (c : ContentBlock) : bool :=
  match c with CCachePoint _ => true | _ => false end.
Definition sys_has_cachePoint (s : SystemContentBlock) : bool :=
  match s with SysCachePoint _ => true | _ => false end.
Definition tool_has_cachePoint (t : Tool) : bool :=
  match t with ToolCachePoint _ => true | _ => false end.

(** Number of cache markers per layer of a Bedrock request. *)
Definition count_if {A : Type} (p : A -> bool) (l : list A) : nat :=
  length (JS.filter p l).

Definition system_markers (i : ConverseCommandInput) : nat :=
  count_if sys_has_cachePoint (default [] (system i)).

Definition tool_markers (i : ConverseCommandInput) : nat :=
  match toolConfig i with
  | Some tc => count_if tool_has_cachePoint (default [] (tools tc))
  | None => O
  end.

Definition message_markers (i : ConverseCommandInput) : nat :=
  sum_list (map (fun m => count_if has_cachePoint (default [] (content m)))
                (default [] (messages i))).

Definition markers (l : CacheLayer) (i : ConverseCommandInput) : nat :=
  match l with
  | L_system => system_markers i
  | L_tool => tool_markers i
  | L_message => message_markers i
  end.

(** Number of reasoning blocks in the messages of a Bedrock request. *)
Definition reasoning_blocks (i : ConverseCommandInput) : nat :=
  sum_list (map (fun m => count_if has_reasoningContent (default [] (content m)))
                (default [] (messages i))).

End Model.

(** ** Results of fallible calls *)

Module Res.

Inductive Error :=
| ThrottlingException
| MaxTokensExceededTooManyTimes (count : nat)
    (* [new Error(`Max tokens exceeded too many times (${count})`)] *)
| OtherError (message : string).

Inductive Result (A : Type) :=
| Ok (a : A)
| Threw (e : Error).
Arguments Ok {A} a.
Arguments Threw {A} e.

Definition is_throttling (e : Error) : bool :=   (* e instanceof ThrottlingException *)
  match e with ThrottlingException => true | _ => false end.

End Res.

(** ** The Bedrock path ([converse.ts]) *)

Module Converse.
Import Model Res.

Definition ULTRA_THINKING_KEYWORD : string := "ultrathink".
Definition defaultOutputTokenCount : Z := 8192.

(** [(process.env.BEDROCK_AWS_ACCOUNTS ?? '').split(',')] *)
Definition awsAccounts (env_BEDROCK_AWS_ACCOUNTS : option string) : list string :=
  JS.split_comma (default EmptyString env_BEDROCK_AWS_ACCOUNTS).

Section Normalization.
Context {ModelType : Type}.
Variable modelConfigs : ModelType -> ModelConfig.
(** [String.prototype.toLowerCase], Unicode tables included. *)
Variable toLowerCase : string -> string.

Definition shouldUltraThink (input : ConverseCommandInput) : bool :=
  let messages := default [] (messages input) in
  let lastUserMessage :=
    JS.pop (JS.filter
              (fun message =>
                 Role_eqb (role message) user &&
                 match content message with
                 | Some cs => JS.some has_text cs
                 | None => false
                 end)
              messages) in
  match lastUserMessage with
  | None => false
  | Some m =>
      match content m with
      | None => false
      | Some cs =>
          let messageText :=
            toLowerCase (JS.join " " (map (fun c => default EmptyString (text_of c)) cs)) in
          JS.includes messageText ULTRA_THINKING_KEYWORD
      end
  end.

(** Step 1: remove [toolChoice] if not supported. *)
Definition dropUnsupportedToolChoice (cfg : ModelConfig) (tc : option ToolConfig)
  : option ToolConfig :=
  match tc with
  | Some t =>
      match toolChoice t with
      | Some choice =>
          if JS.every (fun k => negb (kind_in k choice)) (toolChoiceSupport cfg)
          then Some {| tools := tools t; toolChoice := None |}
          else tc
      | None => tc
      end
  | None => None
  end.

(** [Math.min(maxOutputTokens, defaultOutputTokenCount * 2 ** count)] *)
Definition adjustedMaxToken (cfg : ModelConfig) (maxTokensExceededCount : nat) : Z :=
  Z.min (maxOutputTokens cfg)
        (defaultOutputTokenCount * 2 ^ Z.of_nat maxTokensExceededCount).

(** [messages?.at(-2)?.content] *)
Definition at2_content (msgs : option (list Message)) : option (list ContentBlock) :=
  match msgs with
  | Some l => match JS.at_ l (-2) with Some m => content m | None => None end
  | None => None
  end.

(** [messages?.at(-2)?.content?.at(0)?.reasoningContent == null] *)
Definition at2_first_reasoning_null (msgs : option (list Message)) : bool :=
  match at2_content msgs ≫= (fun cs => JS.at_ cs 0) with
  | Some (CReasoningContent _) => false
  | _ => true
  end.

(** [messages?.at(-2)?.content?.at(-1)?.toolUse != null] *)
Definition at2_last_toolUse_nonnull (msgs : option (list Message)) : bool :=
  match at2_content msgs ≫= (fun cs => JS.at_ cs (-1)) with
  | Some (CToolUse _) => true
  | _ => false
  end.

(** The local [enableReasoning], computed after [toolChoice] was dropped. *)
Definition enableReasoning (cfg : ModelConfig) (tc : option ToolConfig)
           (msgs : option (list Message)) : bool :=
  if reasoningSupport cfg then
    if bool_decide (is_Some (tc ≫= toolChoice)) then false
    else if at2_first_reasoning_null msgs && at2_last_toolUse_nonnull msgs then false
    else true
  else false.

(** The thinking budget of the enabled branch. *)
Definition reasoningBudget (cfg : ModelConfig) (enableUltraThink : bool) : Z :=
  if enableUltraThink then Z.min (maxOutputTokens cfg / 2) 31999 else 2000.

Definition stripReasoning (m : Message) : Message :=
  {| role := role m;
     content := JS.filter (fun c => negb (has_reasoningContent c)) <$> content m |}.

Definition pruneMessage (m : Message) : Message :=
  {| role := role m;
     content := JS.splice_all has_cachePoint <$> content m |}.

Definition preProcessInput (input : ConverseCommandInput) (modelType : ModelType)
           (maxTokensExceededCount : nat) : ConverseCommandInput * option Z :=
  let modelConfig := modelConfigs modelType in
  (* remove toolChoice if not supported *)
  let toolConfig1 := dropUnsupportedToolChoice modelConfig (toolConfig input) in
  (* set maximum number of output tokens *)
  let adjusted := adjustedMaxToken modelConfig maxTokensExceededCount in
  let temperature0 := inferenceConfig input ≫= temperature in
  let topP0 := inferenceConfig input ≫= topP in
  (* enable or disable reasoning *)
  let enable := enableReasoning modelConfig toolConfig1 (messages input) in
  let enableUltraThink := shouldUltraThink input in
  let budget := reasoningBudget modelConfig enableUltraThink in
  let thinkingBudget := if enable && enableUltraThink then Some budget else None in
  let additional1 :=
    if enable then
      Some {| reasoning_config := Some {| budget_tokens := budget |};
              anthropic_beta :=
                if interleavedThinkingSupport modelConfig
                then Some ["interleaved-thinking-2025-05-14"]
                else None |}
    else additionalModelRequestFields input in
  let maxTokens1 :=
    if enable
    then Z.max adjusted (Z.min (budget * 2) (maxOutputTokens modelConfig))
    else adjusted in
  let messages1 :=
    if enable then messages input
    else map stripReasoning <$> messages input in
  (* remove cachePoints if not supported *)
  let system2 :=
    if negb (supports modelConfig L_system)
    then JS.splice_all sys_has_cachePoint <$> system input
    else system input in
  let toolConfig2 :=
    if negb (supports modelConfig L_tool) then
      (fun t => {| tools := JS.splice_all tool_has_cachePoint <$> tools t;
                   toolChoice := toolChoice t |}) <$> toolConfig1
    else toolConfig1 in
  let messages2 :=
    if negb (supports modelConfig L_message)
    then map pruneMessage <$> messages1
    else messages1 in
  ({| modelId := modelId input;
      messages := messages2;
      system := system2;
      toolConfig := toolConfig2;
      inferenceConfig :=
        Some {| maxTokens := Some maxTokens1;
                temperature := temperature0;
                topP := topP0 |};
      additionalModelRequestFields := additional1 |},
   thinkingBudget).

(** *** [bedrockConverse] and the account rotation *)

(** What the outside world does during one call. *)
Inductive ProviderOutcome (R : Type) :=
| Sent (response : R)
| Raised (e : Error).
Arguments Sent {R} response.
Arguments Raised {R} e.

Record World (R : Type) := {
  pick : nat;   (* [Math.floor(Math.random() * choices.length)] *)
  assumeRole : string -> bool;   (* does STS hand out credentials *)
  send : ConverseCommandInput -> ProviderOutcome R   (* [client.send] *)
}.
Arguments pick {R} _.
Arguments assumeRole {R} _ _.
Arguments send {R} _ _.

Variable criRegion : string.

Definition chooseRandom {T : Type} (choices : list T) (r : nat) : option T :=
  choices !! (r mod length choices)%nat.

(** [chooseModelAndRegion]: the model id, region-prefixed when the model
    supports the chosen profile. *)
Definition chooseModelId (modelType : ModelType) : string :=
  let cfg := modelConfigs modelType in
  if existsb (String.eqb criRegion) (supportedCriProfiles cfg)
  then criRegion +:+ "." +:+ mc_modelId cfg
  else mc_modelId cfg.

(** The [try] body up to the provider call: model choice, client for the
    current account, input normalization. *)
Definition prepare {R : Type} (accounts : list string) (w : World R)
           (modelTypes : list ModelType) (input : ConverseCommandInput)
           (maxTokensExceededCount : nat) (currentAccountIndex : nat)
  : Result (ConverseCommandInput * option Z) :=
  match chooseRandom modelTypes (pick w) with
  | None => Threw (OtherError "TypeError")
  | Some modelType =>
      let modelId := chooseModelId modelType in
      let credentials_ok :=
        match accounts !! currentAccountIndex with
        | Some account =>
            if JS.truthy_str (Some account) then assumeRole w account else true
        | None => true
        end in
      if credentials_ok then
        Ok (preProcessInput
              {| modelId := Some modelId;
                 messages := messages input;
                 system := system input;
                 toolConfig := toolConfig input;
                 inferenceConfig := inferenceConfig input;
                 additionalModelRequestFields := additionalModelRequestFields input |}
              modelType maxTokensExceededCount)
      else Threw (OtherError "No credentials returned from assumeRole")
  end.

(** The module-level [currentAccountIndex] is threaded through the call. *)
Definition bedrockConverse {R : Type} (accounts : list string) (w : World R)
           (modelTypes : list ModelType) (input : ConverseCommandInput)
           (maxTokensExceededCount : nat) (currentAccountIndex : nat)
  : Result (R * option Z) * nat :=
  if (5 <? maxTokensExceededCount)%nat then
    (Threw (MaxTokensExceededTooManyTimes maxTokensExceededCount),
     currentAccountIndex)
  else
    let attempt : Result (R * option Z) :=
      match prepare accounts w modelTypes input maxTokensExceededCount
                    currentAccountIndex with
      | Ok (processedInput, thinkingBudget) =>
          match send w processedInput with
          | Sent response => Ok (response, thinkingBudget)
          | Raised e => Threw e
          end
      | Threw e => Threw e
      end in
    match attempt with
    | Ok r => (Ok r, currentAccountIndex)
    | Threw e =>
        if is_throttling e
        then (* Rotate to next account *)
          (Threw e, ((currentAccountIndex + 1) mod length accounts)%nat)
        else (Threw e, currentAccountIndex)
    end.

End Normalization.

Arguments Sent {R} response.
Arguments Raised {R} e.
Arguments pick {R} _.
Arguments assumeRole {R} _ _.
Arguments send {R} _ _.

End Converse.

(** ** The Anthropic path ([anthropic-client.ts]) *)

Module Anthropic.
Import Model Res.

Definition ULTRA_THINKING_KEYWORD : string := "ultrathink".

Definition DEFAULT_MODEL : string := "claude-sonnet-4.5-20250929".

(** [modelId.replace(/^(global|us|eu|apac|jp|au)\./, '')] *)
Definition criPrefixes : list string := ["global"; "us"; "eu"; "apac"; "jp"; "au"].

Fixpoint removeFirstPrefix (prefixes : list string) (s : string) : string :=
  match prefixes with
  | [] => s
  | p :: rest =>
      match JS.strip_prefix (p +:+ ".") s with
      | Some s' => s'
      | None => removeFirstPrefix rest s
      end
  end.

Definition removeCriPrefix (modelId : string) : string :=
  removeFirstPrefix criPrefixes modelId.

(** Map Bedrock model IDs to Anthropic API model names: the own properties
    of the object literal. *)
Definition modelMapping : gmap string string :=
  list_to_map
    [ ("anthropic.claude-sonnet-4-5-20250929-v1:0", "claude-sonnet-4.5-20250929");
      ("anthropic.claude-opus-4-5-20251101-v1:0", "claude-opus-4.5-20251101");
      ("anthropic.claude-haiku-4-5-20250929-v1:0", "claude-haiku-4.5-20250929");
      ("anthropic.claude-3-7-sonnet-20250219-v1:0", "claude-3-7-sonnet-20250219");
      ("anthropic.claude-3-5-sonnet-20241022-v2:0", "claude-3-5-sonnet-20241022");
      ("anthropic.claude-3-5-haiku-20241022-v1:0", "claude-3-5-haiku-20241022");
      ("anthropic.claude-4-opus-20250514-v1:0", "claude-4-opus-20250514");
      ("anthropic.claude-4-1-opus-20250514-v1:0", "claude-4-1-opus-20250514");
      ("anthropic.claude-4-sonnet-20250514-v1:0", "claude-4-sonnet-20250514") ].

(** The literal is a plain object, so [modelMapping[id]] also finds what
    every object inherits from [Object.prototype]: functions, and
    [Object.prototype] itself under [__proto__]. All of them are truthy. *)
Definition objectPrototypeMembers : list string :=
  [ "constructor"; "hasOwnProperty"; "isPrototypeOf"; "propertyIsEnumerable";
    "toLocaleString"; "toString"; "valueOf"; "__proto__"; "__defineGetter__";
    "__defineSetter__"; "__lookupGetter__"; "__lookupSetter__" ].

(** What [modelTypeToAnthropicModel] returns: a model name, or the inherited
    member it found in place of one. *)
Inductive AnthropicModel :=
| ModelName (name : string)
| PrototypeMember (property : string).

(** [modelMapping[baseModelId]] *)
Definition lookupModel (baseModelId : string) : option AnthropicModel :=
  match modelMapping !! baseModelId with
  | Some name => Some (ModelName name)
  | None =>
      if bool_decide (baseModelId ∈ objectPrototypeMembers)
      then Some (PrototypeMember baseModelId)
      else None
  end.

(** Outbound request of the Messages API. *)
Inductive CacheControl := ephemeral.

Inductive AResultContent :=
| ARText (text : string)
| ARImage (media_type : string) (data : list Z).   (* base64 of these bytes *)

Inductive AContentBody :=
| AText (text : string)
| AImage (media_type : string) (data : list Z)
| AToolUse (id name : string) (input : Document)
| AToolResult (tool_use_id : string) (content : list AResultContent) (is_error : bool)
| AThinking (signature thinking : string).

Record AContentBlock := {
  ab_body : AContentBody;
  ab_cache_control : option CacheControl
}.

Record AMessage := { a_role : Role; a_content : list AContentBlock }.

Record ATextBlock := { tb_text : string; tb_cache_control : option CacheControl }.

Inductive ASystem :=
| SystemString (text : string)
| SystemBlocks (blocks : list ATextBlock).

Record ATool := {
  at_name : string;
  at_description : option string;
  at_input_schema : JsonSchema;
  at_cache_control : option CacheControl
}.

Record Thinking := { th_budget_tokens : Z }.   (* type: 'enabled' *)

Record AnthropicFormat := {
  f_messages : list AMessage;
  f_system : option ASystem;
  f_max_tokens : Z;
  f_temperature : option string;
  f_top_p : option string;
  f_tools : option (list ATool);
  f_thinking : option Thinking
}.

Record MessageCreateParams := {
  p_model : AnthropicModel;
  p_messages : list AMessage;
  p_max_tokens : Z;
  p_system : option ASystem;
  p_temperature : option string;
  p_top_p : option string;
  p_tools : option (list ATool);
  p_thinking : option Thinking;
  p_betas : option (list string)
}.

(** Member accessors on the tagged unions, as the source reads them. *)
Definition sys_text (s : SystemContentBlock) : option string :=
  match s with SysText t => Some t | _ => None end.
Definition sys_cachePoint (s : SystemContentBlock) : option CachePoint :=
  match s with SysCachePoint c => Some c | _ => None end.
Definition tool_toolSpec (t : Tool) : option ToolSpec :=
  match t with ToolSpecMember s => Some s | _ => None end.
Definition tool_cachePoint (t : Tool) : option CachePoint :=
  match t with ToolCachePoint c => Some c | _ => None end.

(** [cachePoint?.type === 'default'] gives [cache_control = { type: 'ephemeral' }]. *)
Definition cache_control_of (cp : option CachePoint) : option CacheControl :=
  match cp with
  | Some c => if String.eqb (cp_type c) "default" then Some ephemeral else None
  | None => None
  end.

Definition plain (b : AContentBody) : AContentBlock :=
  {| ab_body := b; ab_cache_control := None |}.

Definition nonempty_or (d : string) (o : option string) : string :=   (* o || d *)
  if JS.truthy_str o then default d o else d.

(** [o || d] for a document: every falsy document gives [d]. *)
Definition document_or (d : Document) (o : option Document) : Document :=
  match o with
  | Some doc => if truthy_doc doc then doc else d
  | None => d
  end.

Definition convertResultContent (rc : ToolResultContentBlock) : list AResultContent :=
  match rc with
  | TRText t => if JS.truthy_str (Some t) then [ARText t] else []
  | TRImage img =>
      match img_bytes img with
      | Some bytes => [ARImage (nonempty_or "image/png" (img_format img)) bytes]
      | None => []
      end
  | TROther => []
  end.

Definition convertContent (c : ContentBlock) : list AContentBlock :=
  match c with
  | CText t => if JS.truthy_str (Some t) then [plain (AText t)] else []
  | CImage img =>
      match img_bytes img with
      | Some bytes => [plain (AImage (nonempty_or "image/png" (img_format img)) bytes)]
      | None => []
      end
  | CToolUse tu =>
      [plain (AToolUse (nonempty_or EmptyString (toolUseId tu))
                       (nonempty_or EmptyString (tu_name tu))
                       (document_or emptyObject (tu_input tu)))]
  | CToolResult tr =>
      [plain (AToolResult (nonempty_or EmptyString (tr_toolUseId tr))
                          (concat (map convertResultContent (default [] (tr_content tr))))
                          (bool_decide (tr_status tr = Some "error")))]
  | CReasoningContent r =>
      let thinkingText :=
        match rc_text r with
        | Some t => t
        | None => default EmptyString (rc_reasoningText r)
        end in
      [plain (AThinking EmptyString thinkingText)]
  | CCachePoint _ => []
  end.

Definition convertMessage (msg : Message) : AMessage :=
  {| a_role := role msg;
     a_content := concat (map convertContent (default [] (content msg))) |}.

Definition convertSystemBlock (s : SystemContentBlock) : list ATextBlock :=
  if JS.truthy_str (sys_text s) then
    [{| tb_text := default EmptyString (sys_text s);
        tb_cache_control := cache_control_of (sys_cachePoint s) |}]
  else [].

Definition convertSystem (sys : option (list SystemContentBlock)) : option ASystem :=
  match sys with
  | Some (s :: rest) =>
      let systemBlocks := concat (map convertSystemBlock (s :: rest)) in
      match systemBlocks with
      | [b] => Some (SystemString (tb_text b))
      | _ => Some (SystemBlocks systemBlocks)
      end
  | _ => None
  end.

Definition default_schema : JsonSchema :=
  {| js_type := Some "object"; js_rest := "properties: {}, required: []" |}.

Definition convertTool (tool : Tool) : list ATool :=
  match tool_toolSpec tool with
  | Some spec =>
      let input_schema :=
        match ts_inputSchema spec with
        | Some base =>
            if bool_decide (js_type base = Some "object") then base else default_schema
        | None => default_schema
        end in
      [{| at_name := nonempty_or EmptyString (ts_name spec);
          at_description := ts_description spec;
          at_input_schema := input_schema;
          at_cache_control := cache_control_of (tool_cachePoint tool) |}]
  | None => []
  end.

Definition convertTools (tc : option ToolConfig) : option (list ATool) :=
  match tc ≫= tools with
  | Some (t :: rest) => Some (concat (map convertTool (t :: rest)))
  | _ => None
  end.

Section Conversion.
Context {ModelType : Type}.
Variable modelConfigs : ModelType -> ModelConfig.
Variable toLowerCase : string -> string.

(** Convert Bedrock model type to Anthropic model name. *)
Definition modelTypeToAnthropicModel (modelType : ModelType) : AnthropicModel :=
  let modelConfig := modelConfigs modelType in
  let baseModelId := removeCriPrefix (mc_modelId modelConfig) in
  match lookupModel baseModelId with
  | Some (ModelName name) =>
      if negb (JS.truthy_str (Some name)) then ModelName DEFAULT_MODEL
      else ModelName name
  | Some (PrototypeMember property) => PrototypeMember property
  | None => ModelName DEFAULT_MODEL
  end.

(** Check if ultrathink mode should be enabled. *)
Definition shouldUltraThink (input : ConverseCommandInput) : bool :=
  let messages := default [] (messages input) in
  let lastUserMessage :=
    JS.pop (JS.filter
              (fun message =>
                 Role_eqb (role message) user &&
                 match content message with
                 | Some cs => JS.some (fun c => JS.truthy_str (text_of c)) cs
                 | None => false
                 end)
              messages) in
  match lastUserMessage with
  | None => false
  | Some m =>
      match content m with
      | None => false
      | Some cs =>
          let part c :=
            match c with
            | CText t => t
            | CReasoningContent r =>
                match rc_text r with
                | Some t => t
                | None => default EmptyString (rc_reasoningText r)
                end
            | _ => EmptyString
            end in
          JS.includes (toLowerCase (JS.join " " (map part cs))) ULTRA_THINKING_KEYWORD
      end
  end.

(** [content?.at(0) && 'reasoningContent' in content.at(0)] on [messages.at(-2)] *)
Definition at2_first_is_reasoning (msgs : option (list Message)) : bool :=
  match Converse.at2_content msgs ≫= (fun cs => JS.at_ cs 0) with
  | Some c => has_reasoningContent c
  | None => false
  end.

(** [content?.at(-1) && 'toolUse' in content.at(-1)] on [messages.at(-2)] *)
Definition at2_last_is_toolUse (msgs : option (list Message)) : bool :=
  match Converse.at2_content msgs ≫= (fun cs => JS.at_ cs (-1)) with
  | Some c => has_toolUse c
  | None => false
  end.

Definition shouldEnableReasoning (input : ConverseCommandInput) : bool :=
  negb (bool_decide (is_Some (toolConfig input ≫= toolChoice))) &&
  negb (at2_first_is_reasoning (messages input) && at2_last_is_toolUse (messages input)).

(** Convert Bedrock ConverseCommandInput to Anthropic Messages API format. *)
Definition convertToAnthropicFormat (input : ConverseCommandInput)
           (modelType : ModelType) : AnthropicFormat :=
  let modelConfig := modelConfigs modelType in
  let maxTokens :=
    match inferenceConfig input ≫= maxTokens with
    | Some n => if n =? 0 then 8192 else n
    | None => 8192
    end in
  let thinking :=
    if reasoningSupport modelConfig then
      if shouldEnableReasoning input then
        let enableUltraThink := shouldUltraThink input in
        let budget :=
          if enableUltraThink
          then Z.min (maxOutputTokens modelConfig / 2) 31999
          else 2000 in
        Some {| th_budget_tokens := budget |}
      else None
    else None in
  {| f_messages := map convertMessage (default [] (messages input));
     f_system := convertSystem (system input);
     f_max_tokens := maxTokens;
     f_temperature := inferenceConfig input ≫= temperature;
     f_top_p := inferenceConfig input ≫= topP;
     f_tools := convertTools (toolConfig input);
     f_thinking := thinking |}.

(** The [requestParams] that [anthropicConverse] hands to
    [client.messages.create]. *)
Definition requestParams (input : ConverseCommandInput) (modelType : ModelType)
  : MessageCreateParams :=
  let f := convertToAnthropicFormat input modelType in
  {| p_model := modelTypeToAnthropicModel modelType;
     p_messages := f_messages f;
     p_max_tokens := f_max_tokens f;
     p_system := f_system f;
     p_temperature := f_temperature f;
     p_top_p := f_top_p f;
     p_tools :=
       match f_tools f with
       | Some (t :: ts) => Some (t :: ts)
       | _ => None
       end;
     p_thinking := f_thinking f;
     p_betas :=
       if interleavedThinkingSupport (modelConfigs modelType)
          && bool_decide (is_Some (f_thinking f))
       then Some ["interleaved-thinking-2025-05-14"]
       else None |}.

End Conversion.

(** Cache markers and thinking blocks of an outbound request. *)
Definition a_system_markers (p : MessageCreateParams) : nat :=
  match p_system p with
  | Some (SystemBlocks bs) =>
      Model.count_if (fun b => bool_decide (is_Some (tb_cache_control b))) bs
  | _ => O
  end.

Definition a_tool_markers (p : MessageCreateParams) : nat :=
  Model.count_if (fun t => bool_decide (is_Some (at_cache_control t)))
                 (default [] (p_tools p)).

Definition a_message_markers (p : MessageCreateParams) : nat :=
  sum_list (map (fun m =>
                   Model.count_if (fun b => bool_decide (is_Some (ab_cache_control b)))
                                  (a_content m))
                (p_messages p)).

Definition a_markers (l : CacheLayer) (p : MessageCreateParams) : nat :=
  match l with
  | L_system => a_system_markers p
  | L_tool => a_tool_markers p
  | L_message => a_message_markers p
  end.

Definition is_thinking (b : AContentBlock) : bool :=
  match ab_body b with AThinking _ _ => true | _ => false end.

Definition thinking_blocks (p : MessageCreateParams) : nat :=
  sum_list (map (fun m => Model.count_if is_thinking (a_content m)) (p_messages p)).

End Anthropic.

(** ** Provider responses *)

Module Response.
Import Model.

Inductive StopReason := end_turn | tool_use | max_tokens | stop_sequence.

Record TokenUsage := {
  inputTokens : option Z;
  outputTokens : option Z;
  cacheReadInputTokens : option Z;
  cacheWriteInputTokens : option Z
}.

Record ConverseResponse := {
  output_message : option Message;   (* output?.message *)
  stopReason : option StopReason;
  usage : option TokenUsage
}.

End Response.

(** ** The session store ([sessions.ts]) *)

Module Sessions.
Import Model Res Response.

(** *** Title generation *)

Definition titlePrompt (message : string) : string :=
  JS.trim
    (String "010" "Based on the following chat history, create a concise title for the conversation that is 15 characters or less."
     +:+ String "010" "The title should be brief but descriptive of the message content or intent."
     +:+ String "010" "Only return the title itself without any explanation or additional text."
     +:+ String "010" "Use the same language that was used in the conversation."
     +:+ String "010" (String "010" "Messages: ") +:+ message
     +:+ String "010" "    ").

Definition titleRequest (message : string) : ConverseCommandInput :=
  {| modelId := None;
     messages :=
       Some [ {| role := user; content := Some [CText (titlePrompt message)] |};
              {| role := assistant; content := Some [CText "Title:"] |} ];
     system := None;
     toolConfig := None;
     inferenceConfig :=
       Some {| maxTokens := Some 50; temperature := Some "0.8"; topP := None |};
     additionalModelRequestFields := None |}.

(** [response?.output?.message?.content?.[0].text ?? ''], inside the [try]:
    indexing an empty [content] throws and the [catch] returns ['']. *)
Definition firstText (response : ConverseResponse) : Result string :=
  match output_message response ≫= content with
  | None => Ok EmptyString
  | Some [] => Threw (OtherError "TypeError")
  | Some (c :: _) => Ok (default EmptyString (text_of c))
  end.

Definition generateSessionTitle
           (converse : string -> list string -> ConverseCommandInput ->
                       Result (ConverseResponse * option Z))
           (workerId message : string) : string :=
  match converse workerId ["haiku3.5"] (titleRequest message) with
  | Ok (response, _) =>
      match firstText response with
      | Ok output => let title := JS.trim output in title
      | Threw _ => EmptyString
      end
  | Threw _ => EmptyString
  end.

(** *** [updateSession] *)

(** Attribute values of a stored item. *)
Inductive Value := VStr (s : string) | VNum (n : Z) | VBool (b : bool).

(** The [UpdateCommand] handed to the document client.  [UpdateExpression]
    is [`SET ${clauses.join(', ')}`], each clause being [`#k = :k`]; the
    clause list is kept, [renderExpression] gives the text. *)
Record UpdateCommand := {
  Key : string * string;   (* PK, SK *)
  setClauses : list (string * string);
  ExpressionAttributeNames : gmap string string;
  ExpressionAttributeValues : gmap string Value
}.

Definition renderExpression (cmd : UpdateCommand) : string :=
  "SET " +:+ JS.join ", " (map (fun c => fst c +:+ " = " +:+ snd c) (setClauses cmd)).

(** [params]: a JS object; a key may be present with value [undefined]. *)
Definition addParam (acc : UpdateCommand) (kv : string * option Value) : UpdateCommand :=
  match snd kv with
  | Some v =>
      let key := fst kv in
      {| Key := Key acc;
         setClauses := setClauses acc ++ [("#" +:+ key, ":" +:+ key)];
         ExpressionAttributeNames := <["#" +:+ key := key]> (ExpressionAttributeNames acc);
         ExpressionAttributeValues := <[":" +:+ key := v]> (ExpressionAttributeValues acc) |}
  | None => acc
  end.

Definition updateSessionCommand (now : Z) (workerId : string)
           (params : gmap string (option Value)) : UpdateCommand :=
  foldl addParam
        {| Key := ("sessions", workerId);
           setClauses := [("#updatedAt", ":updatedAt")];
           ExpressionAttributeNames := {["#updatedAt" := "updatedAt"]};
           ExpressionAttributeValues := {[":updatedAt" := VNum now]} |}
        (map_to_list params).

(** The key-value store: items by [(PK, SK)], each a map of attributes. *)
Abbreviation Table := (gmap (string * string) (gmap string Value)).

(** The store's [UpdateItem] with a [SET] expression: every clause is
    resolved through the two placeholder maps; two clauses on one attribute
    are rejected ("Two document paths overlap with each other"); otherwise
    the attributes are assigned on the item under [Key] (created with its key
    attributes when absent). *)
Definition resolveClause (cmd : UpdateCommand) (c : string * string)
  : option (string * Value) :=
  match ExpressionAttributeNames cmd !! fst c, ExpressionAttributeValues cmd !! snd c with
  | Some attr, Some v => Some (attr, v)
  | _, _ => None
  end.

Definition assign (item : gmap string Value) (av : string * Value) : gmap string Value :=
  <[fst av := snd av]> item.

Definition ddbUpdate (table : Table) (cmd : UpdateCommand) : Result Table :=
  match mapM (resolveClause cmd) (setClauses cmd) with
  | None => Threw (OtherError "ValidationException")
  | Some assignments =>
      if bool_decide (NoDup (map fst assignments)) then
        let item0 :=
          default {[ "PK" := VStr (fst (Key cmd)); "SK" := VStr (snd (Key cmd)) ]}
                  (table !! Key cmd) in
        Ok (<[Key cmd := foldl assign item0 assignments]> table)
      else Threw (OtherError "ValidationException")
  end.

Definition updateSession (now : Z) (workerId : string)
           (params : gmap string (option Value)) (table : Table) : Result Table :=
  ddbUpdate table (updateSessionCommand now workerId params).

(** The entries of [params] whose value is not [undefined]. *)
Definition definedParams (l : list (string * option Value)) : list (string * Value) :=
  omap (fun kv => match snd kv with Some v => Some (fst kv, v) | None => None end) l.

(** [UpdateSessionParams = Partial<Omit<SessionItem, 'PK' | 'SK' | 'createdAt'>>] *)
Definition UpdateSessionParams (params : gmap string (option Value)) : Prop :=
  params !! "PK" = None /\ params !! "SK" = None /\ params !! "createdAt" = None.

Definition updateSessionAgentStatus (now : Z) (workerId agentStatus : string)
           (table : Table) : Result Table :=
  updateSession now workerId {[ "agentStatus" := Some (VStr agentStatus) ]} table.

Definition updateSessionTitle (now : Z) (workerId title : string)
           (table : Table) : Result Table :=
  updateSession now workerId {[ "title" := Some (VStr title) ]} table.

End Sessions.

(** ** The agent turn loop ([worker/src/agent/index.ts])

    The loop is embedded with explicit state passing.  The outside world of one
    turn is a script: what each provider call does, what the tools return, and
    at which suspension points the cancellation token gets set.  Event
    emission, system prompt and tool catalog assembly and cache point placement
    do not touch the state modelled here and are left out. *)

Module Agent.
Import Model Res Response.

Inductive MessageType := userMessage | assistantResponse | toolUse | toolResult.

Record MessageItem := {
  SK : nat;                       (* monotonic sort key *)
  mi_role : Role;
  messageType : MessageType;
  mi_content : list ContentBlock;
  tokenCount : Z;
  mi_thinkingBudget : option Z
}.

Definition set_tokenCount (n : Z) (i : MessageItem) : MessageItem :=
  {| SK := SK i; mi_role := mi_role i; messageType := messageType i;
     mi_content := mi_content i; tokenCount := n;
     mi_thinkingBudget := mi_thinkingBudget i |}.

Definition sumTokens (items : list MessageItem) : Z :=
  foldl (fun sum item => sum + tokenCount item) 0 items.

Record FilterResult := {
  fr_items : list MessageItem;
  fr_messages : list Message;
  totalTokenCount : Z
}.

Definition toMessage (i : MessageItem) : Message :=
  {| role := mi_role i; content := Some (mi_content i) |}.

(** Modelled from the spec: [noOpFiltering] of the message store, "identity
    projection into the provider block format, plus token sum". *)
Definition noOpFiltering (items : list MessageItem) : FilterResult :=
  {| fr_items := items;
     fr_messages := map toMessage items;
     totalTokenCount := sumTokens items |}.

(** Modelled from the spec: [updateMessageTokenCount] of the message store,
    "overwrite the [tokenCount] field only" of the item with that sort key. *)
Definition updateMessageTokenCount (sk : nat) (n : Z) (log : list MessageItem)
  : list MessageItem :=
  map (fun i => if Nat.eqb (SK i) sk then set_tokenCount n i else i) log.

(** Modelled from the spec: the next sort key of the append-only log. *)
Definition nextSK (log : list MessageItem) : nat :=
  S (foldr (fun i m => Nat.max (SK i) m) O log).

(** Modelled from the spec: [saveConversationHistory], "allocate next sort
    key, persist"; the output tokens are attributed to the assistant item. *)
Definition saveConversationHistory (message : Message) (outputTokenCount : Z)
           (budget : option Z) (log : list MessageItem) : MessageItem :=
  {| SK := nextSK log; mi_role := assistant; messageType := assistantResponse;
     mi_content := default [] (content message); tokenCount := outputTokenCount;
     mi_thinkingBudget := budget |}.

(** Modelled from the spec: [saveConversationHistoryAtomic], "persist both
    items atomically". *)
Definition saveConversationHistoryAtomic (toolUseMessage toolResultMessage : Message)
           (outputTokenCount : Z) (budget : option Z) (log : list MessageItem)
  : list MessageItem :=
  [ {| SK := nextSK log; mi_role := assistant; messageType := toolUse;
       mi_content := default [] (content toolUseMessage);
       tokenCount := outputTokenCount; mi_thinkingBudget := budget |};
    {| SK := S (nextSK log); mi_role := user; messageType := toolResult;
       mi_content := default [] (content toolResultMessage);
       tokenCount := 0; mi_thinkingBudget := None |} ].

(** What the loop throws. [NonErrorThrown] is the [TypeError] of p-retry,
    "Non-error was thrown: ... You should only throw errors.": the wrapped
    function threw a value that is not an [Error]. *)
Inductive LoopError :=
| NonErrorThrown
| Err (e : Error).

(** One provider call of the script. *)
Inductive CallOutcome :=
| Responds (res : ConverseResponse) (thinkingBudget : option Z)
| Throws (e : Error).

Record Step := {
  outcome : CallOutcome;
  cancelDuringCall : bool;    (* token set while the call or its backoff is pending *)
  toolOutput : ToolUse -> list ToolResultContentBlock;
  cancelDuringTools : bool    (* token set while the tools run *)
}.

(** [converse] as the loop sees it: both providers start with the same guard
    on [maxTokensExceededCount] and otherwise hand back what the provider
    did. *)
Definition converse (maxTokensExceededCount : nat) (o : CallOutcome)
  : Result (ConverseResponse * option Z) :=
  if (5 <? maxTokensExceededCount)%nat
  then Threw (MaxTokensExceededTooManyTimes maxTokensExceededCount)
  else match o with
       | Responds res b => Ok (res, b)
       | Throws e => Threw e
       end.

Record LoopState := {
  items : list MessageItem;      (* [...initialItems, ...appendedItems]; the item
                                    objects are shared between iterations *)
  log : list MessageItem;        (* the persisted conversation history *)
  maxTokensExceededCount : nat;
  isCancelled : bool;
  detectedBudget : option Z;
  providerCalls : list nat       (* [maxTokensExceededCount] of each call issued *)
}.

Definition set_cancel (b : bool) (st : LoopState) : LoopState :=
  {| items := items st; log := log st;
     maxTokensExceededCount := maxTokensExceededCount st;
     isCancelled := isCancelled st || b;
     detectedBudget := detectedBudget st;
     providerCalls := providerCalls st |}.

Definition record_call (budget : option (option Z)) (st : LoopState) : LoopState :=
  {| items := items st; log := log st;
     maxTokensExceededCount := maxTokensExceededCount st;
     isCancelled := isCancelled st;
     detectedBudget := default (detectedBudget st) budget;
     providerCalls := providerCalls st ++ [maxTokensExceededCount st] |}.

Definition bump_count (st : LoopState) : LoopState :=
  {| items := items st; log := log st;
     maxTokensExceededCount := S (maxTokensExceededCount st);
     isCancelled := isCancelled st;
     detectedBudget := detectedBudget st;
     providerCalls := providerCalls st |}.

Definition set_items_log (its lg : list MessageItem) (st : LoopState) : LoopState :=
  {| items := its; log := lg;
     maxTokensExceededCount := maxTokensExceededCount st;
     isCancelled := isCancelled st;
     detectedBudget := detectedBudget st;
     providerCalls := providerCalls st |}.

(** [pRetry(fn, { retries })]: [fn] runs again after it threw an [Error],
    unless that is an [AbortError] or the retries are used up. A value that is
    not an [Error] is not retried: p-retry rejects with a [TypeError] at once.
    The loop's [class MaxTokenExceededError {}] does not extend [Error], so a
    [max_tokens] stop ends the wrapper after that one call, with
    [maxTokensExceededCount] already incremented. *)
Inductive RetryResult :=
| Resolved (res : option (ConverseResponse * Step))   (* [undefined] when cancelled *)
| Rejected (e : LoopError)
| ScriptEnded.

Fixpoint pRetry (attempts : nat) (script : list Step) (st : LoopState)
  : RetryResult * list Step * LoopState :=
  if isCancelled st then (Resolved None, script, st)
  else if (5 <? maxTokensExceededCount st)%nat then
    (* [converse] throws an [Error]; it is wrapped into an [AbortError] *)
    (Rejected (Err (MaxTokensExceededTooManyTimes (maxTokensExceededCount st))), script, st)
  else
    match script with
    | [] => (ScriptEnded, script, st)
    | step :: rest =>
        match converse (maxTokensExceededCount st) (outcome step) with
        | Ok (res, budget) =>
            let st1 := set_cancel (cancelDuringCall step) (record_call (Some budget) st) in
            match stopReason res with
            | Some max_tokens =>
                (* [maxTokensExceededCount += 1; throw new MaxTokenExceededError()] *)
                (Rejected NonErrorThrown, rest, bump_count st1)
            | _ => (Resolved (Some (res, step)), rest, st1)
            end
        | Threw e =>
            let st1 := set_cancel (cancelDuringCall step) (record_call None st) in
            if is_throttling e then
              match attempts with
              | S n => pRetry n rest st1
              | O => (Rejected (Err e), rest, st1)
              end
            else (Rejected (Err e), rest, st1)   (* AbortError *)
        end
    end.

Definition retries : nat := 100.
Arguments retries : simpl never.

(** A step whose response stops with [max_tokens], and the state the
    wrapper is left in after it: call recorded, count incremented. *)
Definition stopsAtMaxTokens (s : Step) : bool :=
  match outcome s with
  | Responds res _ =>
      match stopReason res with Some max_tokens => true | _ => false end
  | Throws _ => false
  end.

Definition reportedBudget (s : Step) : option Z :=
  match outcome s with
  | Responds _ b => b
  | Throws _ => None
  end.

Definition escalate (st : LoopState) (s : Step) : LoopState :=
  bump_count (set_cancel (cancelDuringCall s) (record_call (Some (reportedBudget s)) st)).

(** The input tokens the provider billed for a response. *)
Definition billedInput (res : ConverseResponse) : Z :=
  default 0 (usage res ≫= inputTokens)
  + default 0 (usage res ≫= cacheReadInputTokens)
  + default 0 (usage res ≫= cacheWriteInputTokens).

(** [const lastItem = items.at(-1); if (lastItem?.role == 'user') { ... }] *)
Definition attributeTokens (res : ConverseResponse) (total : Z) (st : LoopState)
  : LoopState :=
  match JS.at_ (items st) (-1) with
  | Some lastItem =>
      if Role_eqb (mi_role lastItem) user then
        let tokenCount := billedInput res - total in
        set_items_log
          (<[pred (length (items st)) := set_tokenCount tokenCount lastItem]> (items st))
          (updateMessageTokenCount (SK lastItem) tokenCount (log st))
          st
      else st
  | None => st
  end.

Definition toolUseRequests (m : Message) : list ContentBlock :=
  JS.filter has_toolUse (default [] (content m)).

(** One [toolResult] block per request; [None] when a request has no
    [toolUseId] (the loop throws). *)
Definition runTools (step : Step) (requests : list ContentBlock)
  : option (list ContentBlock) :=
  mapM (fun request =>
          match request with
          | CToolUse tu =>
              match toolUseId tu with
              | Some id =>
                  Some (CToolResult {| tr_toolUseId := Some id;
                                       tr_content := Some (toolOutput step tu);
                                       tr_status := None |})
              | None => None
              end
          | _ => None
          end) requests.

Inductive Exit :=
| Finished
| Thrown (e : LoopError)
| OutOfScript.

Definition tokenThreshold : Z := 190000.

Section Loop.
(** [middleOutFiltering] of the message store is not part of this
    development; the loop is stated for any such function. *)
Variable middleOutFiltering : list MessageItem -> FilterResult.

(** The window of one iteration. *)
Definition window (items : list MessageItem) : FilterResult :=
  if tokenThreshold <? sumTokens items
  then middleOutFiltering items
  else noOpFiltering items.

Fixpoint while (fuel : nat) (script : list Step) (st : LoopState)
  : Exit * list Step * LoopState :=
  match fuel with
  | O => (OutOfScript, script, st)
  | S fuel' =>
      if isCancelled st then (Finished, script, st)
      else
        let result := window (items st) in
        match pRetry retries script st with
        | (ScriptEnded, rest, st1) => (OutOfScript, rest, st1)
        | (Rejected e, rest, st1) => (Thrown e, rest, st1)
        | (Resolved None, rest, st1) => (Finished, rest, st1)
        | (Resolved (Some (res, step)), rest, st1) =>
            let st2 := attributeTokens res (totalTokenCount result) st1 in
            let outputTokenCount := default 0 (usage res ≫= outputTokens) in
            match stopReason res with
            | Some tool_use =>
                match output_message res with
                | None => (Thrown (Err (OtherError "output is null")), rest, st2)
                | Some toolUseMessage =>
                    match runTools step (toolUseRequests toolUseMessage) with
                    | None => (Thrown (Err (OtherError "toolUse is null")), rest, st2)
                    | Some results =>
                        let toolResultMessage :=
                          {| role := user; content := Some results |} in
                        let st3 := set_cancel (cancelDuringTools step) st2 in
                        let savedItems :=
                          saveConversationHistoryAtomic
                            toolUseMessage toolResultMessage outputTokenCount
                            (detectedBudget st3) (log st3) in
                        while fuel' rest
                              (set_items_log (items st3 ++ savedItems)
                                             (log st3 ++ savedItems) st3)
                    end
                end
            | _ =>
                match output_message res ≫= content with
                | None | Some [] => (Finished, rest, st2)
                | Some (c :: cs) =>
                    let finalMessage := {| role := assistant; content := Some (c :: cs) |} in
                    (Finished, rest,
                     set_items_log
                       (items st2)
                       (log st2 ++ [saveConversationHistory finalMessage outputTokenCount
                                                           (detectedBudget st2) (log st2)])
                       st2)
                end
            end
        end
  end.

(** The session record and the token, as far as a turn touches them. *)
Inductive AgentStatus := pending | working | cancelling.

Record Worker := {
  history : list MessageItem;          (* the persisted log *)
  title : option string;
  statusUpdates : list AgentStatus;    (* calls of [updateAgentStatusWithEvent] *)
  cancelRequested : bool;              (* [cancellationToken.isCancelled] *)
  cancelCallbacks : nat                (* completed [completeCancel()] calls *)
}.

(** The script of a whole turn. *)
Record Turn := {
  steps : list Step;
  titleReply : Result (ConverseResponse * option Z);
  cancelAfterLoop : bool   (* token set after the loop, before [finally] *)
}.

Definition agentLoop (t : Turn) (w : Worker) : Exit * Worker :=
  let allItems := history w in
  let initialItems := fr_items (middleOutFiltering allItems) in
  let st0 :=
    {| items := initialItems; log := allItems; maxTokensExceededCount := 0;
       isCancelled := cancelRequested w; detectedBudget := None;
       providerCalls := [] |} in
  match while (S (length (steps t))) (steps t) st0 with
  | (Finished, _, st) =>
      let title' :=
        match title w with
        | Some (String a s) => title w
        | _ =>
            match Sessions.generateSessionTitle (fun _ _ _ => titleReply t)
                                                EmptyString EmptyString with
            | EmptyString => title w
            | newTitle => Some newTitle
            end
        end in
      (Finished,
       {| history := log st; title := title';
          statusUpdates := statusUpdates w;
          cancelRequested := isCancelled st || cancelAfterLoop t;
          cancelCallbacks := cancelCallbacks w |})
  | (e, _, st) =>
      (e,
       {| history := log st; title := title w;
          statusUpdates := statusUpdates w;
          cancelRequested := isCancelled st || cancelAfterLoop t;
          cancelCallbacks := cancelCallbacks w |})
  end.

(** Modelled from the spec: [updateAgentStatusWithEvent] of [common/status],
    "status:=working" at entry and "status:=pending" at exit; the updates are
    logged in order. *)
Definition updateAgentStatusWithEvent (s : AgentStatus) (w : Worker) : Worker :=
  {| history := history w; title := title w;
     statusUpdates := statusUpdates w ++ [s];
     cancelRequested := cancelRequested w;
     cancelCallbacks := cancelCallbacks w |}.

(** Modelled from the spec: [completeCancel] of the cancellation token, "any
    registered cancel callback is awaited"; completed calls are counted. *)
Definition completeCancel (w : Worker) : Worker :=
  {| history := history w; title := title w;
     statusUpdates := statusUpdates w;
     cancelRequested := cancelRequested w;
     cancelCallbacks := S (cancelCallbacks w) |}.

(** [try { await agentLoop(...) } finally { ... }] *)
Definition onMessageReceived (t : Turn) (w : Worker) : Exit * Worker :=
  let w1 := updateAgentStatusWithEvent working w in
  let '(exit, w2) := agentLoop t w1 in
  if cancelRequested w2
  then (exit, completeCancel w2)
  else (exit, updateAgentStatusWithEvent pending w2).

End Loop.

End Agent.

(** ** The specification's wording of two conditions *)

Module Spec.
Import Model.

(** "the last user message that contains text" *)
Definition userWithText (m : Message) : bool :=
  Role_eqb (role m) user && existsb has_text (default [] (content m)).

Fixpoint lastUserWithText (msgs : list Message) : option Message :=
  match msgs with
  | [] => None
  | m :: rest =>
      match lastUserWithText rest with
      | Some m' => Some m'
      | None => if userWithText m then Some m else None
      end
  end.

(** "the text content of [that message], lowercased, contains the substring
    'ultrathink'" *)
Definition textContent (m : Message) : string :=
  JS.join " " (map (fun c => default EmptyString (text_of c)) (default [] (content m))).

Definition ultrathinkRequested (toLowerCase : string -> string)
           (i : ConverseCommandInput) : bool :=
  match lastUserWithText (default [] (messages i)) with
  | Some m => JS.includes (toLowerCase (textContent m)) "ultrathink"
  | None => false
  end.

(** "the second-to-last message is a tool-use message lacking a preceding
    reasoning block": it exists, ends in a tool use and does not start with a
    reasoning block. *)
Fixpoint secondToLast (msgs : list Message) : option Message :=
  match msgs with
  | [] => None
  | m :: rest =>
      match rest with
      | [] => None
      | [_] => Some m
      | _ => secondToLast rest
      end
  end.

Definition midToolChainWithoutReasoning (i : ConverseCommandInput) : bool :=
  match secondToLast (default [] (messages i)) with
  | Some m =>
      let cs := default [] (content m) in
      match last cs with
      | Some c => has_toolUse c && negb (match head cs with
                                         | Some c0 => has_reasoningContent c0
                                         | None => false
                                         end)
      | None => false
      end
  | None => false
  end.

(** "the request carries no toolChoice" *)
Definition noToolChoice (tc : option ToolConfig) : bool :=
  match tc with
  | Some t => match toolChoice t with Some _ => false | None => true end
  | None => true
  end.

End Spec.

(** ** Concrete models, requests and scripts *)

Module Samples.
Import Model Res Response.

Inductive SampleModel := sonnet | haiku | nova | plain_reasoner.

Definition sampleConfigs (m : SampleModel) : ModelConfig :=
  match m with
  | sonnet =>
      {| mc_modelId := "anthropic.claude-sonnet-4-5-20250929-v1:0";
         maxOutputTokens := 64000;
         reasoningSupport := true;
         interleavedThinkingSupport := true;
         toolChoiceSupport := [K_any; K_auto; K_tool];
         cacheSupport := [L_system; L_message; L_tool];
         supportedCriProfiles := ["global"; "us"; "eu"; "jp"] |}
  | haiku =>
      {| mc_modelId := "anthropic.claude-3-5-haiku-20241022-v1:0";
         maxOutputTokens := 4096;
         reasoningSupport := false;
         interleavedThinkingSupport := false;
         toolChoiceSupport := [K_any; K_auto; K_tool];
         cacheSupport := [];
         supportedCriProfiles := ["us"] |}
  | nova =>
      {| mc_modelId := "us.amazon.nova-pro-v1:0";
         maxOutputTokens := 10000;
         reasoningSupport := false;
         interleavedThinkingSupport := false;
         toolChoiceSupport := [K_auto];
         cacheSupport := [L_system];
         supportedCriProfiles := ["us"] |}
  | plain_reasoner =>
      {| mc_modelId := "anthropic.claude-3-7-sonnet-20250219-v1:0";
         maxOutputTokens := 64000;
         reasoningSupport := true;
         interleavedThinkingSupport := false;
         toolChoiceSupport := [K_any; K_auto; K_tool];
         cacheSupport := [];
         supportedCriProfiles := ["us"; "eu"] |}
  end.

Definition userText (t : string) : Message :=
  {| role := user; content := Some [CText t] |}.

Definition aToolUse : ContentBlock :=
  CToolUse {| toolUseId := Some "t1"; tu_name := Some "commandExecution";
              tu_input := Some (DObject "{cmd: ls}") |}.

Definition aToolResult : ContentBlock :=
  CToolResult {| tr_toolUseId := Some "t1"; tr_content := Some [TRText "a.txt"];
                 tr_status := None |}.

Definition aReasoning : ContentBlock :=
  CReasoningContent {| rc_text := None; rc_reasoningText := Some "list the files" |}.

Definition request (msgs : list Message) : ConverseCommandInput :=
  {| modelId := None;
     messages := Some msgs;
     system := Some [SysText "You are an agent."; SysCachePoint default_cachePoint];
     toolConfig :=
       Some {| tools :=
                 Some [ToolSpecMember {| ts_name := Some "commandExecution";
                                         ts_description := Some "run a command";
                                         ts_inputSchema := None |};
                       ToolCachePoint default_cachePoint];
               toolChoice := None |};
     inferenceConfig := None;
     additionalModelRequestFields := None |}.

(** A tool chain whose assistant message starts with a reasoning block. *)
Definition chainWithReasoning : ConverseCommandInput :=
  request [ userText "list files";
            {| role := assistant; content := Some [aReasoning; aToolUse] |};
            {| role := user;
               content := Some [aToolResult; CCachePoint default_cachePoint] |} ].

(** A tool chain whose assistant message has no reasoning block. *)
Definition chainWithoutReasoning : ConverseCommandInput :=
  request [ userText "list files";
            {| role := assistant; content := Some [aToolUse] |};
            {| role := user;
               content := Some [aToolResult; CCachePoint default_cachePoint] |} ].

Definition ultraRequest : ConverseCommandInput :=
  request [ userText "Please UltraThink about this design" ].

Definition plainRequest : ConverseCommandInput :=
  request [ userText "Say hi." ].

Definition textResponse (t : string) (stop : StopReason) (billed : Z) : ConverseResponse :=
  {| output_message := Some {| role := assistant; content := Some [CText t] |};
     stopReason := Some stop;
     usage := Some {| inputTokens := Some billed; outputTokens := Some 7;
                      cacheReadInputTokens := None; cacheWriteInputTokens := None |} |}.

Definition longTitle : string := "Refactor the authentication module".

Definition throttlingWorld : Converse.World ConverseResponse :=
  {| Converse.pick := 0%nat;
     Converse.assumeRole := fun _ => true;
     Converse.send := fun _ => Converse.Raised ThrottlingException |}.

Definition answeringWorld : Converse.World ConverseResponse :=
  {| Converse.pick := 0%nat;
     Converse.assumeRole := fun _ => true;
     Converse.send := fun _ => Converse.Sent (textResponse "Hi." end_turn 12) |}.

(** A turn boundary: the assistant item of the previous turn carried a
    reasoning block, which is dropped from the next request. *)
Definition secondTurnItems : list Agent.MessageItem :=
  [ {| Agent.SK := 1; Agent.mi_role := user; Agent.messageType := Agent.userMessage;
       Agent.mi_content := [CText "list files"]; Agent.tokenCount := 40;
       Agent.mi_thinkingBudget := None |};
    {| Agent.SK := 2; Agent.mi_role := assistant;
       Agent.messageType := Agent.assistantResponse;
       Agent.mi_content := [aReasoning; CText "Found 2 files."];
       Agent.tokenCount := 500; Agent.mi_thinkingBudget := None |};
    {| Agent.SK := 3; Agent.mi_role := user; Agent.messageType := Agent.userMessage;
       Agent.mi_content := [CText "thanks, now count them"]; Agent.tokenCount := 0;
       Agent.mi_thinkingBudget := None |} ].

Definition maxTokensStep : Agent.Step :=
  {| Agent.outcome := Agent.Responds (textResponse "partial" max_tokens 100) None;
     Agent.cancelDuringCall := false;
     Agent.toolOutput := fun _ => [];
     Agent.cancelDuringTools := false |}.

Definition finalStep (cancelled : bool) : Agent.Step :=
  {| Agent.outcome := Agent.Responds (textResponse "Hi." end_turn 100) None;
     Agent.cancelDuringCall := cancelled;
     Agent.toolOutput := fun _ => [];
     Agent.cancelDuringTools := false |}.

(** A session with one user message and a title already set. *)
Definition greetedWorker : Agent.Worker :=
  {| Agent.history :=
       [ {| Agent.SK := 1; Agent.mi_role := user; Agent.messageType := Agent.userMessage;
            Agent.mi_content := [CText "Say hi."]; Agent.tokenCount := 0;
            Agent.mi_thinkingBudget := None |} ];
     Agent.title := Some "Greeting";
     Agent.statusUpdates := [];
     Agent.cancelRequested := false;
     Agent.cancelCallbacks := 0 |}.

(** The provider answers once; the token is set while that call is in
    flight. *)
Definition cancelledInFlight : Agent.Turn :=
  {| Agent.steps := [finalStep true];
     Agent.titleReply := Threw (OtherError "unused");
     Agent.cancelAfterLoop := false |}.

Definition uncancelled : Agent.Turn :=
  {| Agent.steps := [finalStep false];
     Agent.titleReply := Threw (OtherError "unused");
     Agent.cancelAfterLoop := false |}.

Definition sessionItem : gmap string Sessions.Value :=
  {[ "PK" := Sessions.VStr "sessions"; "SK" := Sessions.VStr "w1";
     "createdAt" := Sessions.VNum 1; "updatedAt" := Sessions.VNum 2;
     "agentStatus" := Sessions.VStr "working" ]}.

Definition sessionTable : gmap (string * string) (gmap string Sessions.Value) :=
  {[ ("sessions", "w1") := sessionItem ]}.

Definition titleParams : gmap string (option Sessions.Value) :=
  {[ "title" := Some (Sessions.VStr "Greeting") ]}.

Definition loopState (its : list Agent.MessageItem) (cancelled : bool) : Agent.LoopState :=
  {| Agent.items := its; Agent.log := its; Agent.maxTokensExceededCount := 0;
     Agent.isCancelled := cancelled; Agent.detectedBudget := None;
     Agent.providerCalls := [] |}.

End Samples.

(** ** The token ledger ([trackTokenUsage], same on both paths) *)

Module Ledger.
Import Model Res Response.

(** The increments of one response, under the attribute names of the ledger
    item (the first two are singular in the source); [x || 0] for each. *)
Definition usageIncrements (u : TokenUsage) : list (string * Z) :=
  [ ("inputToken", default 0 (inputTokens u));
    ("outputToken", default 0 (outputTokens u));
    ("cacheReadInputTokens", default 0 (cacheReadInputTokens u));
    ("cacheWriteInputTokens", default 0 (cacheWriteInputTokens u)) ].

(** The store's [ADD] action on a number attribute: an absent attribute starts
    from the operand, a number is incremented, anything else is rejected. *)
Definition addNumber (item : gmap string Sessions.Value) (av : string * Z)
  : option (gmap string Sessions.Value) :=
  match item !! fst av with
  | None => Some (<[fst av := Sessions.VNum (snd av)]> item)
  | Some (Sessions.VNum n) => Some (<[fst av := Sessions.VNum (n + snd av)]> item)
  | Some _ => None
  end.

Fixpoint addAll (item : gmap string Sessions.Value) (adds : list (string * Z))
  : option (gmap string Sessions.Value) :=
  match adds with
  | [] => Some item
  | av :: rest =>
      match addNumber item av with
      | Some item' => addAll item' rest
      | None => None
      end
  end.

(** The item of the [PutCommand]. *)
Definition newLedgerItem (workerId modelId : string) (u : TokenUsage)
  : gmap string Sessions.Value :=
  foldl (fun item av => <[fst av := Sessions.VNum (snd av)]> item)
        {[ "PK" := Sessions.VStr ("token-" +:+ workerId); "SK" := Sessions.VStr modelId ]}
        (usageIncrements u).

(** [storeAvailable = false]: a store call throws; the [catch] logs and
    returns. *)
Definition trackTokenUsage (TableName : option string) (storeAvailable : bool)
           (workerId modelId : string) (response : ConverseResponse)
           (table : gmap (string * string) (gmap string Sessions.Value))
  : gmap (string * string) (gmap string Sessions.Value) :=
  if negb (JS.truthy_str TableName) then table
  else
    match usage response with
    | None => table
    | Some u =>
        if negb storeAvailable then table
        else
          let key := ("token-" +:+ workerId, modelId) in
          match table !! key with
          | Some item =>
              match addAll item (usageIncrements u) with
              | Some item' => <[key := item']> table
              | None => table
              end
          | None => <[key := newLedgerItem workerId modelId u]> table
          end
    end.

(** A counter of the ledger, read as a number ([0] when absent). *)
Definition counter (table : gmap (string * string) (gmap string Sessions.Value))
           (workerId modelId attr : string) : Z :=
  match table !! ("token-" +:+ workerId, modelId) with
  | Some item =>
      match item !! attr with
      | Some (Sessions.VNum n) => n
      | _ => 0
      end
  | None => 0
  end.

(** The counters of an item are numbers where present. *)
Definition numericCounters (item : gmap string Sessions.Value) : Prop :=
  forall attr v,
    attr ∈ ["inputToken"; "outputToken"; "cacheReadInputTokens"; "cacheWriteInputTokens"] ->
    item !! attr = Some v -> exists n, v = Sessions.VNum n.

End Ledger.

(** ** The Anthropic client: API key and response conversion *)

Module AnthropicClient.
Import Model Res Response Anthropic.

Record KeyEnv := {
  ANTHROPIC_API_KEY : option string;
  ANTHROPIC_API_KEY_PARAMETER_NAME : option string;
  getParameter : string -> Result (option string)   (* the secret reader *)
}.

(** [getAnthropicClient], with the module-level [cachedApiKey] threaded
    through; the result is the key the client is built with. *)
Definition getAnthropicClient (env : KeyEnv) (cachedApiKey : option string)
  : Result string * option string :=
  if JS.truthy_str cachedApiKey then (Ok (default EmptyString cachedApiKey), cachedApiKey)
  else
    let fetched : Result (option string) :=
      if negb (JS.truthy_str (ANTHROPIC_API_KEY env)) then
        if JS.truthy_str (ANTHROPIC_API_KEY_PARAMETER_NAME env)
        then getParameter env (default EmptyString (ANTHROPIC_API_KEY_PARAMETER_NAME env))
        else Ok (ANTHROPIC_API_KEY env)
      else Ok (ANTHROPIC_API_KEY env) in
    match fetched with
    | Threw e => (Threw e, cachedApiKey)
    | Ok apiKey =>
        if negb (JS.truthy_str apiKey)
        then (Threw (OtherError "Anthropic API key not found"), cachedApiKey)
        else (Ok (default EmptyString apiKey), apiKey)
    end.

(** A content block of a Messages API response. *)
Inductive ResponseBlock :=
| RText (text : string)
| RToolUse (id name : string) (input : Document)
| RThinking (thinking signature : string)
| ROther.

Record ResponseUsage := {
  input_tokens : option Z;
  output_tokens : option Z;
  cache_read_input_tokens : option Z;
  cache_creation_input_tokens : option Z
}.

Record AnthropicMessage := {
  r_content : list ResponseBlock;
  stop_reason : option StopReason;
  r_usage : ResponseUsage
}.

Definition convertBlock (block : ResponseBlock) : list ContentBlock :=
  match block with
  | RText t => [CText t]
  | RToolUse id name input =>
      [CToolUse {| toolUseId := Some id; tu_name := Some name; tu_input := Some input |}]
  | RThinking thinking _ =>
      [CReasoningContent {| rc_text := None; rc_reasoningText := Some thinking |}]
  | ROther => []
  end.

(** [convertFromAnthropicResponse]; the second component is [usage.totalTokens]. *)
Definition convertFromAnthropicResponse (response : AnthropicMessage)
  : ConverseResponse * Z :=
  let inputTokens := default 0 (input_tokens (r_usage response)) in
  let outputTokens := default 0 (output_tokens (r_usage response)) in
  ({| output_message :=
        Some {| role := assistant;
                content := Some (concat (map convertBlock (r_content response))) |};
      stopReason := stop_reason response;
      usage :=
        Some {| Response.inputTokens := Some inputTokens;
                Response.outputTokens := Some outputTokens;
                cacheReadInputTokens :=
                  Some (default 0 (cache_read_input_tokens (r_usage response)));
                cacheWriteInputTokens :=
                  Some (default 0 (cache_creation_input_tokens (r_usage response))) |} |},
   inputTokens + outputTokens).

(** What a response block looks like when the answer is sent back in the next
    request: the signature of a thinking block is gone, a falsy tool input has
    become the empty object, an empty text and an unknown block leave
    nothing. *)
Definition echoed (block : ResponseBlock) : list AContentBlock :=
  match block with
  | RText EmptyString => []
  | RText t => [plain (AText t)]
  | RToolUse id name input =>
      [plain (AToolUse id name (if truthy_doc input then input else emptyObject))]
  | RThinking thinking _ => [plain (AThinking EmptyString thinking)]
  | ROther => []
  end.

(** Tool ids of a message, before and after the conversion to the Messages
    API format. *)
Definition toolUseIds (cs : list ContentBlock) : list string :=
  omap (fun c => match c with
                 | CToolUse tu => Some (nonempty_or EmptyString (toolUseId tu))
                 | _ => None
                 end) cs.

Definition toolResultIds (cs : list ContentBlock) : list string :=
  omap (fun c => match c with
                 | CToolResult tr => Some (nonempty_or EmptyString (tr_toolUseId tr))
                 | _ => None
                 end) cs.

Definition a_toolUseIds (bs : list AContentBlock) : list string :=
  omap (fun b => match ab_body b with AToolUse id _ _ => Some id | _ => None end) bs.

Definition a_toolResultIds (bs : list AContentBlock) : list string :=
  omap (fun b => match ab_body b with AToolResult id _ _ => Some id | _ => None end) bs.

End AnthropicClient.

(** ** Reading and listing sessions ([getSession], [getSessions]) *)

Module SessionList.
Import Sessions.

Definition getSession (workerId : string)
           (table : gmap (string * string) (gmap string Value))
  : option (gmap string Value) :=
  table !! ("sessions", workerId).

(** [String(n)] for an integer [0 <= n < 10^21]: its decimal digits, without
    leading zeros. *)
Definition digit (d : N) : ascii := ascii_of_N (48 + d).

Fixpoint fixedDigits (w : nat) (n : N) : string :=
  match w with
  | O => EmptyString
  | S w' =>
      String (digit ((n / 10 ^ N.of_nat w') mod 10))
             (fixedDigits w' (n mod 10 ^ N.of_nat w'))
  end.

Fixpoint stripZeros (s : string) : string :=
  match s with
  | String c (String c' s' as rest) =>
      if Ascii.eqb c "0"%char then stripZeros rest else s
  | _ => s
  end.

Definition String_of_N (n : N) : string := stripZeros (fixedDigits 21 n).

(** [s.padStart(targetLength, c)] for a one character pad. *)
Fixpoint repeatChar (k : nat) (c : ascii) (s : string) : string :=
  match k with
  | O => s
  | S k' => String c (repeatChar k' c s)
  end.

Definition padStart (targetLength : nat) (c : ascii) (s : string) : string :=
  repeatChar (targetLength - String.length s) c s.

(** [String(range.startDate).padStart(15, '0')] *)
Definition timestampKey (t : N) : string := padStart 15 "0"%char (String_of_N t).

Definition lsi1 (item : gmap string Value) : option string :=
  match item !! "LSI1" with
  | Some (VStr s) => Some s
  | _ => None
  end.

(** [!session.isHidden] *)
Definition visible (item : gmap string Value) : bool :=
  match item !! "isHidden" with
  | Some (VBool true) => false
  | _ => true
  end.

(** The store's [Query] on index [LSI1] with [PK = 'sessions'] and
    [ScanIndexForward: false]: [index] is that partition as the store orders
    it, newest first; the key condition [BETWEEN] keeps a sub-sequence of it
    and [Limit] a prefix of that. *)
Definition between (lo hi : string) (item : gmap string Value) : bool :=
  match lsi1 item with
  | Some k => String.leb lo k && String.leb k hi
  | None => false
  end.

Definition query (index : list (gmap string Value)) (range : option (string * string))
           (Limit : option nat) : list (gmap string Value) :=
  let matching :=
    match range with
    | Some r => JS.filter (between (fst r) (snd r)) index
    | None => index
    end in
  match Limit with
  | Some n => take n matching
  | None => matching
  end.

Definition getSessions (index : list (gmap string Value)) (limit : nat)
           (range : option (N * N)) : list (gmap string Value) :=
  let keys :=
    match range with
    | Some r => Some (timestampKey (fst r), timestampKey (snd r))
    | None => None
    end in
  if Nat.eqb limit 0
  then JS.filter visible (query index keys None)       (* all pages *)
  else JS.filter visible (query index keys (Some limit)).

End SessionList.

(** ** More of the turn loop: [resume], the tool catalog, cache points *)

Module Turn.
Import Model Res Response Agent.

Section Resume.
Variable middleOutFiltering : list MessageItem -> FilterResult.

(** [None]: nothing was run. *)
Definition resume (t : Agent.Turn) (w : Worker) : option Exit * Worker :=
  match messageType <$> JS.at_ (history w) (-1) with
  | Some userMessage | Some toolResult =>
      let r := onMessageReceived middleOutFiltering t w in (Some (fst r), snd r)
  | _ => (None, w)
  end.

End Resume.

Record BuiltinTool := { bt_name : string; bt_toolSpec : ToolSpec }.

Section Catalog.
Variables ciTool cloneRepositoryTool createPRTool commandExecutionTool
          reportProgressTool fileEditTool sendImageTool getPRCommentsTool
          replyPRCommentTool addIssueCommentTool readImageTool todoInitTool
          todoUpdateTool : BuiltinTool.

Definition builtinTools : list BuiltinTool :=
  [ ciTool; cloneRepositoryTool; createPRTool; commandExecutionTool;
    reportProgressTool; fileEditTool; sendImageTool; getPRCommentsTool;
    replyPRCommentTool; addIssueCommentTool; readImageTool; todoInitTool;
    todoUpdateTool ].

Definition requiredTools : list string :=
  [ bt_name reportProgressTool; bt_name todoInitTool; bt_name todoUpdateTool;
    bt_name sendImageTool ].

Definition includes_name (names : list string) (n : string) : bool :=
  existsb (String.eqb n) names.

Definition selectTools (customAgentTools : list string) : list BuiltinTool :=
  JS.filter (fun tool => includes_name customAgentTools (bt_name tool)
                         || includes_name requiredTools (bt_name tool))
            builtinTools.

(** [toolConfig], [undefined] when only the cachePoint entry is there. *)
Definition assembleToolConfig (customAgentTools : list string) (mcpToolSpecs : list Tool)
  : option ToolConfig :=
  let entries :=
    map (fun tool => ToolSpecMember (bt_toolSpec tool)) (selectTools customAgentTools)
    ++ mcpToolSpecs ++ [ToolCachePoint default_cachePoint] in
  if Nat.eqb (length entries) 1 then None
  else Some {| tools := Some entries; toolChoice := None |}.

End Catalog.

(** [const message = messages[cp]; if (message?.content) message.content =
    [...message.content, { cachePoint }]] *)
Definition addCachePoint (messages : list Message) (cp : Z) : list Message :=
  if cp <? 0 then messages
  else
    match messages !! Z.to_nat cp with
    | Some message =>
        match content message with
        | Some cs =>
            <[Z.to_nat cp := {| role := role message;
                                content := Some (cs ++ [CCachePoint default_cachePoint]) |}]>
              messages
        | None => messages
        end
    | None => messages
    end.

(** [[...new Set([firstCachePoint, secondCachePoint])].forEach(...)] *)
Definition placeCachePoints (firstCachePoint secondCachePoint : Z)
           (messages : list Message) : list Message :=
  foldl addCachePoint messages
        (if firstCachePoint =? secondCachePoint then [firstCachePoint]
         else [firstCachePoint; secondCachePoint]).

(** [initialItems.length > 2 ? initialItems.length - 3 : initialItems.length - 1] *)
Definition initialFirstCachePoint (n : nat) : Z :=
  if (2 <? n)%nat then Z.of_nat n - 3 else Z.of_nat n - 1.

(** The cache points of the first request of a turn over [messages]. *)
Definition firstRequestMessages (messages : list Message) : list Message :=
  placeCachePoints (initialFirstCachePoint (length messages))
                   (Z.of_nat (length messages) - 1) messages.

Definition hasNoCachePoint (m : Message) : Prop :=
  Forall (fun c => has_cachePoint c = false) (default [] (content m)).

End Turn.

(** ** Views used to state what stays the same *)

Module Views.
Import Model Res.

(** The blocks that carry the conversation: everything but reasoning blocks
    and cache markers. *)
Definition payload (c : ContentBlock) : bool :=
  negb (has_reasoningContent c) && negb (has_cachePoint c).

Definition messageView (msg : Message) : Role * option (list ContentBlock) :=
  (role msg, JS.filter payload <$> content msg).

(** A stored item without its [tokenCount]. *)
Definition itemFrame (i : Agent.MessageItem)
  : nat * Role * Agent.MessageType * list ContentBlock * option Z :=
  (Agent.SK i, Agent.mi_role i, Agent.messageType i, Agent.mi_content i,
   Agent.mi_thinkingBudget i).

(** A provider call that is throttled, with no cancellation arriving. *)
Definition throttled (s : Agent.Step) : Prop :=
  Agent.outcome s = Agent.Throws ThrottlingException /\ Agent.cancelDuringCall s = false.

(** A provider call answered with tool requests that all carry an id, with
    no cancellation arriving during the call or while the tools run. *)
Definition toolRound (s : Agent.Step) : Prop :=
  exists res b m,
    Agent.outcome s = Agent.Responds res b /\
    Response.stopReason res = Some Response.tool_use /\
    Response.output_message res = Some m /\
    Forall (fun c => forall tu, c = CToolUse tu -> is_Some (toolUseId tu))
           (default [] (content m)) /\
    Agent.cancelDuringCall s = false /\ Agent.cancelDuringTools s = false.

(** A provider call answered with a final message that is not empty. *)
Definition answers (s : Agent.Step) : Prop :=
  exists res b c cs,
    Agent.outcome s = Agent.Responds res b /\
    Response.stopReason res <> Some Response.tool_use /\
    Response.stopReason res <> Some Response.max_tokens /\
    Response.output_message res ≫= content = Some (c :: cs) /\
    Agent.cancelDuringCall s = false.

(** Cache markers in the messages of a request. *)
Definition cachePoints (messages : list Message) : nat :=
  sum_list (map (fun m => count_if has_cachePoint (default [] (content m))) messages).

End Views.

(** ** More concrete cases *)

Module Cases.
Import Model Res Response.

Definition usage1 : TokenUsage :=
  {| inputTokens := Some 100; outputTokens := Some 20;
     cacheReadInputTokens := None; cacheWriteInputTokens := Some 5 |}.

Definition ledger0 : gmap (string * string) (gmap string Sessions.Value) :=
  {[ ("token-w1", "m1") :=
       {[ "PK" := Sessions.VStr "token-w1"; "SK" := Sessions.VStr "m1";
          "inputToken" := Sessions.VNum 7; "outputToken" := Sessions.VNum 3 ]} ]}.

Definition usageResponse : ConverseResponse :=
  {| output_message := None; stopReason := Some end_turn; usage := Some usage1 |}.

Definition envKey : AnthropicClient.KeyEnv :=
  {| AnthropicClient.ANTHROPIC_API_KEY := Some "sk-env";
     AnthropicClient.ANTHROPIC_API_KEY_PARAMETER_NAME := Some "/param";
     AnthropicClient.getParameter := fun _ => Ok (Some "sk-ssm") |}.

Definition noKey : AnthropicClient.KeyEnv :=
  {| AnthropicClient.ANTHROPIC_API_KEY := None;
     AnthropicClient.ANTHROPIC_API_KEY_PARAMETER_NAME := None;
     AnthropicClient.getParameter := fun _ => Threw (OtherError "unreachable") |}.

Definition tool (n : string) : Turn.BuiltinTool :=
  {| Turn.bt_name := n;
     Turn.bt_toolSpec := {| ts_name := Some n; ts_description := None;
                            ts_inputSchema := None |} |}.

Definition session (workerId lsi : string) (hidden : bool) : gmap string Sessions.Value :=
  {[ "PK" := Sessions.VStr "sessions"; "SK" := Sessions.VStr workerId;
     "LSI1" := Sessions.VStr lsi; "isHidden" := Sessions.VBool hidden ]}.

Definition sessionIndex : list (gmap string Sessions.Value) :=
  [ session "w3" "000001700000300" false;
    session "w2" "000001700000200" true;
    session "w1" "000001700000100" false ].

Definition twoMessages : list Message :=
  [ Samples.userText "list files";
    {| role := assistant; content := Some [Samples.aToolUse] |} ].

Definition throttleStep : Agent.Step :=
  {| Agent.outcome := Agent.Throws ThrottlingException;
     Agent.cancelDuringCall := false;
     Agent.toolOutput := fun _ => [];
     Agent.cancelDuringTools := false |}.

Definition failingStep : Agent.Step :=
  {| Agent.outcome := Agent.Throws (OtherError "ValidationException");
     Agent.cancelDuringCall := false;
     Agent.toolOutput := fun _ => [];
     Agent.cancelDuringTools := false |}.

Definition answeredTurn : Agent.Turn :=
  {| Agent.steps := [Samples.finalStep false];
     Agent.titleReply := Threw (OtherError "unused");
     Agent.cancelAfterLoop := false |}.

(** The answer [Title] between an ideographic space (U+3000) and a no-break
    space (U+00A0), in UTF-8. *)
Definition paddedTitle : string :=
  String (ascii_of_nat 227) (String (ascii_of_nat 128) (String (ascii_of_nat 128)
    ("Title" +:+ String (ascii_of_nat 194) (String (ascii_of_nat 160) EmptyString)))).


Definition toolStep : Agent.Step :=
  {| Agent.outcome :=
       Agent.Responds
         {| output_message :=
              Some {| role := assistant;
                      content := Some [CText "Listing."; Samples.aToolUse] |};
            stopReason := Some tool_use;
            usage := Some usage1 |}
         None;
     Agent.cancelDuringCall := false;
     Agent.toolOutput := fun _ => [TRText "a.txt"];
     Agent.cancelDuringTools := false |}.

Definition toolTurn : Agent.Turn :=
  {| Agent.steps := [toolStep; toolStep; Samples.finalStep false];
     Agent.titleReply := Threw (OtherError "unused");
     Agent.cancelAfterLoop := false |}.

End Cases.

(** ** The CDK app: lists read from the environment *)

Module Cdk.

(** [envVar ? envVar.split(',').map((item) => item.trim()).filter((item) =>
    item) : undefined] *)
Definition parseCommaSeparatedList (envVar : option string) : option (list string) :=
  if JS.truthy_str envVar
  then Some (JS.filter (fun item => JS.truthy_str (Some item))
                       (map JS.trim (JS.split_comma (default EmptyString envVar))))
  else None.

End Cdk.

(** ** Proof steps for the retry wrapper *)

(** An attempt that ends before the provider is reached, and one that issues
    exactly one call. *)
Ltac no_call :=
  cbn; repeat split; try done; try lia;
  try (exists []; rewrite app_nil_r;
       repeat split; first [done | cbn; lia | by constructor]).

Ltac one_call st :=
  cbn; repeat split; try done; try lia;
  try (exists [Agent.maxTokensExceededCount st];
       repeat split; first [done | cbn; lia | by (constructor; [lia | constructor])]).

(** * Properties *)

(** ** Account rotation *)

Section Rotation.
Import Model Res Converse.
Context {ModelType R : Type}.
Variable modelConfigs : ModelType -> ModelConfig.
Variable toLowerCase : string -> string.
Variable criRegion : string.

Lemma split_comma_aux_nonempty cur s : JS.split_comma_aux cur s ≠ [].
Proof.
  revert cur. induction s as [|c s IH]; intros cur; simpl; [done|].
  destruct (Ascii.eqb c ","); [done | apply IH].
Qed.

Lemma awsAccounts_nonempty env : (0 < length (awsAccounts env))%nat.
Proof.
  unfold awsAccounts, JS.split_comma.
  pose proof (split_comma_aux_nonempty EmptyString (default EmptyString env)) as H.
  destruct (JS.split_comma_aux _ _); [done | simpl; lia].
Qed.

(** C3: on the Bedrock path over [N] configured accounts, a throttling error
    raised by the provider moves the account index to [(i + 1) mod N] and is
    rethrown, and a successful call leaves the index where it was. *)
Theorem bedrockConverse_account_rotation
        (env : option string) (w : World R) (modelTypes : list ModelType)
        (input : ConverseCommandInput) (count i : nat)
        (processed : ConverseCommandInput) (budget : option Z) :
  (count <= 5)%nat ->
  prepare modelConfigs toLowerCase criRegion (awsAccounts env) w modelTypes input count i
    = Ok (processed, budget) ->
  let N := length (awsAccounts env) in
  let call := bedrockConverse modelConfigs toLowerCase criRegion (awsAccounts env)
                              w modelTypes input count i in
  (0 < N)%nat /\
  (forall e, send w processed = Raised e -> is_throttling e = true ->
             call = (Threw e, ((i + 1) mod N)%nat)) /\
  (forall r, send w processed = Sent r -> call = (Ok (r, budget), i)).
Proof.
  intros Hcount Hprep N call. subst N call.
  split; [apply awsAccounts_nonempty|].
  unfold bedrockConverse.
  replace (5 <? count)%nat with false by (symmetry; apply Nat.ltb_ge; lia).
  rewrite Hprep. split.
  - intros e Hsend Hthr. rewrite Hsend. by rewrite Hthr.
  - intros r Hsend. by rewrite Hsend.
Qed.

End Rotation.

Lemma bedrockConverse_account_rotation_witness :
  (0 <= 5)%nat /\
  Converse.bedrockConverse Samples.sampleConfigs JS.toLowerCase_ascii "us"
    (Converse.awsAccounts (Some "111,222,333")) Samples.throttlingWorld
    [Samples.sonnet] Samples.plainRequest 0 2
  = (Res.Threw Res.ThrottlingException, 0%nat) /\
  Converse.bedrockConverse Samples.sampleConfigs JS.toLowerCase_ascii "us"
    (Converse.awsAccounts (Some "111,222,333")) Samples.answeringWorld
    [Samples.sonnet] Samples.plainRequest 0 2
  = (Res.Ok (Samples.textResponse "Hi." Response.end_turn 12, None), 2%nat).
Proof.
  split; [lia|]. split.
  - destruct (bedrockConverse_account_rotation
                Samples.sampleConfigs JS.toLowerCase_ascii "us" (Some "111,222,333")
                Samples.throttlingWorld [Samples.sonnet] Samples.plainRequest 0 2
                _ _ ltac:(lia) eq_refl) as (_ & H & _).
    exact (H Res.ThrottlingException eq_refl eq_refl).
  - destruct (bedrockConverse_account_rotation
                Samples.sampleConfigs JS.toLowerCase_ascii "us" (Some "111,222,333")
                Samples.answeringWorld [Samples.sonnet] Samples.plainRequest 0 2
                _ _ ltac:(lia) eq_refl) as (_ & _ & H).
    exact (H _ eq_refl).
Defined.

(** ** Model names on the Anthropic path *)

Section ModelNames.
Import Model Anthropic.
Context {ModelType : Type}.
Variable modelConfigs : ModelType -> ModelConfig.

(** Every name in the table is a non-empty string, so a hit is returned as
    it is. *)
Lemma modelMapping_truthy k v : modelMapping !! k = Some v -> JS.truthy_str (Some v) = true.
Proof.
  unfold modelMapping. intros H.
  apply elem_of_list_to_map_2 in H.
  repeat (apply elem_of_cons in H as [H|H]; [by inversion H|]).
  by apply elem_of_nil in H.
Qed.

Lemma modelTypeToAnthropicModel_mapped (m : ModelType) (name : string) :
  modelMapping !! removeCriPrefix (mc_modelId (modelConfigs m)) = Some name ->
  modelTypeToAnthropicModel modelConfigs m = ModelName name.
Proof.
  intros H. unfold modelTypeToAnthropicModel, lookupModel. cbv zeta.
  rewrite H. by rewrite (modelMapping_truthy _ _ H).
Qed.


End ModelNames.



(** ** Session titles *)

Section Titles.
Import Model Res Response Sessions.

(** The title is the provider's first text block, trimmed; its length is
    whatever the provider returned. *)
Lemma generateSessionTitle_is_trimmed_output
      (workerId message output : string) (rest : list ContentBlock)
      (stop : option StopReason) (u : option TokenUsage) (b : option Z) :
  generateSessionTitle
    (fun _ _ _ =>
       Ok ({| output_message :=
                Some {| role := assistant; content := Some (CText output :: rest) |};
              stopReason := stop; usage := u |}, b))
    workerId message
  = JS.trim output.
Proof. reflexivity. Qed.

(** C8 (at a failing input): when the provider answers with a 34 character
    text, that text, trimmed, is the title: nothing cuts it to 15. *)
Theorem generateSessionTitle_exceeds_15 :
  let title :=
    generateSessionTitle
      (fun _ _ _ =>
         Ok (Samples.textResponse (" " +:+ Samples.longTitle +:+ " ") end_turn 120, None))
      "worker-1" "User: please refactor the authentication module" in
  title = Samples.longTitle /\ String.length title = 34%nat /\ (15 < String.length title)%nat.
Proof. vm_compute. repeat split; lia. Qed.

End Titles.

(** ** Input normalization on the Bedrock path: the reasoning budget *)

Section Budget.
Import Model Converse.
Context {ModelType : Type}.
Variable modelConfigs : ModelType -> ModelConfig.
Variable toLowerCase : string -> string.

Lemma last_cons_case {A : Type} (x : A) (l : list A) :
  last (x :: l) = match last l with Some y => Some y | None => Some x end.
Proof.
  destruct l as [|y l]; [done|].
  change (last (x :: y :: l)) with (last (y :: l)).
  destruct (last (y :: l)) eqn:E; [done|].
  exfalso. revert y E. induction l as [|z l IH]; intros y E; [done|].
  by apply (IH z).
Qed.

Lemma userWithText_filter (m : Message) :
  (Role_eqb (role m) user &&
   match content m with Some cs => JS.some has_text cs | None => false end)
  = Spec.userWithText m.
Proof. unfold Spec.userWithText, JS.some. by destruct (content m). Qed.

Lemma pop_filter_lastUserWithText (msgs : list Message) :
  JS.pop (JS.filter
            (fun message =>
               Role_eqb (role message) user &&
               match content message with
               | Some cs => JS.some has_text cs
               | None => false
               end) msgs)
  = Spec.lastUserWithText msgs.
Proof.
  unfold JS.pop. induction msgs as [|m rest IH]; [done|].
  simpl. rewrite userWithText_filter, <- IH.
  destruct (Spec.userWithText m); [|by destruct (last _)].
  by rewrite last_cons_case.
Qed.

Lemma lastUserWithText_has_text (msgs : list Message) (m : Message) :
  Spec.lastUserWithText msgs = Some m -> Spec.userWithText m = true.
Proof.
  induction msgs as [|m0 rest IH]; [done|]. simpl.
  destruct (Spec.lastUserWithText rest); [intros [= <-]; by apply IH|].
  destruct (Spec.userWithText m0) eqn:E; [by intros [= <-] | done].
Qed.

(** The source's keyword test is the specification's: the last user message
    with a text block, its texts joined, lowercased, searched. *)
Lemma shouldUltraThink_spec (input : ConverseCommandInput) :
  shouldUltraThink toLowerCase input = Spec.ultrathinkRequested toLowerCase input.
Proof.
  unfold shouldUltraThink, Spec.ultrathinkRequested. cbv zeta.
  rewrite pop_filter_lastUserWithText.
  destruct (Spec.lastUserWithText _) as [m|] eqn:E; [|done].
  apply lastUserWithText_has_text in E.
  unfold Spec.userWithText in E. unfold Spec.textContent.
  destruct (content m); [done|]. simpl in E. by rewrite andb_false_r in E.
Qed.

(** C5: whenever normalization enables reasoning, the attached budget is
    2000 by default and [min (maxOutputTokens / 2) 31999] exactly when the
    lowercased text of the last user message with text contains
    'ultrathink'; the non-default budget is also what the call reports. *)
Theorem preProcessInput_reasoning_budget
        (input : ConverseCommandInput) (m : ModelType) (count : nat) :
  let cfg := modelConfigs m in
  let ultra := Spec.ultrathinkRequested toLowerCase input in
  let ultraBudget := Z.min (maxOutputTokens cfg / 2) 31999 in
  let out := preProcessInput modelConfigs toLowerCase input m count in
  enableReasoning cfg (dropUnsupportedToolChoice cfg (toolConfig input)) (messages input)
    = true ->
  exists budget,
    additionalModelRequestFields (fst out) ≫= reasoning_config
      = Some {| budget_tokens := budget |} /\
    budget = (if ultra then ultraBudget else 2000) /\
    snd out = (if ultra then Some ultraBudget else None) /\
    (ultraBudget <> 2000 -> (budget = ultraBudget <-> ultra = true)).
Proof.
  intros cfg ultra ultraBudget out Hen.
  exists (if ultra then ultraBudget else 2000).
  subst out. unfold preProcessInput. cbv zeta. fold cfg.
  rewrite Hen, shouldUltraThink_spec. fold ultra. unfold reasoningBudget.
  fold ultraBudget. simpl.
  repeat split; try done.
  - by destruct ultra.
  - by destruct ultra.
  - destruct ultra; [done|]. intros Heq. by symmetry in Heq.
Qed.

End Budget.

Lemma preProcessInput_reasoning_budget_witness :
  Converse.enableReasoning
    (Samples.sampleConfigs Samples.sonnet)
    (Converse.dropUnsupportedToolChoice (Samples.sampleConfigs Samples.sonnet)
                                        (Model.toolConfig Samples.ultraRequest))
    (Model.messages Samples.ultraRequest) = true /\
  exists budget,
    Model.additionalModelRequestFields
      (fst (Converse.preProcessInput Samples.sampleConfigs JS.toLowerCase_ascii
                                     Samples.ultraRequest Samples.sonnet 0))
      ≫= Model.reasoning_config
    = Some {| Model.budget_tokens := budget |} /\
    budget = 31999.
Proof.
  split; [vm_compute; reflexivity|].
  destruct (preProcessInput_reasoning_budget
              Samples.sampleConfigs JS.toLowerCase_ascii Samples.ultraRequest
              Samples.sonnet 0 ltac:(vm_compute; reflexivity))
    as (budget & H1 & H2 & _).
  exists budget. split; [exact H1|]. rewrite H2. vm_compute. reflexivity.
Defined.

(** ** Cache markers *)

Section SpliceLoop.
Context {A : Type}.
Variable p : A -> bool.

Lemma filter_app (q : A -> bool) (l1 l2 : list A) :
  JS.filter q (l1 ++ l2) = JS.filter q l1 ++ JS.filter q l2.
Proof. induction l1 as [|x l1 IH]; [done|]. simpl. destruct (q x); simpl; by rewrite IH. Qed.

Lemma count_if_none (l : list A) :
  Forall (fun x => p x = false) l -> Model.count_if p l = O.
Proof.
  unfold Model.count_if. induction 1 as [|x l Hx _ IH]; [done|].
  simpl. by rewrite Hx.
Qed.

Lemma filter_negb_none (l : list A) :
  Forall (fun x => p x = false) (JS.filter (fun x => negb (p x)) l).
Proof.
  induction l as [|x l IH]; [constructor|]. simpl.
  destruct (p x) eqn:E; simpl; [done|]. by constructor.
Qed.

(** The backwards [splice] loop, stopped after the indices [>= n], has
    filtered the tail and left the first [n] elements alone. *)
Lemma splice_loop_filter (n : nat) : forall a : list A,
  (n <= length a)%nat ->
  JS.splice_loop p a n = JS.filter (fun x => negb (p x)) (take n a) ++ drop n a.
Proof.
  induction n as [|i IH]; intros a Hn; [by rewrite take_0, drop_0|].
  simpl. destruct (lookup_lt_is_Some_2 a i ltac:(lia)) as [x Hx].
  rewrite Hx, (take_S_r _ _ _ Hx), filter_app. simpl.
  destruct (p x) eqn:E; simpl.
  - rewrite IH by (rewrite length_delete by eauto; lia).
    rewrite delete_take_drop, app_nil_r.
    rewrite take_app_le by (rewrite length_take; lia).
    rewrite take_take, Nat.min_id.
    rewrite drop_app_length' by (rewrite length_take; lia). done.
  - rewrite IH by lia. rewrite (drop_S _ _ _ Hx), <- app_assoc. done.
Qed.

Lemma splice_all_filter (a : list A) :
  JS.splice_all p a = JS.filter (fun x => negb (p x)) a.
Proof.
  unfold JS.splice_all. rewrite splice_loop_filter by lia.
  by rewrite firstn_all, drop_all, app_nil_r.
Qed.

Lemma count_if_splice_all (a : list A) : Model.count_if p (JS.splice_all p a) = O.
Proof. rewrite splice_all_filter. apply count_if_none, filter_negb_none. Qed.

End SpliceLoop.

Section CacheMarkers.
Import Model.
Context {ModelType : Type}.
Variable modelConfigs : ModelType -> ModelConfig.
Variable toLowerCase : string -> string.

Lemma sum_list_zero (l : list nat) : Forall (fun n => n = O) l -> sum_list l = O.
Proof. induction 1 as [|n l Hn _ IH]; [done|]. simpl. lia. Qed.

Lemma dropUnsupportedToolChoice_tools (cfg : ModelConfig) (tc : option ToolConfig) :
  Converse.dropUnsupportedToolChoice cfg tc ≫= tools = tc ≫= tools.
Proof.
  destruct tc as [t|]; [|done]. simpl.
  destruct (toolChoice t); [|done]. by destruct (JS.every _ _).
Qed.

(** Bedrock path: an unsupported layer of the normalized request carries no
    marker. *)
Lemma preProcessInput_markers (input : ConverseCommandInput) (m : ModelType)
      (count : nat) (layer : CacheLayer) :
  supports (modelConfigs m) layer = false ->
  markers layer (fst (Converse.preProcessInput modelConfigs toLowerCase input m count)) = O.
Proof.
  intros Hs. unfold Converse.preProcessInput. cbv zeta.
  destruct layer; simpl; rewrite Hs; simpl.
  - unfold system_markers. simpl.
    destruct (system input); [apply count_if_splice_all | done].
  - unfold tool_markers. simpl.
    destruct (Converse.dropUnsupportedToolChoice _ _) as [t|]; [|done]. simpl.
    destruct (tools t); [apply count_if_splice_all | done].
  - unfold message_markers. simpl.
    apply sum_list_zero, Forall_map.
    match goal with
    | |- Forall _ (default [] (map _ <$> ?ms)) => destruct ms as [l|]; [|constructor]
    end.
    simpl. apply Forall_map, Forall_forall. intros msg _. simpl.
    destruct (content msg); [apply count_if_splice_all | done].
Qed.

(** Anthropic path: the conversion reads the marker of a block that also has
    the [text] (or [toolSpec]) member; no block of the tagged unions has
    both, so no marker is ever produced. *)
Lemma convertSystemBlock_unmarked (s : SystemContentBlock) :
  Forall (fun b => bool_decide (is_Some (Anthropic.tb_cache_control b)) = false)
         (Anthropic.convertSystemBlock s).
Proof.
  destruct s as [t|c]; unfold Anthropic.convertSystemBlock; simpl.
  - destruct t; repeat constructor.
  - constructor.
Qed.

Lemma convertTool_unmarked (t : Tool) :
  Forall (fun b => bool_decide (is_Some (Anthropic.at_cache_control b)) = false)
         (Anthropic.convertTool t).
Proof. destruct t as [spec|c]; unfold Anthropic.convertTool; simpl; repeat constructor. Qed.

Lemma convertContent_unmarked (c : ContentBlock) :
  Forall (fun b => bool_decide (is_Some (Anthropic.ab_cache_control b)) = false)
         (Anthropic.convertContent c).
Proof.
  destruct c as [t|img|tu|tr|r|cp]; simpl; repeat constructor.
  - destruct t; repeat constructor.
  - destruct (img_bytes img); repeat constructor.
Qed.

Lemma Forall_concat_map {X Y : Type} (P : Y -> Prop) (f : X -> list Y) (l : list X) :
  (forall x, Forall P (f x)) -> Forall P (concat (map f l)).
Proof.
  intros H. induction l as [|x l IH]; [constructor|].
  simpl. apply Forall_app. split; [apply H | apply IH].
Qed.

Lemma requestParams_markers (input : ConverseCommandInput) (m : ModelType)
      (layer : CacheLayer) :
  Anthropic.a_markers layer (Anthropic.requestParams modelConfigs toLowerCase input m) = O.
Proof.
  destruct layer; simpl.
  - unfold Anthropic.a_system_markers. simpl. unfold Anthropic.convertSystem.
    destruct (system input) as [[|s rest]|]; [done| |done].
    pose proof (Forall_concat_map _ Anthropic.convertSystemBlock (s :: rest)
                  convertSystemBlock_unmarked) as H.
    destruct (concat _) as [|b [|b' bs]]; [done|done|].
    by apply count_if_none.
  - unfold Anthropic.a_tool_markers. simpl. unfold Anthropic.convertTools.
    destruct (toolConfig input ≫= tools) as [[|t rest]|]; [done| |done].
    pose proof (Forall_concat_map _ Anthropic.convertTool (t :: rest)
                  convertTool_unmarked) as H.
    destruct (concat _) as [|b bs]; [done|].
    by apply count_if_none.
  - unfold Anthropic.a_message_markers. simpl.
    apply sum_list_zero, Forall_map, Forall_map, Forall_forall. intros msg _. simpl.
    apply count_if_none, Forall_concat_map, convertContent_unmarked.
Qed.

(** C7: for each of the layers system, tool and message that is not in the
    model's [cacheSupport], the normalized request carries no cachePoint
    marker in that layer, on the Bedrock path and on the Anthropic path. *)
Theorem unsupported_layer_has_no_cache_marker
        (input : ConverseCommandInput) (m : ModelType) (count : nat)
        (layer : CacheLayer) :
  supports (modelConfigs m) layer = false ->
  markers layer (fst (Converse.preProcessInput modelConfigs toLowerCase input m count)) = O
  /\ Anthropic.a_markers layer (Anthropic.requestParams modelConfigs toLowerCase input m) = O.
Proof.
  intros Hs. split; [by apply preProcessInput_markers | apply requestParams_markers].
Qed.

End CacheMarkers.

Lemma unsupported_layer_has_no_cache_marker_witness :
  Model.supports (Samples.sampleConfigs Samples.haiku) Model.L_message = false /\
  Model.markers Model.L_message Samples.chainWithReasoning = 1%nat /\
  Model.markers Model.L_message
    (fst (Converse.preProcessInput Samples.sampleConfigs JS.toLowerCase_ascii
                                   Samples.chainWithReasoning Samples.haiku 0)) = O.
Proof.
  split; [reflexivity|]. split; [reflexivity|].
  apply (unsupported_layer_has_no_cache_marker
           Samples.sampleConfigs JS.toLowerCase_ascii
           Samples.chainWithReasoning Samples.haiku 0 Model.L_message).
  reflexivity.
Defined.

(** ** Reasoning gate *)

Section ReasoningGate.
Import Model.
Context {ModelType : Type}.
Variable modelConfigs : ModelType -> ModelConfig.
Variable toLowerCase : string -> string.

Lemma at_negative {A : Type} (l : list A) (j : nat) :
  JS.at_ l (- Z.of_nat (S j)) =
  if (S j <=? length l)%nat then l !! (length l - S j)%nat else None.
Proof.
  unfold JS.at_. cbv zeta.
  replace (- Z.of_nat (S j) <? 0) with true by (symmetry; apply Z.ltb_lt; lia).
  destruct (Nat.leb_spec (S j) (length l)) as [Hl|Hl].
  - replace (Z.of_nat (length l) + - Z.of_nat (S j) <? 0) with false
      by (symmetry; apply Z.ltb_ge; lia).
    replace (Z.of_nat (length l) <=? Z.of_nat (length l) + - Z.of_nat (S j)) with false
      by (symmetry; apply Z.leb_gt; lia).
    simpl orb. cbv iota. f_equal. lia.
  - replace (Z.of_nat (length l) + - Z.of_nat (S j) <? 0) with true
      by (symmetry; apply Z.ltb_lt; lia).
    done.
Qed.

Lemma at_last {A : Type} (l : list A) : JS.at_ l (-1) = last l.
Proof.
  change (-1) with (- Z.of_nat 1). rewrite at_negative, last_lookup.
  destruct l as [|x l]; [done|]. simpl. f_equal. lia.
Qed.

Lemma at_head {A : Type} (l : list A) : JS.at_ l 0 = head l.
Proof. by destruct l. Qed.

Lemma at_secondToLast (l : list Message) : JS.at_ l (-2) = Spec.secondToLast l.
Proof.
  change (-2) with (- Z.of_nat 2). rewrite at_negative.
  induction l as [|x [|y [|z r]] IH]; [done|done|done|].
  change (Spec.secondToLast (x :: y :: z :: r)) with (Spec.secondToLast (y :: z :: r)).
  rewrite <- IH. simpl length. simpl Nat.leb.
  replace (S (S (S (length r))) - 2)%nat with (S (S (S (length r)) - 2))%nat by lia.
  done.
Qed.

(** The source's test on [messages.at(-2)] is the specification's
    "tool-use message lacking a preceding reasoning block". *)
Lemma midToolChain_source (input : ConverseCommandInput) :
  Converse.at2_first_reasoning_null (messages input)
  && Converse.at2_last_toolUse_nonnull (messages input)
  = Spec.midToolChainWithoutReasoning input.
Proof.
  unfold Converse.at2_first_reasoning_null, Converse.at2_last_toolUse_nonnull,
    Converse.at2_content, Spec.midToolChainWithoutReasoning.
  destruct (messages input) as [l|]; [|done]. simpl.
  rewrite at_secondToLast. destruct (Spec.secondToLast l) as [m|]; [|done].
  destruct (content m) as [cs|]; [|done]. simpl.
  rewrite at_last, at_head.
  destruct (last cs) as [c|] eqn:E; [|by rewrite andb_false_r].
  destruct (head cs) as [[]|]; destruct c; done.
Qed.

Lemma toolChoice_decide (tc : option ToolConfig) :
  bool_decide (is_Some (tc ≫= toolChoice)) = negb (Spec.noToolChoice tc).
Proof.
  destruct tc as [t|]; [|done]. unfold Spec.noToolChoice.
  cbn [mbind option_bind]. by destruct (toolChoice t).
Qed.

Lemma Forall_filter {A : Type} (P : A -> Prop) (q : A -> bool) (l : list A) :
  Forall P l -> Forall P (JS.filter q l).
Proof.
  induction 1 as [|x l Hx _ IH]; [constructor|]. simpl.
  destruct (q x); [by constructor | done].
Qed.

(** X5, Bedrock path: reasoning is enabled exactly when the model supports it,
    no [toolChoice] is left after the unsupported ones were dropped, and the
    request is not in a tool chain without reasoning; when it is disabled,
    the outbound messages hold no reasoning block. *)
Lemma preProcessInput_reasoning_gate
      (input : ConverseCommandInput) (m : ModelType) (count : nat) :
  let cfg := modelConfigs m in
  let tc := Converse.dropUnsupportedToolChoice cfg (toolConfig input) in
  let enable := Converse.enableReasoning cfg tc (messages input) in
  enable = reasoningSupport cfg && Spec.noToolChoice tc
           && negb (Spec.midToolChainWithoutReasoning input)
  /\ (enable = false ->
      reasoning_blocks
        (fst (Converse.preProcessInput modelConfigs toLowerCase input m count)) = O).
Proof.
  intros cfg tc enable. split.
  - subst enable. unfold Converse.enableReasoning.
    rewrite midToolChain_source, toolChoice_decide.
    destruct (reasoningSupport cfg); [|done].
    destruct (Spec.noToolChoice tc); [|done].
    by destruct (Spec.midToolChainWithoutReasoning input).
  - intros Hoff. unfold Converse.preProcessInput. cbv zeta.
    fold cfg. fold tc. fold enable. rewrite Hoff. simpl.
    unfold reasoning_blocks. simpl.
    apply sum_list_zero, Forall_map.
    assert (Hs : forall msg, count_if has_reasoningContent
                               (default [] (content (Converse.stripReasoning msg))) = O).
    { intros msg. unfold Converse.stripReasoning. simpl.
      destruct (content msg); [|done]. simpl.
      apply count_if_none, filter_negb_none. }
    assert (Hp : forall msg,
               count_if has_reasoningContent (default [] (content msg)) = O ->
               count_if has_reasoningContent
                        (default [] (content (Converse.pruneMessage msg))) = O).
    { intros msg. unfold Converse.pruneMessage. simpl.
      destruct (content msg) as [cs|]; [|done]. simpl.
      rewrite splice_all_filter. unfold count_if.
      induction cs as [|c cs IH]; [done|]. simpl.
      destruct c; simpl; try done; auto. }
    destruct (messages input) as [l|]; [|by destruct (negb _); constructor].
    destruct (negb (supports cfg L_message)); simpl.
    + apply Forall_map, Forall_map, Forall_forall.
      intros msg _. unfold compose. apply Hp, Hs.
    + apply Forall_map, Forall_forall. intros msg _. unfold compose. apply Hs.
Qed.

(** C1 (at two failing inputs, Anthropic path).  In a tool chain whose
    assistant message starts with a reasoning block - where the Bedrock
    path enables reasoning - the Anthropic path disables it and still sends
    the thinking block; in a tool chain without a reasoning block - where
    the Bedrock path disables reasoning - the Anthropic path enables it. *)
Theorem anthropic_reasoning_gate_inverted :
  let cfg := Samples.sampleConfigs Samples.sonnet in
  let bedrock i :=
    Converse.enableReasoning cfg (Converse.dropUnsupportedToolChoice cfg (toolConfig i))
                             (messages i) in
  let anthropic i :=
    Anthropic.requestParams Samples.sampleConfigs JS.toLowerCase_ascii i Samples.sonnet in
  reasoningSupport cfg = true /\
  (Spec.noToolChoice (toolConfig Samples.chainWithReasoning) = true /\
   Spec.midToolChainWithoutReasoning Samples.chainWithReasoning = false /\
   bedrock Samples.chainWithReasoning = true /\
   Anthropic.p_thinking (anthropic Samples.chainWithReasoning) = None /\
   Anthropic.thinking_blocks (anthropic Samples.chainWithReasoning) = 1%nat) /\
  (Spec.midToolChainWithoutReasoning Samples.chainWithoutReasoning = true /\
   bedrock Samples.chainWithoutReasoning = false /\
   Anthropic.p_thinking (anthropic Samples.chainWithoutReasoning)
   = Some {| Anthropic.th_budget_tokens := 2000 |}).
Proof. vm_compute. repeat split. Qed.

End ReasoningGate.

(** ** Token attribution in the turn loop *)

Section TokenAttribution.
Import Model Response Agent.
Variable middleOutFiltering : list MessageItem -> FilterResult.



End TokenAttribution.


(** ** A [max_tokens] stop *)

Section Escalation.
Import Model Res Response Agent.
Variable middleOutFiltering : list MessageItem -> FilterResult.

(** The guard [Agent.converse] starts with is the one of the source. *)
Lemma bedrockConverse_guard {ModelType R : Type}
      (modelConfigs : ModelType -> ModelConfig) (toLowerCase : string -> string)
      (criRegion : string) (accounts : list string) (w : Converse.World R)
      (modelTypes : list ModelType) (input : ConverseCommandInput) (count i : nat) :
  (5 < count)%nat ->
  Converse.bedrockConverse modelConfigs toLowerCase criRegion accounts w modelTypes
                           input count i
  = (Threw (MaxTokensExceededTooManyTimes count), i).
Proof.
  intros H. unfold Converse.bedrockConverse.
  by replace (5 <? count)%nat with true by (symmetry; apply Nat.ltb_lt; lia).
Qed.

Lemma recorded_calls b o st :
  providerCalls (set_cancel b (record_call o st))
  = providerCalls st ++ [maxTokensExceededCount st].
Proof. reflexivity. Qed.

(** One [max_tokens] stop: the call is recorded, the count goes up by one,
    and the wrapper rejects without running the call again, whatever number
    of retries is left. *)
Lemma pRetry_max_tokens (n : nat) (s : Step) (rest : list Step) (st : LoopState) :
  isCancelled st = false -> (maxTokensExceededCount st <= 5)%nat ->
  stopsAtMaxTokens s = true ->
  pRetry n (s :: rest) st = (Rejected NonErrorThrown, rest, escalate st s).
Proof.
  intros Hc Hcount Hs. unfold stopsAtMaxTokens in Hs.
  destruct n; cbn [pRetry]; rewrite Hc;
    (replace (5 <? maxTokensExceededCount st)%nat with false
      by (symmetry; apply Nat.ltb_ge; lia));
    unfold converse, escalate, reportedBudget;
    (replace (5 <? maxTokensExceededCount st)%nat with false
      by (symmetry; apply Nat.ltb_ge; lia));
    (destruct (outcome s) as [res b|e]; [|done]);
    by destruct (stopReason res) as [[]|].
Qed.

(** C4 (at a failing input): the provider's first response stops with
    [max_tokens] and its next one would be a final answer. The count is
    incremented, but the sentinel the loop throws is not an [Error], so the
    retry wrapper rejects at once: the turn ends with that rejection after one
    provider call, the second response is never asked for, and nothing is
    saved. The request that was sent carried [maxTokens] 8192; the escalated
    one, with 16384, is never sent. The same holds for every script that
    starts with such a response. *)
Theorem max_tokens_stop_is_not_retried :
  let st := Samples.loopState Samples.secondTurnItems false in
  let r := while middleOutFiltering 2
                 [Samples.maxTokensStep; Samples.finalStep false] st in
  let sent (count : nat) :=
    inferenceConfig
      (fst (Converse.preProcessInput Samples.sampleConfigs JS.toLowerCase_ascii
                                     Samples.plainRequest Samples.sonnet count))
      ≫= maxTokens in
  r = (Thrown NonErrorThrown, [Samples.finalStep false],
       escalate st Samples.maxTokensStep) /\
  providerCalls (snd r) = [0%nat] /\
  maxTokensExceededCount (snd r) = 1%nat /\
  log (snd r) = log st /\
  sent 0%nat = Some 8192 /\ sent 1%nat = Some 16384 /\
  (forall fuel s rest st0,
      isCancelled st0 = false -> (maxTokensExceededCount st0 <= 5)%nat ->
      stopsAtMaxTokens s = true ->
      while middleOutFiltering (S fuel) (s :: rest) st0
      = (Thrown NonErrorThrown, rest, escalate st0 s)).
Proof.
  assert (Hgen : forall fuel s rest st0,
             isCancelled st0 = false -> (maxTokensExceededCount st0 <= 5)%nat ->
             stopsAtMaxTokens s = true ->
             while middleOutFiltering (S fuel) (s :: rest) st0
             = (Thrown NonErrorThrown, rest, escalate st0 s)).
  { intros fuel s rest st0 Hc Hcount Hs. cbn [while]. rewrite Hc.
    by rewrite pRetry_max_tokens. }
  cbv zeta. rewrite Hgen by (try done; cbn; lia).
  repeat split; try done; by vm_compute.
Qed.

End Escalation.

(** ** Cancellation *)

Section Cancellation.
Import Model Res Response Agent.
Variable middleOutFiltering : list MessageItem -> FilterResult.

Lemma agentLoop_frame (t : Turn) (w : Worker) :
  statusUpdates (snd (agentLoop middleOutFiltering t w)) = statusUpdates w /\
  cancelCallbacks (snd (agentLoop middleOutFiltering t w)) = cancelCallbacks w.
Proof.
  unfold agentLoop. cbv zeta.
  destruct (while _ _ _ _) as [[[] ?] ?]; split; reflexivity.
Qed.

(** A set token stops the wrapped call before the provider is reached and
    stops the loop at the top of an iteration; the state is untouched. *)
Lemma cancelled_before_call (n fuel : nat) (script : list Step) (st : LoopState) :
  isCancelled st = true ->
  pRetry n script st = (Resolved None, script, st) /\
  while middleOutFiltering (S fuel) script st = (Finished, script, st).
Proof.
  intros H. split.
  - destruct n; simpl; by rewrite H.
  - cbn [while]. by rewrite H.
Qed.

(** A call that was issued is handled the same whether or not the token is
    set while it is in flight: a final answer is saved. *)
Lemma pRetry_responds (n : nat) (s : Step) (rest : list Step) (st : LoopState)
      (res : ConverseResponse) (b : option Z) :
  isCancelled st = false -> (maxTokensExceededCount st <= 5)%nat ->
  outcome s = Responds res b -> stopReason res <> Some max_tokens ->
  pRetry n (s :: rest) st
  = (Resolved (Some (res, s)), rest,
     set_cancel (cancelDuringCall s) (record_call (Some b) st)).
Proof.
  intros Hc Hcount Hout Hstop.
  destruct n; simpl; rewrite Hc;
    (replace (5 <? maxTokensExceededCount st)%nat with false
      by (symmetry; apply Nat.ltb_ge; lia));
    unfold converse;
    (replace (5 <? maxTokensExceededCount st)%nat with false
      by (symmetry; apply Nat.ltb_ge; lia));
    rewrite Hout; by destruct (stopReason res) as [[]|].
Qed.

Lemma in_flight_answer_saved (fuel : nat) (s : Step) (rest : list Step) (st : LoopState)
      (res : ConverseResponse) (b : option Z) (c : ContentBlock) (cs : list ContentBlock) :
  isCancelled st = false -> (maxTokensExceededCount st <= 5)%nat ->
  outcome s = Responds res b ->
  stopReason res = Some end_turn ->
  output_message res ≫= content = Some (c :: cs) ->
  exists st' item,
    while middleOutFiltering (S fuel) (s :: rest) st = (Finished, rest, st') /\
    isCancelled st' = cancelDuringCall s /\
    log st' = log (attributeTokens res (totalTokenCount (window middleOutFiltering (items st)))
                                   (record_call (Some b) st)) ++ [item] /\
    mi_content item = c :: cs.
Proof.
  intros Hc Hcount Hout Hstop Hcontent.
  cbn [while]. rewrite Hc.
  rewrite (pRetry_responds _ _ _ _ res b) by (try done; by rewrite Hstop).
  rewrite Hstop, Hcontent.
  eexists _, _. split; [reflexivity|]. split; [|split].
  - unfold attributeTokens.
    destruct (JS.at_ _ _) as [lastItem|]; [destruct (Role_eqb _ _)|]; simpl;
      by rewrite Hc.
  - assert (Hlog : forall x y,
               log (attributeTokens res x (set_cancel y (record_call (Some b) st)))
               = log (attributeTokens res x (record_call (Some b) st))).
    { intros x y. unfold attributeTokens. cbn [items set_cancel record_call].
      destruct (JS.at_ _ _) as [lastItem|]; [destruct (Role_eqb _ _)|]; reflexivity. }
    cbn [log set_items_log]. by rewrite Hlog.
  - reflexivity.
Qed.

(** C2, amended: a token found set at the top of an iteration or at the
    start of a call attempt ends the loop with no provider call and nothing
    appended, while the answer to a call already in flight when the token is
    set is saved like any other; and whenever the turn finishes with the token
    set, the status is not updated to pending - that only happens when it
    finishes without cancellation - and the cancel callback is completed. *)
Theorem cancelled_turn_exit (t : Turn) (w : Worker) :
  let r := onMessageReceived middleOutFiltering t w in
  (forall n fuel script st,
      isCancelled st = true ->
      pRetry n script st = (Resolved None, script, st) /\
      while middleOutFiltering (S fuel) script st = (Finished, script, st)) /\
  (cancelRequested w = true -> fst r = Finished /\ history (snd r) = history w) /\
  (cancelRequested (snd r) = true ->
     statusUpdates (snd r) = statusUpdates w ++ [working] /\
     cancelCallbacks (snd r) = S (cancelCallbacks w)) /\
  (cancelRequested (snd r) = false ->
     statusUpdates (snd r) = statusUpdates w ++ [working; pending] /\
     cancelCallbacks (snd r) = cancelCallbacks w) /\
  (forall fuel s rest st res b c cs,
      isCancelled st = false -> (maxTokensExceededCount st <= 5)%nat ->
      outcome s = Responds res b -> stopReason res = Some end_turn ->
      output_message res ≫= content = Some (c :: cs) ->
      exists st' item,
        while middleOutFiltering (S fuel) (s :: rest) st = (Finished, rest, st') /\
        isCancelled st' = cancelDuringCall s /\
        log st' = log (attributeTokens
                         res (totalTokenCount (window middleOutFiltering (items st)))
                         (record_call (Some b) st)) ++ [item] /\
        mi_content item = c :: cs).
Proof.
  intros r. split; [intros; by apply cancelled_before_call|].
  subst r. unfold onMessageReceived. cbv zeta.
  pose proof (agentLoop_frame t (updateAgentStatusWithEvent working w)) as [Hs Hc].
  split; [|split; [|split; [|intros; by eapply in_flight_answer_saved]]].
  - intros Hw. unfold agentLoop. cbv zeta.
    cbn [history cancelRequested updateAgentStatusWithEvent].
    cbn [while length]. cbn [isCancelled]. rewrite Hw. cbn [orb log].
    destruct (title w) as [[|]|];
      try destruct (Sessions.generateSessionTitle _ _ _); done.
  - destruct (agentLoop _ _ _) as [exit w2]. cbn [snd] in *.
    destruct (cancelRequested w2) eqn:E;
      cbn [snd cancelRequested completeCancel updateAgentStatusWithEvent];
      [intros _ | by rewrite E].
    cbn [statusUpdates cancelCallbacks completeCancel]. by rewrite Hs, Hc.
  - destruct (agentLoop _ _ _) as [exit w2]. cbn [snd] in *.
    destruct (cancelRequested w2) eqn:E;
      cbn [snd cancelRequested completeCancel updateAgentStatusWithEvent];
      [by rewrite E | intros _].
    cbn [statusUpdates cancelCallbacks updateAgentStatusWithEvent] in *.
    by rewrite Hs, Hc, <- app_assoc.
Qed.

End Cancellation.

Lemma cancelled_turn_exit_witness :
  let r := Agent.onMessageReceived Agent.noOpFiltering Samples.cancelledInFlight
                                   Samples.greetedWorker in
  Agent.cancelRequested (snd r) = true /\
  Agent.statusUpdates (snd r) = [Agent.working] /\
  Agent.cancelCallbacks (snd r) = 1%nat.
Proof.
  intros r. split; [vm_compute; reflexivity|].
  destruct (cancelled_turn_exit Agent.noOpFiltering Samples.cancelledInFlight
                                Samples.greetedWorker) as (_ & _ & H & _).
  exact (H ltac:(vm_compute; reflexivity)).
Defined.

(** C2, as stated, fails: the token is set while the provider call is in
    flight, the turn ends cancelled, and the response of that call has been
    appended to the conversation history. *)
Lemma cancelled_turn_appends_in_flight_response :
  let w := Samples.greetedWorker in
  let r := Agent.onMessageReceived Agent.noOpFiltering Samples.cancelledInFlight w in
  Agent.cancelRequested (snd r) = true /\
  length (Agent.history (snd r)) = S (length (Agent.history w)) /\
  Agent.mi_content <$> last (Agent.history (snd r)) = Some [Model.CText "Hi."] /\
  ~ (Agent.cancelRequested (snd r) = true -> Agent.history (snd r) = Agent.history w).
Proof.
  vm_compute. repeat split. intros H. specialize (H eq_refl). discriminate H.
Qed.

(** ** [updateSession] *)

Section UpdateSession.
Import Sessions.

(** Inserting a list of bindings one after the other. *)
Lemma foldl_insert_notin {V : Type} (l : list (string * V)) :
  forall (m0 : gmap string V) (k : string),
    k ∉ l.*1 ->
    foldl (fun m p => <[fst p := snd p]> m) m0 l !! k = m0 !! k.
Proof.
  induction l as [|p l IH]; intros m0 k Hk; [done|].
  simpl. rewrite IH by (intros ?; apply Hk; by right).
  apply lookup_insert_ne. intros Heq. apply Hk. rewrite <- Heq. by left.
Qed.

Lemma foldl_insert_in {V : Type} (l : list (string * V)) :
  forall (m0 : gmap string V) (k : string) (v : V),
    NoDup l.*1 -> (k, v) ∈ l ->
    foldl (fun m p => <[fst p := snd p]> m) m0 l !! k = Some v.
Proof.
  induction l as [|p l IH]; intros m0 k v Hnd Hin; [by apply elem_of_nil in Hin|].
  apply NoDup_cons in Hnd as [Hp Hnd]. simpl.
  apply elem_of_cons in Hin as [<-|Hin].
  - rewrite foldl_insert_notin by done. apply lookup_insert_eq.
  - by apply IH.
Qed.

Lemma foldl_addParam (l : list (string * option Value)) : forall acc : UpdateCommand,
  foldl addParam acc l =
  {| Key := Key acc;
     setClauses :=
       setClauses acc ++ map (fun kv => ("#" +:+ fst kv, ":" +:+ fst kv)) (definedParams l);
     ExpressionAttributeNames :=
       foldl (fun m p => <[fst p := snd p]> m) (ExpressionAttributeNames acc)
             (map (fun kv => ("#" +:+ fst kv, fst kv)) (definedParams l));
     ExpressionAttributeValues :=
       foldl (fun m p => <[fst p := snd p]> m) (ExpressionAttributeValues acc)
             (map (fun kv => (":" +:+ fst kv, snd kv)) (definedParams l)) |}.
Proof.
  induction l as [|[k [v|]] l IH]; intros acc.
  - simpl. rewrite app_nil_r. by destruct acc.
  - simpl foldl at 1. rewrite IH. unfold addParam, definedParams. simpl.
    by rewrite <- app_assoc.
  - simpl foldl at 1. by rewrite IH.
Qed.

Lemma elem_of_definedParams (params : gmap string (option Value)) (k : string) (v : Value) :
  (k, v) ∈ definedParams (map_to_list params) <-> params !! k = Some (Some v).
Proof.
  unfold definedParams. rewrite list_elem_of_omap. split.
  - intros ([k' [v'|]] & Hin & Heq); simpl in Heq; [|done].
    injection Heq as -> ->. by apply elem_of_map_to_list in Hin.
  - intros H. exists (k, Some v). split; [by apply elem_of_map_to_list | done].
Qed.

Lemma definedParams_keys (l : list (string * option Value)) :
  (definedParams l).*1 `sublist_of` l.*1.
Proof.
  induction l as [|[k [v|]] l IH]; [done| |]; unfold definedParams in *; simpl.
  - by apply sublist_skip.
  - by apply sublist_cons.
Qed.

Lemma definedParams_NoDup (params : gmap string (option Value)) :
  NoDup (definedParams (map_to_list params)).*1.
Proof.
  apply (sublist_NoDup _ (map_to_list params).*1);
    [apply NoDup_fst_map_to_list | apply definedParams_keys].
Qed.

Lemma prefixed_keys_NoDup {V : Type} (c : ascii) (l : list (string * V)) :
  NoDup l.*1 -> NoDup (map (fun kv => String c (fst kv)) l).
Proof.
  intros H. change (NoDup ((String c ∘ fst) <$> l)).
  rewrite (list_fmap_compose fst (String c) l).
  apply NoDup_fmap_2; [|done]. by intros ? ? [= ->].
Qed.

(** C9, amended: when [params] does not itself carry a defined
    [updatedAt], the update sets [updatedAt] to the current time and every
    passed field with a defined value, and leaves every other attribute of
    the record - so [PK], [SK], [createdAt], which the parameter type
    excludes, and fields passed as [undefined] or not passed - and every
    other record as it was. *)
Theorem updateSession_frame
        (now : Z) (workerId : string) (params : gmap string (option Value))
        (table : gmap (string * string) (gmap string Value)) (item : gmap string Value) :
  table !! ("sessions", workerId) = Some item ->
  (forall v, params !! "updatedAt" <> Some (Some v)) ->
  exists item',
    updateSession now workerId params table
    = Res.Ok (<[("sessions", workerId) := item']> table) /\
    item' !! "updatedAt" = Some (VNum now) /\
    (forall k v, params !! k = Some (Some v) -> item' !! k = Some v) /\
    (forall k, k <> "updatedAt" -> (forall v, params !! k <> Some (Some v)) ->
               item' !! k = item !! k) /\
    (UpdateSessionParams params ->
     item' !! "PK" = item !! "PK" /\ item' !! "SK" = item !! "SK" /\
     item' !! "createdAt" = item !! "createdAt").
Proof.
  intros Hitem Hupd.
  set (defs := definedParams (map_to_list params)).
  assert (Hnd : NoDup defs.*1) by apply definedParams_NoDup.
  assert (Hin : forall k v, (k, v) ∈ defs <-> params !! k = Some (Some v))
    by (intros; apply elem_of_definedParams).
  assert (Hfresh : "updatedAt" ∉ defs.*1).
  { intros ([k v] & Hk & Hkv)%list_elem_of_fmap. simpl in Hk. subst k.
    apply Hin in Hkv. by apply (Hupd v). }
  set (assignments := ("updatedAt", VNum now) :: defs).
  exists (foldl assign item assignments).
  assert (Hres : mapM (resolveClause (updateSessionCommand now workerId params))
                      (setClauses (updateSessionCommand now workerId params))
                 = Some assignments).
  { unfold updateSessionCommand. rewrite foldl_addParam. fold defs.
    cbn [setClauses ExpressionAttributeNames ExpressionAttributeValues Key].
    apply mapM_Some. simpl app. constructor.
    - unfold resolveClause.
      cbn [fst snd ExpressionAttributeNames ExpressionAttributeValues].
      rewrite !foldl_insert_notin.
      + by rewrite !lookup_singleton_eq.
      + rewrite <- list_fmap_compose.
        intros ([k v] & Hk & Hkv)%list_elem_of_fmap. simpl in Hk.
        cbv [String.append] in Hk. injection Hk as <-.
        apply Hfresh, list_elem_of_fmap. by exists ("updatedAt", v).
      + rewrite <- list_fmap_compose.
        intros ([k v] & Hk & Hkv)%list_elem_of_fmap. simpl in Hk.
        cbv [String.append] in Hk. injection Hk as <-.
        apply Hfresh, list_elem_of_fmap. by exists ("updatedAt", v).
    - apply Forall2_fmap_l, Forall2_same_length_lookup. split; [done|].
      intros i [k v] [k' v'] H1 H2. rewrite H1 in H2. injection H2 as <- <-.
      unfold resolveClause, compose.
      cbn [fst snd ExpressionAttributeNames ExpressionAttributeValues].
      assert (Hkv : (k, v) ∈ defs) by (apply list_elem_of_lookup; eauto).
      rewrite (foldl_insert_in _ _ ("#" +:+ k) k), (foldl_insert_in _ _ (":" +:+ k) v); try done.
      + rewrite <- list_fmap_compose. by apply (prefixed_keys_NoDup ":"%char).
      + apply list_elem_of_fmap. by exists (k, v).
      + rewrite <- list_fmap_compose. by apply (prefixed_keys_NoDup "#"%char).
      + apply list_elem_of_fmap. by exists (k, v). }
  assert (Hnd' : NoDup assignments.*1) by (by apply NoDup_cons).
  assert (Hkey : Key (updateSessionCommand now workerId params) = ("sessions", workerId)).
  { unfold updateSessionCommand. by rewrite foldl_addParam. }
  assert (Hframe : forall k, k <> "updatedAt" -> (forall v, params !! k <> Some (Some v)) ->
                             foldl assign item assignments !! k = item !! k).
  { intros k Hk Hnone. apply (foldl_insert_notin assignments).
    intros ([k' v] & Hk' & Hkv)%list_elem_of_fmap. simpl in Hk'. subst k'.
    apply elem_of_cons in Hkv as [[= -> _]|Hkv]; [done|].
    apply Hin in Hkv. by apply (Hnone v). }
  split; [|split; [|split; [|split]]].
  - unfold updateSession, ddbUpdate. rewrite Hres, Hkey, Hitem.
    by rewrite bool_decide_eq_true_2.
  - apply (foldl_insert_in assignments); [done | by left].
  - intros k v Hk. apply (foldl_insert_in assignments); [done|].
    right. by apply Hin.
  - exact Hframe.
  - intros (HPK & HSK & Hcreated).
    repeat split; apply Hframe; try done; intros v Hv; congruence.
Qed.

End UpdateSession.

Lemma updateSession_frame_witness :
  Samples.sessionTable !! ("sessions", "w1") = Some Samples.sessionItem /\
  (forall v, Samples.titleParams !! "updatedAt" <> Some (Some v)) /\
  exists item',
    Sessions.updateSession 1000 "w1" Samples.titleParams Samples.sessionTable
    = Res.Ok (<[("sessions", "w1") := item']> Samples.sessionTable) /\
    item' !! "updatedAt" = Some (Sessions.VNum 1000) /\
    item' !! "title" = Some (Sessions.VStr "Greeting") /\
    item' !! "createdAt" = Some (Sessions.VNum 1).
Proof.
  assert (H0 : Samples.sessionTable !! ("sessions", "w1") = Some Samples.sessionItem)
    by (vm_compute; reflexivity).
  assert (Hu : forall v, Samples.titleParams !! "updatedAt" <> Some (Some v))
    by (intros v; vm_compute; discriminate).
  split; [exact H0|]. split; [exact Hu|].
  destruct (updateSession_frame 1000 "w1" Samples.titleParams Samples.sessionTable
                                Samples.sessionItem H0 Hu)
    as (item' & H1 & H2 & H3 & _ & H5).
  exists item'. split; [exact H1|]. split; [exact H2|].
  split; [apply H3; vm_compute; reflexivity|].
  destruct H5 as (_ & _ & H5); [repeat split; vm_compute; reflexivity|].
  rewrite H5. vm_compute. reflexivity.
Defined.

(** C9, as stated, fails: when [params] carries [updatedAt], the [SET]
    expression names [#updatedAt] twice, [:updatedAt] is bound to the caller's
    value instead of the current time, and the store rejects the update. *)
Lemma updateSession_with_updatedAt_param :
  let params : gmap string (option Sessions.Value) :=
    {[ "updatedAt" := Some (Sessions.VNum 5) ]} in
  let cmd := Sessions.updateSessionCommand 1000 "w1" params in
  Sessions.renderExpression cmd = "SET #updatedAt = :updatedAt, #updatedAt = :updatedAt" /\
  Sessions.ExpressionAttributeValues cmd !! ":updatedAt" = Some (Sessions.VNum 5) /\
  Sessions.updateSession 1000 "w1" params Samples.sessionTable
  = Res.Threw (Res.OtherError "ValidationException") /\
  ~ (exists table',
        Sessions.updateSession 1000 "w1" params Samples.sessionTable = Res.Ok table' /\
        table' !! ("sessions", "w1") ≫= (fun item => item !! "updatedAt")
        = Some (Sessions.VNum 1000)).
Proof.
  vm_compute. repeat split. intros (table' & H & _). discriminate H.
Qed.

(** * Further properties of the code *)


(** ** More on input normalization (Bedrock path) *)

Section NormalizationMore.
Import Model Converse.
Context {ModelType : Type}.
Variable modelConfigs : ModelType -> ModelConfig.
Variable toLowerCase : string -> string.

Lemma ultra_budget_doubled (maxOut : Z) :
  0 <= maxOut -> Z.min (Z.min (maxOut / 2) 31999 * 2) maxOut = Z.min (maxOut / 2) 31999 * 2.
Proof.
  intros H. apply Z.min_l.
  pose proof (Z.mul_div_le maxOut 2 ltac:(lia)). lia.
Qed.

(** X1: the [maxTokens] sent to the provider never exceeds the model's
    [maxOutputTokens], and a higher retry count never lowers it. *)
Theorem preProcessInput_maxTokens_capped
        (input : ConverseCommandInput) (m : ModelType) (count : nat) :
  exists n n',
    inferenceConfig (fst (preProcessInput modelConfigs toLowerCase input m count))
      ≫= maxTokens = Some n /\
    inferenceConfig (fst (preProcessInput modelConfigs toLowerCase input m (S count)))
      ≫= maxTokens = Some n' /\
    n <= maxOutputTokens (modelConfigs m) /\
    n <= n'.
Proof.
  unfold preProcessInput. cbv zeta. simpl.
  eexists _, _. split; [reflexivity|]. split; [reflexivity|].
  assert (Hmono : adjustedMaxToken (modelConfigs m) count
                  <= adjustedMaxToken (modelConfigs m) (S count)).
  { unfold adjustedMaxToken, defaultOutputTokenCount.
    rewrite Nat2Z.inj_succ, Z.pow_succ_r by lia.
    assert (0 < 2 ^ Z.of_nat count) by (apply Z.pow_pos_nonneg; lia). lia. }
  assert (Hcap : forall c, adjustedMaxToken (modelConfigs m) c <= maxOutputTokens (modelConfigs m)).
  { intros c. unfold adjustedMaxToken. lia. }
  pose proof (Hcap count).
  destruct (enableReasoning _ _ _); lia.
Qed.

(** X2: when reasoning is enabled for a model with more than 2000 output
    tokens, the thinking budget is strictly below the [maxTokens] of the same
    request. *)
Theorem preProcessInput_budget_below_maxTokens
        (input : ConverseCommandInput) (m : ModelType) (count : nat) :
  let cfg := modelConfigs m in
  let out := fst (preProcessInput modelConfigs toLowerCase input m count) in
  enableReasoning cfg (dropUnsupportedToolChoice cfg (toolConfig input)) (messages input)
    = true ->
  2000 < maxOutputTokens cfg ->
  exists budget n,
    additionalModelRequestFields out ≫= reasoning_config
      = Some {| budget_tokens := budget |} /\
    inferenceConfig out ≫= maxTokens = Some n /\
    0 < budget < n.
Proof.
  intros cfg out Hen Hmax. subst out. unfold preProcessInput. cbv zeta. fold cfg.
  rewrite Hen. simpl.
  eexists _, _. split; [reflexivity|]. split; [reflexivity|].
  unfold reasoningBudget.
  pose proof (Z.mul_div_le (maxOutputTokens cfg) 2 ltac:(lia)).
  assert (1000 <= maxOutputTokens cfg / 2) by (apply Z.div_le_lower_bound; lia).
  destruct (shouldUltraThink _ _); lia.
Qed.

(** X3: a [toolChoice] is in the normalized request exactly when the caller
    gave it and the model supports its kind; and whenever one is kept,
    reasoning is not enabled. *)
Theorem preProcessInput_toolChoice_supported
        (input : ConverseCommandInput) (m : ModelType) (count : nat) (choice : ToolChoice) :
  let cfg := modelConfigs m in
  let out := fst (preProcessInput modelConfigs toLowerCase input m count) in
  (toolConfig out ≫= toolChoice = Some choice <->
   toolConfig input ≫= toolChoice = Some choice /\
   existsb (fun k => kind_in k choice) (toolChoiceSupport cfg) = true) /\
  (toolConfig out ≫= toolChoice = Some choice ->
   enableReasoning cfg (dropUnsupportedToolChoice cfg (toolConfig input)) (messages input)
   = false).
Proof.
  intros cfg out.
  assert (Hout : toolConfig out ≫= toolChoice
                 = dropUnsupportedToolChoice cfg (toolConfig input) ≫= toolChoice).
  { subst out. unfold preProcessInput. cbv zeta. fold cfg. simpl.
    destruct (negb (supports cfg L_tool)); [|done].
    by destruct (dropUnsupportedToolChoice cfg (toolConfig input)). }
  assert (Hev : forall c, JS.every (fun k => negb (kind_in k c)) (toolChoiceSupport cfg)
                          = negb (existsb (fun k => kind_in k c) (toolChoiceSupport cfg))).
  { intros c. unfold JS.every. induction (toolChoiceSupport cfg) as [|k l IH]; [done|].
    simpl. rewrite IH. by destruct (kind_in k c). }
  split.
  - rewrite Hout. unfold dropUnsupportedToolChoice.
    destruct (toolConfig input) as [t|]; simpl; [|by split; [|intros []]].
    destruct (toolChoice t) as [c|] eqn:E; simpl; [|rewrite E; by split; [|intros []]].
    rewrite Hev. destruct (existsb _ _) eqn:Ex; simpl.
    + rewrite E. split; [intros [= <-]; by rewrite Ex | by intros []].
    + split; [done|]. intros [[= <-] Hx]. by rewrite Ex in Hx.
  - rewrite Hout. intros H. unfold enableReasoning.
    destruct (reasoningSupport cfg); [|done].
    rewrite bool_decide_eq_true_2; [done|]. rewrite H. eauto.
Qed.

End NormalizationMore.

Lemma preProcessInput_budget_below_maxTokens_witness :
  let out := fst (Converse.preProcessInput Samples.sampleConfigs JS.toLowerCase_ascii
                                           Samples.ultraRequest Samples.sonnet 0) in
  exists budget n,
    Model.additionalModelRequestFields out ≫= Model.reasoning_config
    = Some {| Model.budget_tokens := budget |} /\
    Model.inferenceConfig out ≫= Model.maxTokens = Some n /\
    0 < budget < n.
Proof.
  apply (preProcessInput_budget_below_maxTokens
           Samples.sampleConfigs JS.toLowerCase_ascii Samples.ultraRequest Samples.sonnet 0);
    [reflexivity | vm_compute; reflexivity].
Defined.

(** ** What normalization keeps *)


Section NormalizationKeeps.
Import Model Converse Views.
Context {ModelType : Type}.
Variable modelConfigs : ModelType -> ModelConfig.
Variable toLowerCase : string -> string.

Lemma filter_filter_sub {A : Type} (p q : A -> bool) (l : list A) :
  (forall x, p x = true -> q x = true) ->
  JS.filter p (JS.filter q l) = JS.filter p l.
Proof.
  intros H. induction l as [|x l IH]; [done|]. simpl.
  destruct (q x) eqn:Eq; simpl.
  - by rewrite IH.
  - destruct (p x) eqn:Ep; [|done]. apply H in Ep. congruence.
Qed.

Lemma filter_all {A : Type} (p : A -> bool) (l : list A) :
  Forall (fun x => p x = true) l -> JS.filter p l = l.
Proof. induction 1 as [|x l Hx _ IH]; [done|]. simpl. by rewrite Hx, IH. Qed.

Lemma stripReasoning_payload (msg : Message) :
  JS.filter payload <$> content (stripReasoning msg) = JS.filter payload <$> content msg.
Proof.
  unfold stripReasoning. simpl. destruct (content msg) as [cs|]; [|done]. simpl.
  f_equal. apply filter_filter_sub. intros c. unfold payload.
  by destruct (has_reasoningContent c).
Qed.

Lemma pruneMessage_payload (msg : Message) :
  JS.filter payload <$> content (pruneMessage msg) = JS.filter payload <$> content msg.
Proof.
  unfold pruneMessage. simpl. destruct (content msg) as [cs|]; [|done]. simpl.
  f_equal. rewrite splice_all_filter. apply filter_filter_sub. intros c. unfold payload.
  destruct (has_cachePoint c); [|done]. by rewrite andb_false_r.
Qed.

(** X4: normalization keeps every message with its role and, in order, every
    block that is not a reasoning block or a cache marker; it keeps every
    system text and every tool specification; and for a model that supports
    message caching a request with reasoning enabled keeps its messages as
    they are. *)
Theorem preProcessInput_keeps_payload
        (input : ConverseCommandInput) (m : ModelType) (count : nat) :
  let cfg := modelConfigs m in
  let out := fst (preProcessInput modelConfigs toLowerCase input m count) in
  map messageView <$> messages out = map messageView <$> messages input /\
  JS.filter (fun s => negb (sys_has_cachePoint s)) <$> system out
  = JS.filter (fun s => negb (sys_has_cachePoint s)) <$> system input /\
  (JS.filter (fun t => negb (tool_has_cachePoint t)) <$> (toolConfig out ≫= tools)
   = JS.filter (fun t => negb (tool_has_cachePoint t)) <$> (toolConfig input ≫= tools)) /\
  (enableReasoning cfg (dropUnsupportedToolChoice cfg (toolConfig input)) (messages input)
   = true ->
   supports cfg L_message = true -> messages out = messages input).
Proof.
  intros cfg out. subst out. set (view := messageView).
  unfold preProcessInput. cbv zeta. fold cfg. simpl.
  assert (Hstrip : forall msg, view (stripReasoning msg) = view msg).
  { intros msg. unfold view, messageView. by rewrite stripReasoning_payload. }
  assert (Hprune : forall msg, view (pruneMessage msg) = view msg).
  { intros msg. unfold view, messageView. by rewrite pruneMessage_payload. }
  assert (Hmap : forall (f : Message -> Message) (l : list Message),
             (forall msg, view (f msg) = view msg) -> map view (map f l) = map view l).
  { intros f l Hf. rewrite map_map. apply map_ext. intros a. apply Hf. }
  split; [|split; [|split]].
  - destruct (messages input) as [l|]; [|by destruct (enableReasoning _ _ _), (negb _)].
    destruct (enableReasoning _ _ _), (negb (supports cfg L_message)); simpl;
      rewrite ?Hmap; auto.
  - destruct (negb (supports cfg L_system)); [|done].
    destruct (system input) as [l|]; [|done]. simpl. f_equal.
    rewrite splice_all_filter. by apply filter_filter_sub.
  - destruct (negb (supports cfg L_tool)).
    + rewrite <- (dropUnsupportedToolChoice_tools cfg (toolConfig input)).
      destruct (dropUnsupportedToolChoice cfg (toolConfig input)) as [t|]; [|done]. simpl.
      destruct (tools t) as [l|]; [|done]. simpl. f_equal.
      rewrite splice_all_filter. by apply filter_filter_sub.
    + by rewrite dropUnsupportedToolChoice_tools.
  - intros Hen Hs. by rewrite Hen, Hs.
Qed.

End NormalizationKeeps.

Lemma preProcessInput_keeps_payload_witness :
  Converse.enableReasoning
    (Samples.sampleConfigs Samples.sonnet)
    (Converse.dropUnsupportedToolChoice (Samples.sampleConfigs Samples.sonnet)
                                        (Model.toolConfig Samples.chainWithReasoning))
    (Model.messages Samples.chainWithReasoning) = true /\
  Model.supports (Samples.sampleConfigs Samples.sonnet) Model.L_message = true /\
  Model.messages (fst (Converse.preProcessInput Samples.sampleConfigs JS.toLowerCase_ascii
                                                Samples.chainWithReasoning Samples.sonnet 0))
  = Model.messages Samples.chainWithReasoning.
Proof.
  split; [reflexivity|]. split; [reflexivity|].
  destruct (preProcessInput_keeps_payload Samples.sampleConfigs JS.toLowerCase_ascii
              Samples.chainWithReasoning Samples.sonnet 0) as (_ & _ & _ & H).
  apply H; reflexivity.
Defined.

(** ** More on the account rotation *)


Section RotationMore.
Import Model Res Converse.
Context {ModelType R : Type}.
Variable modelConfigs : ModelType -> ModelConfig.
Variable toLowerCase : string -> string.
Variable criRegion : string.

(** X6: the account index stays a valid index into the account list across
    every call, and only a call that throws a throttling error moves it. *)
Theorem bedrockConverse_index_in_range
        (env : option string) (w : World R) (modelTypes : list ModelType)
        (input : ConverseCommandInput) (count i : nat) :
  let accounts := awsAccounts env in
  let call := bedrockConverse modelConfigs toLowerCase criRegion accounts w modelTypes
                              input count i in
  (i < length accounts)%nat ->
  (snd call < length accounts)%nat /\
  (snd call <> i -> exists e, fst call = Threw e /\ is_throttling e = true).
Proof.
  intros accounts call Hi. subst call. unfold bedrockConverse.
  destruct (5 <? count)%nat; [by split|].
  destruct (prepare _ _ _ _ _ _ _ _ _) as [[processed budget]|e]; simpl.
  - destruct (send w processed) as [r|e]; [by split|].
    destruct (is_throttling e) eqn:E; simpl; [|by split].
    split; [apply Nat.mod_upper_bound; lia | eauto].
  - destruct (is_throttling e) eqn:E; simpl; [|by split].
    split; [apply Nat.mod_upper_bound; lia | eauto].
Qed.

End RotationMore.

Lemma bedrockConverse_index_in_range_witness :
  (2 < length (Converse.awsAccounts (Some "111,222,333")))%nat /\
  (snd (Converse.bedrockConverse Samples.sampleConfigs JS.toLowerCase_ascii "us"
          (Converse.awsAccounts (Some "111,222,333")) Samples.throttlingWorld
          [Samples.sonnet] Samples.plainRequest 0 2)
   < length (Converse.awsAccounts (Some "111,222,333")))%nat.
Proof.
  assert (H : (2 < length (Converse.awsAccounts (Some "111,222,333")))%nat)
    by (vm_compute; lia).
  split; [exact H|].
  exact (proj1 (bedrockConverse_index_in_range
                  Samples.sampleConfigs JS.toLowerCase_ascii "us" (Some "111,222,333")
                  Samples.throttlingWorld [Samples.sonnet] Samples.plainRequest 0 2 H)).
Defined.


Section NoAccounts.
Import Model Res Converse.
Context {ModelType R : Type}.
Variable modelConfigs : ModelType -> ModelConfig.
Variable toLowerCase : string -> string.
Variable criRegion : string.

(** X7: with [BEDROCK_AWS_ACCOUNTS] unset the account list is the single
    empty name: no role is ever assumed (the outcome of a call does not depend
    on what STS would answer), and the account index stays 0 even when the
    call is throttled. *)
Theorem bedrockConverse_without_accounts
        (w : World R) (sts : string -> bool) (modelTypes : list ModelType)
        (input : ConverseCommandInput) (count : nat) :
  let accounts := awsAccounts None in
  let call := bedrockConverse modelConfigs toLowerCase criRegion accounts w modelTypes
                              input count 0 in
  accounts = [EmptyString] /\
  bedrockConverse modelConfigs toLowerCase criRegion accounts
                  {| pick := pick w; assumeRole := sts; send := send w |}
                  modelTypes input count 0
  = call /\
  snd call = 0%nat /\
  (forall e, fst call = Threw e ->
             e = MaxTokensExceededTooManyTimes count \/ e = OtherError "TypeError"
             \/ exists processed, send w processed = Raised e).
Proof.
  cbv zeta. change (awsAccounts None) with [EmptyString].
  split; [done|]. unfold bedrockConverse, prepare.
  cbn [pick assumeRole send lookup list_lookup JS.truthy_str length].
  destruct (5 <? count)%nat.
  { repeat split. intros e [= <-]. by left. }
  destruct (chooseRandom modelTypes (pick w)) as [modelType|].
  2: { cbn. repeat split. intros e [= <-]. right. by left. }
  cbn [default]. change (JS.truthy_str (Some EmptyString)) with false. cbv iota.
  destruct (preProcessInput _ _ _ _ _) as [processed budget].
  destruct (send w processed) as [response|e] eqn:Es.
  { by repeat split. }
  split; [done|]. split; [by destruct (is_throttling e)|].
  intros e'. destruct (is_throttling e); cbn; intros [= <-]; right; right; eauto.
Qed.

End NoAccounts.

(** ** More on the Anthropic path *)

Section AnthropicMore.
Import Model Res Response Anthropic AnthropicClient.
Context {ModelType : Type}.
Variable modelConfigs : ModelType -> ModelConfig.
Variable toLowerCase : string -> string.

Lemma removeCriPrefix_region (r id : string) :
  r ∈ criPrefixes -> removeCriPrefix (r +:+ "." +:+ id) = id.
Proof.
  unfold criPrefixes. intros H.
  repeat (apply elem_of_cons in H as [->|H]; [reflexivity|]).
  by apply elem_of_nil in H.
Qed.

Lemma removeCriPrefix_table_id (id name : string) :
  modelMapping !! id = Some name -> removeCriPrefix id = id.
Proof.
  unfold modelMapping. intros H. apply elem_of_list_to_map_2 in H.
  repeat (apply elem_of_cons in H as [[= -> _]|H]; [reflexivity|]).
  by apply elem_of_nil in H.
Qed.

(** X8: a model id of the table is mapped to its Anthropic name whether it
    is configured bare or under any of the six regional prefixes. *)
Theorem modelTypeToAnthropicModel_any_region (m : ModelType) (r id name : string) :
  modelMapping !! id = Some name ->
  mc_modelId (modelConfigs m) = id
  \/ (r ∈ criPrefixes /\ mc_modelId (modelConfigs m) = r +:+ "." +:+ id) ->
  modelTypeToAnthropicModel modelConfigs m = ModelName name.
Proof.
  intros Hid Hm. apply modelTypeToAnthropicModel_mapped.
  destruct Hm as [->|[Hr ->]].
  - by rewrite (removeCriPrefix_table_id _ _ Hid).
  - by rewrite removeCriPrefix_region.
Qed.

(** X9: once [getAnthropicClient] has succeeded, the key it used is cached,
    is not empty, and every later call returns it without looking at the
    environment or the secret reader; a failed call leaves the cache as it
    was. *)
Theorem getAnthropicClient_caches
        (env : KeyEnv) (cached : option string) (r : Result string) (cached' : option string) :
  getAnthropicClient env cached = (r, cached') ->
  match r with
  | Ok key =>
      cached' = Some key /\ key <> EmptyString /\
      forall env', getAnthropicClient env' cached' = (Ok key, cached')
  | Threw _ => cached' = cached
  end.
Proof.
  assert (Hhit : forall k env', JS.truthy_str (Some k) = true ->
                                getAnthropicClient env' (Some k) = (Ok k, Some k)).
  { intros k env' Hk. unfold getAnthropicClient. by rewrite Hk. }
  assert (Hne : forall k, JS.truthy_str (Some k) = true -> k <> EmptyString)
    by (by intros [|] ?).
  unfold getAnthropicClient. destruct (JS.truthy_str cached) eqn:Hc.
  - destruct cached as [k|]; [|done]. intros [= <- <-]. simpl.
    split; [done|]. split; [by apply Hne|]. intros env'. by apply Hhit.
  - destruct (if negb (JS.truthy_str (ANTHROPIC_API_KEY env)) then _ else _)
      as [apiKey|e]; [|by intros [= <- <-]].
    destruct (JS.truthy_str apiKey) eqn:Hk; simpl; [|by intros [= <- <-]].
    destruct apiKey as [k|]; [|done]. intros [= <- <-]. simpl.
    split; [done|]. split; [by apply Hne|]. intros env'. by apply Hhit.
Qed.

Lemma concat_map_concat {A B C : Type} (f : B -> list C) (g : A -> list B) (l : list A) :
  concat (map f (concat (map g l))) = concat (map (fun a => concat (map f (g a))) l).
Proof.
  induction l as [|a l IH]; [done|]. simpl.
  by rewrite map_app, concat_app, IH.
Qed.

Lemma nonempty_or_empty (s : string) : nonempty_or EmptyString (Some s) = s.
Proof. by destruct s. Qed.

(** X10: an answer of the Messages API, converted to the neutral shape and
    converted back for the next request, keeps its non-empty texts and its
    tool uses in order; a tool use keeps its id and name, and its input when
    that is truthy, while a falsy input ([null], [false], [0], ['']) comes
    back as the empty object; a thinking block comes back with its text and an
    empty signature. The stop reason is passed on, and the input tokens the
    loop bills for the answer are the input, cache read and cache creation
    tokens the API reported. *)
Theorem answer_echoed_in_next_request (response : AnthropicMessage) :
  let converted := convertFromAnthropicResponse response in
  convertMessage <$> output_message (fst converted)
  = Some {| a_role := assistant; a_content := concat (map echoed (r_content response)) |} /\
  (forall id name input,
      echoed (RToolUse id name input)
      = [plain (AToolUse id name (if truthy_doc input then input else DObject "{}"))]) /\
  stopReason (fst converted) = stop_reason response /\
  Agent.billedInput (fst converted)
  = default 0 (input_tokens (r_usage response))
    + default 0 (cache_read_input_tokens (r_usage response))
    + default 0 (cache_creation_input_tokens (r_usage response)) /\
  snd converted
  = default 0 (input_tokens (r_usage response))
    + default 0 (output_tokens (r_usage response)).
Proof.
  cbv zeta. split; [|by repeat split].
  cbn [convertFromAnthropicResponse fst output_message fmap option_fmap option_map].
  f_equal. unfold convertMessage. cbn [role content default a_role a_content].
  f_equal. cbn. rewrite concat_map_concat. f_equal. apply map_ext. intros b.
  destruct b as [t|id name input|th sig|]; simpl; try done.
  - by destruct t.
  - by rewrite !nonempty_or_empty.
Qed.

Lemma omap_concat {A B : Type} (f : A -> option B) (ls : list (list A)) :
  omap f (concat ls) = concat (map (omap f) ls).
Proof. induction ls as [|l ls IH]; [done|]. simpl. by rewrite omap_app, IH. Qed.

(** X11: the conversion to the Messages API format keeps the number, order
    and roles of the messages, and in every message the ids of the tool uses
    and of the tool results, in order. *)
Theorem convertToAnthropicFormat_keeps_tool_ids
        (input : ConverseCommandInput) (m : ModelType) :
  let out := f_messages (convertToAnthropicFormat modelConfigs toLowerCase input m) in
  let msgs := default [] (messages input) in
  map a_role out = map role msgs /\
  map (fun am => a_toolUseIds (a_content am)) out
  = map (fun msg => toolUseIds (default [] (content msg))) msgs /\
  map (fun am => a_toolResultIds (a_content am)) out
  = map (fun msg => toolResultIds (default [] (content msg))) msgs.
Proof.
  intros out msgs. subst out. unfold convertToAnthropicFormat. cbv zeta. simpl.
  fold msgs. rewrite !map_map.
  split; [done|]. split; apply map_ext; intros msg; unfold convertMessage; simpl.
  - unfold a_toolUseIds, toolUseIds. rewrite omap_concat, map_map.
    induction (default [] (content msg)) as [|c cs IH]; [done|]. simpl. rewrite IH.
    destruct c as [t|img|tu|tr|r|cp]; simpl; try done.
    + by destruct t.
    + by destruct (img_bytes img).
  - unfold a_toolResultIds, toolResultIds. rewrite omap_concat, map_map.
    induction (default [] (content msg)) as [|c cs IH]; [done|]. simpl. rewrite IH.
    destruct c as [t|img|tu|tr|r|cp]; simpl; try done.
    + by destruct t.
    + by destruct (img_bytes img).
Qed.

(** X12: on the Anthropic path a request without [inferenceConfig.maxTokens]
    is sent with [max_tokens] 8192 whatever the thinking budget is: with
    reasoning enabled the budget is 2000 without the ultrathink keyword, and
    with the keyword on a model of at least 16386 output tokens it is larger
    than the [max_tokens] of the same request. *)
Theorem anthropic_budget_not_capped_by_max_tokens
        (input : ConverseCommandInput) (m : ModelType) :
  let cfg := modelConfigs m in
  let params := requestParams modelConfigs toLowerCase input m in
  reasoningSupport cfg = true ->
  shouldEnableReasoning input = true ->
  inferenceConfig input ≫= maxTokens = None ->
  p_max_tokens params = 8192 /\
  exists budget,
    p_thinking params = Some {| th_budget_tokens := budget |} /\
    (shouldUltraThink toLowerCase input = false -> budget = 2000) /\
    (shouldUltraThink toLowerCase input = true -> 16386 <= maxOutputTokens cfg ->
     p_max_tokens params < budget).
Proof.
  intros cfg params Hr He Hi. subst params.
  unfold requestParams, convertToAnthropicFormat. cbv zeta.
  cbn [p_max_tokens p_thinking f_max_tokens f_thinking]. fold cfg.
  rewrite Hr, He, Hi. split; [done|].
  eexists. split; [reflexivity|].
  destruct (shouldUltraThink toLowerCase input); split; try done.
  intros _ Hmax.
  assert (8193 <= maxOutputTokens cfg / 2) by (apply Z.div_le_lower_bound; lia).
  lia.
Qed.

End AnthropicMore.

Lemma modelTypeToAnthropicModel_any_region_witness :
  Anthropic.modelMapping !! "anthropic.claude-3-7-sonnet-20250219-v1:0"
  = Some "claude-3-7-sonnet-20250219" /\
  Anthropic.modelTypeToAnthropicModel Samples.sampleConfigs Samples.plain_reasoner
  = Anthropic.ModelName "claude-3-7-sonnet-20250219".
Proof.
  assert (H : Anthropic.modelMapping !! "anthropic.claude-3-7-sonnet-20250219-v1:0"
              = Some "claude-3-7-sonnet-20250219") by (vm_compute; reflexivity).
  split; [exact H|].
  apply (modelTypeToAnthropicModel_any_region
           Samples.sampleConfigs Samples.plain_reasoner "us" _ _ H).
  left. reflexivity.
Defined.

Lemma getAnthropicClient_caches_witness :
  AnthropicClient.getAnthropicClient Cases.envKey None = (Res.Ok "sk-env", Some "sk-env") /\
  AnthropicClient.getAnthropicClient Cases.noKey (Some "sk-env")
  = (Res.Ok "sk-env", Some "sk-env").
Proof.
  assert (H : AnthropicClient.getAnthropicClient Cases.envKey None
              = (Res.Ok "sk-env", Some "sk-env")) by reflexivity.
  split; [exact H|].
  destruct (getAnthropicClient_caches _ _ _ _ H) as (_ & _ & Hlater).
  apply Hlater.
Defined.

Lemma anthropic_budget_not_capped_by_max_tokens_witness :
  let params := Anthropic.requestParams Samples.sampleConfigs JS.toLowerCase_ascii
                                        Samples.ultraRequest Samples.sonnet in
  Anthropic.p_max_tokens params = 8192 /\
  exists budget,
    Anthropic.p_thinking params = Some {| Anthropic.th_budget_tokens := budget |} /\
    Anthropic.p_max_tokens params < budget.
Proof.
  intros params.
  destruct (anthropic_budget_not_capped_by_max_tokens
              Samples.sampleConfigs JS.toLowerCase_ascii Samples.ultraRequest Samples.sonnet
              eq_refl eq_refl eq_refl) as (Hmax & budget & Hth & _ & Hlt).
  split; [exact Hmax|]. exists budget. split; [exact Hth|].
  apply Hlt; [reflexivity | vm_compute; discriminate].
Defined.

(** ** The token ledger *)

Section LedgerProps.
Import Model Res Response Sessions Ledger.

Lemma addAll_spec (adds : list (string * Z)) :
  forall item : gmap string Value,
    NoDup adds.*1 ->
    (forall attr v, attr ∈ adds.*1 -> item !! attr = Some v -> exists n, v = VNum n) ->
    exists item',
      addAll item adds = Some item' /\
      (forall attr n, (attr, n) ∈ adds ->
         item' !! attr
         = Some (VNum (match item !! attr with Some (VNum k) => k | _ => 0 end + n))) /\
      (forall attr, attr ∉ adds.*1 -> item' !! attr = item !! attr).
Proof.
  induction adds as [|[a k] adds IH]; intros item Hnd Hnum.
  { exists item. split; [done|]. split; [by intros attr n ?%elem_of_nil | done]. }
  cbn [fmap list_fmap fst] in Hnd. apply NoDup_cons in Hnd as [Ha Hnd].
  assert (Hstep : exists item1 k0,
             addNumber item (a, k) = Some item1 /\
             item1 = <[a := VNum (k0 + k)]> item /\
             k0 = match item !! a with Some (VNum k) => k | _ => 0 end).
  { unfold addNumber. cbn [fst snd].
    destruct (item !! a) as [v|] eqn:E.
    - destruct (Hnum a v) as [n ->]; [by left | done |]. by eexists _, _.
    - exists (<[a := VNum k]> item), 0. by rewrite Z.add_0_l. }
  destruct Hstep as (item1 & k0 & Hadd & -> & Hk0).
  destruct (IH (<[a := VNum (k0 + k)]> item) Hnd) as (item' & Hall & Hin & Hout).
  { intros attr v Hattr. destruct (decide (attr = a)) as [->|Hne].
    - rewrite lookup_insert_eq. intros [= <-]. by eexists.
    - rewrite lookup_insert_ne by done. apply Hnum. by right. }
  exists item'. split; [|split].
  - cbn [addAll]. by rewrite Hadd.
  - intros attr n [[= -> ->]|Hel]%elem_of_cons.
    + rewrite Hout by done. rewrite lookup_insert_eq. by rewrite Hk0.
    + rewrite (Hin attr n Hel).
      assert (attr <> a).
      { intros ->. apply Ha. apply list_elem_of_fmap. by exists (a, n). }
      by rewrite lookup_insert_ne.
  - intros attr Hattr. apply not_elem_of_cons in Hattr as [Hne Hattr].
    rewrite Hout by done. by rewrite lookup_insert_ne.
Qed.

(** X13: with a table configured, usage reported and the store reachable,
    [trackTokenUsage] adds the four token counts of the response ([x || 0]
    each) to the counters of the worker's item for that model, creating the
    item when there is none; no other item and no other attribute of the item
    changes. When the store fails or no table is configured the ledger is
    left as it was. *)
Theorem trackTokenUsage_accumulates
        (TableName : option string) (workerId modelId : string)
        (response : ConverseResponse) (u : TokenUsage)
        (table : gmap (string * string) (gmap string Value)) :
  JS.truthy_str TableName = true ->
  usage response = Some u ->
  (forall item, table !! ("token-" +:+ workerId, modelId) = Some item ->
                numericCounters item) ->
  let table' := trackTokenUsage TableName true workerId modelId response table in
  (forall attr n,
      (attr, n) ∈ usageIncrements u ->
      counter table' workerId modelId attr = counter table workerId modelId attr + n) /\
  (forall key, key <> ("token-" +:+ workerId, modelId) -> table' !! key = table !! key) /\
  (forall item attr,
      table !! ("token-" +:+ workerId, modelId) = Some item ->
      attr ∉ (usageIncrements u).*1 ->
      table' !! ("token-" +:+ workerId, modelId) ≫= (.!! attr) = item !! attr) /\
  (forall other,
      trackTokenUsage TableName false workerId modelId response table = table /\
      trackTokenUsage None true workerId modelId other table = table).
Proof.
  intros HT Hu Hnum table'. subst table'. unfold trackTokenUsage, counter.
  rewrite HT, Hu. cbn [negb].
  set (key := ("token-" +:+ workerId, modelId)) in *.
  destruct (table !! key) as [item|] eqn:E.
  - destruct (addAll_spec (usageIncrements u) item) as (item' & Hall & Hin & Hout).
    { cbn. apply (bool_decide_unpack _). by vm_compute. }
    { intros attr v Hattr. apply (Hnum item eq_refl). exact Hattr. }
    rewrite Hall. repeat split.
    + intros attr n Hel. rewrite lookup_insert_eq, (Hin attr n Hel).
      by destruct (item !! attr) as [[]|].
    + intros key' Hne. by rewrite lookup_insert_ne.
    + intros item0 attr [= <-] Hattr. rewrite lookup_insert_eq. cbn. by apply Hout.
  - repeat split.
    + intros attr n Hel. rewrite lookup_insert_eq. unfold newLedgerItem.
      cbn in Hel. cbn [foldl usageIncrements fst snd].
      repeat (apply elem_of_cons in Hel as [Heq|Hel]; [injection Heq as -> ->|]);
        [..|by apply elem_of_nil in Hel].
      all: rewrite ?lookup_insert_eq; repeat (rewrite lookup_insert_ne by done);
        rewrite ?lookup_insert_eq; done.
    + intros key' Hne. by rewrite lookup_insert_ne.
    + intros item0 attr [=].
Qed.

End LedgerProps.

Lemma trackTokenUsage_accumulates_witness :
  Ledger.counter
    (Ledger.trackTokenUsage (Some "table") true "w1" "m1" Cases.usageResponse Cases.ledger0)
    "w1" "m1" "inputToken" = 107.
Proof.
  assert (Hnum : forall item,
             Cases.ledger0 !! ("token-" +:+ "w1", "m1") = Some item ->
             Ledger.numericCounters item).
  { intros item [= <-] attr v Hattr.
    repeat (apply elem_of_cons in Hattr as [->|Hattr]);
      [..|by apply elem_of_nil in Hattr]; vm_compute; intros [= <-]; by eexists. }
  exact (proj1 (trackTokenUsage_accumulates
                  (Some "table") "w1" "m1" Cases.usageResponse Cases.usage1 Cases.ledger0
                  eq_refl eq_refl Hnum) "inputToken" 100 ltac:(by left)).
Defined.


(** ** More on the session store *)

Section TitleMore.
Import Model Res Response Sessions.

Section DropSpaces.
Variable sp1 : ascii -> bool.
Variable sp2 : ascii -> ascii -> bool.
Variable sp3 : ascii -> ascii -> ascii -> bool.

Lemma drop_spaces_fixed (l : list ascii) :
  JS.starts_with_space sp1 sp2 sp3 l = false -> JS.drop_spaces sp1 sp2 sp3 l = l.
Proof.
  destruct l as [|a [|b [|c r]]]; cbn; [done|..].
  - by intros ->%orb_false_elim%proj1.
  - intros [-> [-> _]%orb_false_elim]%orb_false_elim. done.
  - intros [-> [-> ->]%orb_false_elim]%orb_false_elim. done.
Qed.

Lemma drop_spaces_spec (n : nat) : forall l : list ascii,
  (length l <= n)%nat ->
  JS.starts_with_space sp1 sp2 sp3 (JS.drop_spaces sp1 sp2 sp3 l) = false /\
  exists k, l = k ++ JS.drop_spaces sp1 sp2 sp3 l.
Proof.
  induction n as [|n IH]; intros l Hl.
  { destruct l; [|cbn in Hl; lia]. split; [done | by exists []]. }
  destruct l as [|a r1]; [split; [done | by exists []]|].
  cbn [JS.drop_spaces]. cbn [length] in Hl.
  destruct (sp1 a) eqn:E1.
  { destruct (IH r1 ltac:(lia)) as [H [k Hk]]. split; [done|].
    exists (a :: k). cbn. by rewrite <- Hk. }
  destruct r1 as [|b r2].
  { split; [cbn; by rewrite E1 | by exists []]. }
  cbn [length] in Hl. destruct (sp2 a b) eqn:E2.
  { destruct (IH r2 ltac:(lia)) as [H [k Hk]]. split; [done|].
    exists (a :: b :: k). cbn. by rewrite <- Hk. }
  destruct r2 as [|c r3].
  { split; [cbn; by rewrite E1, E2 | by exists []]. }
  cbn [length] in Hl. destruct (sp3 a b c) eqn:E3.
  { destruct (IH r3 ltac:(lia)) as [H [k Hk]]. split; [done|].
    exists (a :: b :: c :: k). cbn. by rewrite <- Hk. }
  split; [cbn; by rewrite E1, E2, E3 | by exists []].
Qed.

Lemma starts_with_space_app (k t : list ascii) :
  JS.starts_with_space sp1 sp2 sp3 k = true ->
  JS.starts_with_space sp1 sp2 sp3 (k ++ t) = true.
Proof.
  destruct k as [|a [|b [|c r]]]; cbn; [done|..].
  - rewrite orb_false_r. by intros ->.
  - destruct (sp1 a); [done|]. cbn. rewrite orb_false_r. by intros ->.
  - done.
Qed.

End DropSpaces.

Lemma trim_start_bytes_head (l : list ascii) :
  JS.starts_with_space JS.is_space JS.is_space2 JS.is_space3 (JS.trim_start_bytes l)
  = false.
Proof. by apply (drop_spaces_spec _ _ _ (length l)). Qed.

Lemma trim_end_bytes_idem (l : list ascii) :
  JS.trim_end_bytes (JS.trim_end_bytes l) = JS.trim_end_bytes l.
Proof.
  unfold JS.trim_end_bytes. rewrite rev_involutive. f_equal.
  apply drop_spaces_fixed. by apply (drop_spaces_spec _ _ _ (length (rev l))).
Qed.

(** Trimming the end leaves a beginning of the bytes, so it cannot uncover
    white space at the head. *)
Lemma trim_start_after_trim_end (l : list ascii) :
  JS.starts_with_space JS.is_space JS.is_space2 JS.is_space3 l = false ->
  JS.trim_start_bytes (JS.trim_end_bytes l) = JS.trim_end_bytes l.
Proof.
  intros Hl. apply drop_spaces_fixed.
  destruct (JS.starts_with_space _ _ _ (JS.trim_end_bytes l)) eqn:E; [|done].
  unfold JS.trim_end_bytes in E.
  destruct (drop_spaces_spec JS.is_space (fun a b => JS.is_space2 b a)
              (fun a b c => JS.is_space3 c b a) (length (rev l)) (rev l) ltac:(done))
    as [_ [k Hk]].
  apply (f_equal (@rev ascii)) in Hk. rewrite rev_involutive, rev_app_distr in Hk.
  apply (starts_with_space_app _ _ _ _ (rev k)) in E. rewrite <- Hk in E. congruence.
Qed.

Lemma trim_idem (s : string) : JS.trim (JS.trim s) = JS.trim s.
Proof.
  unfold JS.trim, JS.trim_end, JS.trim_start.
  rewrite !list_ascii_of_string_of_list_ascii.
  rewrite trim_start_after_trim_end by apply trim_start_bytes_head.
  by rewrite trim_end_bytes_idem.
Qed.

(** A string of ASCII blanks trims to the empty string. *)
Lemma trim_blank (s : string) :
  Forall (fun c => JS.is_space c = true) (list_ascii_of_string s) ->
  JS.trim s = EmptyString.
Proof.
  intros H. unfold JS.trim, JS.trim_end, JS.trim_start.
  rewrite list_ascii_of_string_of_list_ascii.
  replace (JS.trim_start_bytes (list_ascii_of_string s)) with (@nil ascii); [done|].
  induction H as [|c l Hc _ IH]; [done|]. cbn. by rewrite Hc.
Qed.

(** X14: [generateSessionTitle] never throws and always returns a trimmed
    string; the string is non-empty only if the provider answered and the
    first block of the answer is a text, whose trimmed form it is. *)
Theorem generateSessionTitle_total
        (converse : string -> list string -> ConverseCommandInput ->
                    Result (ConverseResponse * option Z))
        (workerId message : string) :
  let title := generateSessionTitle converse workerId message in
  JS.trim title = title /\
  (title <> EmptyString ->
   exists response budget t rest,
     converse workerId ["haiku3.5"] (titleRequest message) = Ok (response, budget) /\
     output_message response ≫= content = Some (CText t :: rest) /\
     title = JS.trim t).
Proof.
  intros title. subst title. unfold generateSessionTitle, firstText.
  destruct (converse _ _ _) as [[response budget]|e]; [|by split].
  destruct (output_message response ≫= content) as [[|c rest]|] eqn:E; [by split| |by split].
  split; [apply trim_idem|].
  destruct c as [t| | | | |]; simpl; try done.
  intros _. by exists response, budget, t, rest.
Qed.

End TitleMore.

Lemma generateSessionTitle_total_witness :
  let title :=
    Sessions.generateSessionTitle
      (fun _ _ _ => Res.Ok (Samples.textResponse Cases.paddedTitle Response.end_turn 9,
                            @None Z))
      "w1" "User: hi" in
  title = "Title" /\
  exists response budget t rest,
    Res.Ok (Samples.textResponse Cases.paddedTitle Response.end_turn 9, @None Z)
    = Res.Ok (response, budget) /\
    Response.output_message response ≫= Model.content = Some (Model.CText t :: rest) /\
    title = JS.trim t.
Proof.
  intros title. split; [vm_compute; reflexivity|].
  apply (generateSessionTitle_total
           (fun _ _ _ => Res.Ok (Samples.textResponse Cases.paddedTitle Response.end_turn 9,
                                 @None Z))
           "w1" "User: hi").
  vm_compute. discriminate.
Defined.

Section WrappersMore.
Import Res Sessions SessionList.

Lemma updateSession_single (now : Z) (workerId k : string) (v : Value)
      (table : gmap (string * string) (gmap string Value)) :
  k <> "updatedAt" ->
  updateSession now workerId {[ k := Some v ]} table
  = Ok (<[("sessions", workerId) :=
            <[k := v]> (<["updatedAt" := VNum now]>
                          (default {[ "PK" := VStr "sessions"; "SK" := VStr workerId ]}
                                   (table !! ("sessions", workerId))))]> table).
Proof.
  intros Hk. unfold updateSession, updateSessionCommand.
  rewrite map_to_list_singleton. cbn [foldl addParam fst snd].
  unfold ddbUpdate.
  cbn [setClauses ExpressionAttributeNames ExpressionAttributeValues Key app mapM
       resolveClause fst snd].
  change ("#" +:+ k) with (String "#" k). change (":" +:+ k) with (String ":" k).
  unfold resolveClause.
  cbn [ExpressionAttributeNames ExpressionAttributeValues fst snd].
  rewrite (lookup_insert_ne _ (String "#" k) "#updatedAt") by (intros [= ?]; done).
  rewrite (lookup_insert_ne _ (String ":" k) ":updatedAt") by (intros [= ?]; done).
  rewrite !lookup_singleton_eq, !lookup_insert_eq. cbn.
  rewrite bool_decide_eq_true_2.
  - reflexivity.
  - apply NoDup_cons. split; [|apply NoDup_singleton].
    intros H%list_elem_of_singleton. by apply Hk.
Qed.

(** X15: setting the title and then the agent status of an existing session
    leaves a record that has both, carries the time of the second update, and
    is otherwise what it was; no other record changes. *)
Theorem title_then_status
        (now1 now2 : Z) (workerId title status : string)
        (table : gmap (string * string) (gmap string Value)) (item : gmap string Value) :
  getSession workerId table = Some item ->
  exists table1 table2 item2,
    updateSessionTitle now1 workerId title table = Ok table1 /\
    updateSessionAgentStatus now2 workerId status table1 = Ok table2 /\
    getSession workerId table2 = Some item2 /\
    item2 !! "title" = Some (VStr title) /\
    item2 !! "agentStatus" = Some (VStr status) /\
    item2 !! "updatedAt" = Some (VNum now2) /\
    (forall attr, attr <> "title" -> attr <> "agentStatus" -> attr <> "updatedAt" ->
                  item2 !! attr = item !! attr) /\
    (forall other, other <> workerId -> getSession other table2 = getSession other table).
Proof.
  unfold getSession. intros Hitem.
  set (key := ("sessions", workerId)).
  set (item1 := <["title" := VStr title]> (<["updatedAt" := VNum now1]> item)).
  set (item2 := <["agentStatus" := VStr status]> (<["updatedAt" := VNum now2]> item1)).
  exists (<[key := item1]> table), (<[key := item2]> (<[key := item1]> table)), item2.
  unfold updateSessionTitle, updateSessionAgentStatus.
  split; [rewrite updateSession_single by done; by rewrite Hitem|].
  split; [rewrite updateSession_single by done; subst key; by rewrite lookup_insert_eq|].
  split; [apply lookup_insert_eq|].
  subst item2 item1.
  split; [by rewrite !lookup_insert_ne, lookup_insert_eq by done|].
  split; [by rewrite lookup_insert_eq|].
  split; [by rewrite lookup_insert_ne, lookup_insert_eq by done|].
  split.
  - intros attr H1 H2 H3. by rewrite !lookup_insert_ne by done.
  - intros other Ho. rewrite !lookup_insert_ne; [done| |]; intros [= ?]; done.
Qed.

End WrappersMore.

Lemma title_then_status_witness :
  SessionList.getSession "w1" Samples.sessionTable = Some Samples.sessionItem /\
  exists table1 table2 item2,
    Sessions.updateSessionTitle 10 "w1" "Greeting" Samples.sessionTable = Res.Ok table1 /\
    Sessions.updateSessionAgentStatus 20 "w1" "pending" table1 = Res.Ok table2 /\
    SessionList.getSession "w1" table2 = Some item2 /\
    item2 !! "createdAt" = Some (Sessions.VNum 1).
Proof.
  assert (H : SessionList.getSession "w1" Samples.sessionTable = Some Samples.sessionItem)
    by (vm_compute; reflexivity).
  split; [exact H|].
  destruct (title_then_status 10 20 "w1" "Greeting" "pending" _ _ H)
    as (table1 & table2 & item2 & H1 & H2 & H3 & _ & _ & _ & Hframe & _).
  exists table1, table2, item2. repeat split; try assumption.
  rewrite Hframe by done. vm_compute. reflexivity.
Defined.


(** ** Listing sessions *)

Section ListingMore.
Import Sessions SessionList.

Lemma filter_Forall {A : Type} (p : A -> bool) (l : list A) :
  Forall (fun x => p x = true) (JS.filter p l).
Proof.
  induction l as [|x l IH]; [constructor|]. simpl.
  destruct (p x) eqn:E; [by constructor | done].
Qed.




Lemma fixedDigits_length (w : nat) : forall n, String.length (fixedDigits w n) = w.
Proof. induction w as [|w IH]; intros n; [done|]. simpl. by rewrite IH. Qed.

Lemma pow10_pos (w : nat) : (0 < 10 ^ N.of_nat w)%N.
Proof. apply N.neq_0_lt_0, N.pow_nonzero. lia. Qed.

Lemma pow10_succ (w : nat) : (10 ^ N.of_nat (S w) = 10 * 10 ^ N.of_nat w)%N.
Proof. by rewrite Nat2N.inj_succ, N.pow_succ_r'. Qed.

Lemma digit_compare (p q : N) :
  (p < 10)%N -> (q < 10)%N -> Ascii.compare (digit p) (digit q) = N.compare p q.
Proof.
  intros Hp Hq. unfold Ascii.compare, digit.
  rewrite !N_ascii_embedding by lia.
  destruct (N.compare_spec p q);
    [apply N.compare_eq_iff | apply N.compare_lt_iff | apply N.compare_gt_iff]; lia.
Qed.

(** Fixed-width decimal strings compare like the numbers they write. *)
Lemma fixedDigits_compare (w : nat) : forall a b : N,
  (a < 10 ^ N.of_nat w)%N -> (b < 10 ^ N.of_nat w)%N ->
  String.compare (fixedDigits w a) (fixedDigits w b) = N.compare a b.
Proof.
  induction w as [|w IH]; intros a b Ha Hb.
  - simpl in *. assert (a = 0%N) by lia. assert (b = 0%N) by lia. by subst.
  - rewrite pow10_succ in Ha, Hb.
    pose proof (pow10_pos w) as HP.
    set (P := (10 ^ N.of_nat w)%N) in *.
    cbn [fixedDigits]. fold P.
    pose proof (N.div_mod a P ltac:(lia)) as Hda.
    pose proof (N.div_mod b P ltac:(lia)) as Hdb.
    pose proof (N.mod_lt a P ltac:(lia)) as Hra.
    pose proof (N.mod_lt b P ltac:(lia)) as Hrb.
    assert (Hqa : (a / P < 10)%N) by (apply N.Div0.div_lt_upper_bound; lia).
    assert (Hqb : (b / P < 10)%N) by (apply N.Div0.div_lt_upper_bound; lia).
    rewrite !(N.mod_small _ 10) by done.
    cbn [String.compare]. rewrite digit_compare by done.
    clearbody P.
    remember (a / P)%N as qa eqn:Eqa. remember (b / P)%N as qb eqn:Eqb.
    remember (a mod P)%N as ra eqn:Era. remember (b mod P)%N as rb eqn:Erb.
    clear Eqa Eqb Era Erb.
    destruct (N.compare_spec qa qb) as [Heq|Hlt|Hgt].
    + rewrite IH by done.
      destruct (N.compare_spec ra rb); symmetry;
        [apply N.compare_eq_iff | apply N.compare_lt_iff | apply N.compare_gt_iff];
        rewrite Heq in Hda; lia.
    + symmetry. apply N.compare_lt_iff.
      assert (H1 : (P * (qa + 1) <= P * qb)%N) by (apply N.mul_le_mono_l; lia).
      rewrite N.mul_add_distr_l, N.mul_1_r in H1. lia.
    + symmetry. apply N.compare_gt_iff.
      assert (H1 : (P * (qb + 1) <= P * qa)%N) by (apply N.mul_le_mono_l; lia).
      rewrite N.mul_add_distr_l, N.mul_1_r in H1. lia.
Qed.
End ListingMore.


Section RangeKeys.
Import Sessions SessionList.

Lemma fixedDigits_small (w : nat) (n : N) :
  (n < 10 ^ N.of_nat w)%N ->
  fixedDigits (S w) n = String "0" (fixedDigits w n).
Proof.
  intros H. cbn [fixedDigits].
  rewrite (N.div_small n), (N.mod_small n) by done. reflexivity.
Qed.

Lemma pow10_mono (w : nat) (n : N) :
  (n < 10 ^ N.of_nat w)%N -> (n < 10 ^ N.of_nat (S w))%N.
Proof. rewrite pow10_succ. pose proof (pow10_pos w). lia. Qed.

Lemma stripZeros_zero (s : string) :
  s <> EmptyString -> stripZeros (String "0" s) = stripZeros s.
Proof. by destruct s. Qed.

Lemma stripZeros_length (s : string) :
  (String.length (stripZeros s) <= String.length s)%nat.
Proof.
  induction s as [|c s IH]; [done|].
  destruct s as [|c' s']; [done|].
  change (stripZeros (String c (String c' s')))
    with (if Ascii.eqb c "0" then stripZeros (String c' s') else String c (String c' s')).
  destruct (Ascii.eqb c "0"); [|done]. simpl String.length in *. lia.
Qed.

(** Padding with zeros gives back what [stripZeros] took away. *)
Lemma padStart_stripZeros (s : string) :
  padStart (String.length s) "0" (stripZeros s) = s.
Proof.
  unfold padStart. induction s as [|c s IH]; [done|].
  destruct s as [|c' s']; [done|].
  change (stripZeros (String c (String c' s')))
    with (if Ascii.eqb c "0" then stripZeros (String c' s') else String c (String c' s')).
  destruct (Ascii.eqb_spec c "0") as [->|Hc].
  - pose proof (stripZeros_length (String c' s')) as Hl.
    replace (String.length (String "0" (String c' s'))
             - String.length (stripZeros (String c' s')))%nat
      with (S (String.length (String c' s')
               - String.length (stripZeros (String c' s'))))%nat
      by (simpl String.length in *; lia).
    cbn [repeatChar]. by rewrite IH.
  - by rewrite Nat.sub_diag.
Qed.

Lemma timestampKey_fixed (t : N) :
  (t < 10 ^ 15)%N -> timestampKey t = fixedDigits 15 t.
Proof.
  intros Ht. unfold timestampKey, String_of_N.
  assert (H15 : (t < 10 ^ N.of_nat 15)%N) by exact Ht.
  assert (Hne : forall w n, fixedDigits (S w) n <> EmptyString) by done.
  rewrite (fixedDigits_small 20) by (do 5 apply pow10_mono; exact H15).
  rewrite (fixedDigits_small 19) by (do 4 apply pow10_mono; exact H15).
  rewrite (fixedDigits_small 18) by (do 3 apply pow10_mono; exact H15).
  rewrite (fixedDigits_small 17) by (do 2 apply pow10_mono; exact H15).
  rewrite (fixedDigits_small 16) by (do 1 apply pow10_mono; exact H15).
  rewrite (fixedDigits_small 15) by exact H15.
  rewrite !stripZeros_zero by done.
  rewrite <- (fixedDigits_length 15 t) at 1. apply padStart_stripZeros.
Qed.

(** X17: the 15 character keys of a date range order like the timestamps
    they are made from, so a session whose [LSI1] is the key of a time [t] is
    listed only if [t] lies in the range. *)
Theorem getSessions_range_keys
        (index : list (gmap string Value)) (limit : nat) (startDate endDate t : N)
        (s : gmap string Value) :
  (startDate < 10 ^ 15)%N -> (endDate < 10 ^ 15)%N -> (t < 10 ^ 15)%N ->
  String.compare (timestampKey startDate) (timestampKey t) = N.compare startDate t /\
  String.length (timestampKey t) = 15%nat /\
  (s ∈ getSessions index limit (Some (startDate, endDate)) ->
   lsi1 s = Some (timestampKey t) -> (startDate <= t <= endDate)%N).
Proof.
  intros Hs He Ht.
  assert (Hcmp : forall a b, (a < 10 ^ 15)%N -> (b < 10 ^ 15)%N ->
                             String.leb (timestampKey a) (timestampKey b) = true ->
                             (a <= b)%N).
  { intros a b Ha Hb. unfold String.leb.
    rewrite !timestampKey_fixed, (fixedDigits_compare 15) by done.
    destruct (N.compare_spec a b); [lia | lia | done]. }
  split; [by rewrite !timestampKey_fixed, (fixedDigits_compare 15) by done|].
  split; [by rewrite timestampKey_fixed, fixedDigits_length by done|].
  intros Hin Hkey.
  assert (Hb : between (timestampKey startDate) (timestampKey endDate) s = true).
  { assert (Hsub : forall (p : gmap string Value -> bool) l x,
               x ∈ JS.filter p l -> x ∈ l /\ p x = true).
    { intros p l x. induction l as [|y l IH]; simpl; [by intros ?%elem_of_nil|].
      destruct (p y) eqn:E.
      - intros [->|H]%elem_of_cons; [split; [by left | done]|].
        destruct (IH H). split; [by right | done].
      - intros H. destruct (IH H). split; [by right | done]. }
    unfold getSessions, query in Hin. cbv zeta in Hin. cbn [fst snd] in Hin.
    destruct (Nat.eqb limit 0); apply Hsub in Hin as [Hin _].
    + by apply Hsub in Hin as [_ ?].
    + apply elem_of_take in Hin as (i & Hin & _).
      apply list_elem_of_lookup_2 in Hin. by apply Hsub in Hin as [_ ?].
  }
  unfold between in Hb. rewrite Hkey in Hb. apply andb_true_iff in Hb as [H1 H2].
  split; by apply Hcmp.
Qed.

End RangeKeys.

Lemma getSessions_range_keys_witness :
  (1700000150 < 10 ^ 15)%N /\ (1700000400 < 10 ^ 15)%N /\ (1700000300 < 10 ^ 15)%N /\
  Cases.session "w3" "000001700000300" false
    ∈ SessionList.getSessions Cases.sessionIndex 2 (Some (1700000150, 1700000400))%N /\
  (1700000150 <= 1700000300 <= 1700000400)%N.
Proof.
  assert (H1 : (1700000150 < 10 ^ 15)%N) by (vm_compute; reflexivity).
  assert (H2 : (1700000400 < 10 ^ 15)%N) by (vm_compute; reflexivity).
  assert (H3 : (1700000300 < 10 ^ 15)%N) by (vm_compute; reflexivity).
  assert (Hin : Cases.session "w3" "000001700000300" false
                ∈ SessionList.getSessions Cases.sessionIndex 2
                    (Some (1700000150, 1700000400))%N).
  { vm_compute. left. }
  repeat split; try assumption;
    apply (getSessions_range_keys Cases.sessionIndex 2 1700000150 1700000400 1700000300
             (Cases.session "w3" "000001700000300" false) H1 H2 H3);
    try exact Hin; vm_compute; reflexivity.
Defined.

(** ** The tools of a turn *)

Section ToolCatalog.
Import Model Turn.
Variables ciTool cloneRepositoryTool createPRTool commandExecutionTool
          reportProgressTool fileEditTool sendImageTool getPRCommentsTool
          replyPRCommentTool addIssueCommentTool readImageTool todoInitTool
          todoUpdateTool : BuiltinTool.

Local Abbreviation catalog :=
  (builtinTools ciTool cloneRepositoryTool createPRTool commandExecutionTool
                reportProgressTool fileEditTool sendImageTool getPRCommentsTool
                replyPRCommentTool addIssueCommentTool readImageTool todoInitTool
                todoUpdateTool).
Local Abbreviation required :=
  (requiredTools reportProgressTool sendImageTool todoInitTool todoUpdateTool).
Local Abbreviation select :=
  (selectTools ciTool cloneRepositoryTool createPRTool commandExecutionTool
               reportProgressTool fileEditTool sendImageTool getPRCommentsTool
               replyPRCommentTool addIssueCommentTool readImageTool todoInitTool
               todoUpdateTool).
Local Abbreviation assemble :=
  (assembleToolConfig ciTool cloneRepositoryTool createPRTool commandExecutionTool
                      reportProgressTool fileEditTool sendImageTool getPRCommentsTool
                      replyPRCommentTool addIssueCommentTool readImageTool todoInitTool
                      todoUpdateTool).

Lemma includes_name_elem (names : list string) (n : string) :
  includes_name names n = true <-> n ∈ names.
Proof.
  unfold includes_name. rewrite existsb_exists. split.
  - intros (x & Hx & He). apply String.eqb_eq in He. subst. by apply list_elem_of_In.
  - intros H. exists n. split; [by apply list_elem_of_In | apply String.eqb_refl].
Qed.

Lemma elem_of_JS_filter {A : Type} (p : A -> bool) (l : list A) (x : A) :
  x ∈ JS.filter p l <-> x ∈ l /\ p x = true.
Proof.
  induction l as [|y l IH]; cbn.
  - split; [by intros ?%elem_of_nil | by intros [?%elem_of_nil _]].
  - destruct (p y) eqn:E; rewrite ?elem_of_cons, IH; split.
    + intros [->|[? ?]]; auto.
    + intros [[->|?] ?]; auto.
    + intros [? ?]; auto.
    + intros [[->|?] ?]; [congruence | auto].
Qed.

Lemma JS_filter_sublist {A : Type} (p : A -> bool) (l : list A) :
  JS.filter p l `sublist_of` l.
Proof.
  induction l as [|y l IH]; cbn; [constructor|].
  destruct (p y); by constructor.
Qed.

Lemma sublist_JS_filter {A : Type} (p : A -> bool) (l1 l2 : list A) :
  l1 `sublist_of` l2 -> Forall (fun x => p x = true) l1 ->
  l1 `sublist_of` JS.filter p l2.
Proof.
  induction 1 as [|x l1 l2 _ IH|x l1 l2 _ IH]; intros Hp; cbn.
  - constructor.
  - inversion Hp as [|? ? Hx Hl]; subst. rewrite Hx. constructor. by apply IH.
  - destruct (p x); [constructor|]; by apply IH.
Qed.

(** X18: the tools offered in a turn are the built-in tools that the custom
    agent names or that are required, in catalog order; the four required
    tools are offered whatever the custom agent names, so the tool
    configuration is never [undefined]: it holds at least those four, then the
    MCP tool specifications, and ends with the cache point. *)
Theorem required_tools_always_offered
        (customAgentTools : list string) (mcpToolSpecs : list Tool) :
  (forall tool,
      tool ∈ select customAgentTools <->
      tool ∈ catalog /\ (bt_name tool ∈ customAgentTools \/ bt_name tool ∈ required)) /\
  select customAgentTools `sublist_of` catalog /\
  [reportProgressTool; sendImageTool; todoInitTool; todoUpdateTool]
    `sublist_of` select customAgentTools /\
  exists entries,
    assemble customAgentTools mcpToolSpecs
    = Some {| tools := Some entries; toolChoice := None |} /\
    (5 + length mcpToolSpecs <= length entries)%nat /\
    last entries = Some (ToolCachePoint default_cachePoint) /\
    mcpToolSpecs ⊆ entries.
Proof.
  assert (Hreq : [reportProgressTool; sendImageTool; todoInitTool; todoUpdateTool]
                   `sublist_of` select customAgentTools).
  { apply sublist_JS_filter.
    - unfold builtinTools.
      do 4 apply sublist_cons. apply sublist_skip.
      apply sublist_cons. apply sublist_skip.
      do 4 apply sublist_cons. do 2 apply sublist_skip. constructor.
    - repeat constructor; apply orb_true_iff; right; apply includes_name_elem;
        unfold requiredTools; set_solver. }
  split; [|split; [|split]].
  - intros tool. unfold selectTools. rewrite elem_of_JS_filter, orb_true_iff.
    by rewrite !includes_name_elem.
  - apply JS_filter_sublist.
  - exact Hreq.
  - unfold assembleToolConfig. cbv zeta.
    set (entries := map _ (select customAgentTools) ++ mcpToolSpecs ++ _).
    assert (Hlen : (5 + length mcpToolSpecs <= length entries)%nat).
    { unfold entries. rewrite !length_app, length_map. cbn.
      apply sublist_length in Hreq. cbn in Hreq. lia. }
    destruct (Nat.eqb_spec (length entries) 1) as [E|_]; [lia|].
    exists entries. repeat split; [done|..].
    + unfold entries. by rewrite !app_assoc, last_snoc.
    + unfold entries. set_solver.
Qed.

End ToolCatalog.

(** ** Cache points of an iteration *)

Section CachePoints.
Import Model Converse Turn Views.

Lemma addCachePoint_effects (messages : list Message) (cp : Z) :
  length (addCachePoint messages cp) = length messages /\
  pruneMessage <$> addCachePoint messages cp = pruneMessage <$> messages /\
  (cachePoints messages <= cachePoints (addCachePoint messages cp)
   <= S (cachePoints messages))%nat /\
  (forall i : nat, Z.of_nat i <> cp -> addCachePoint messages cp !! i = messages !! i) /\
  (forall (i : nat) m cs,
      Z.of_nat i = cp -> messages !! i = Some m -> content m = Some cs ->
      addCachePoint messages cp !! i
      = Some {| role := role m; content := Some (cs ++ [CCachePoint default_cachePoint]) |}).
Proof.
  unfold addCachePoint.
  destruct (Z.ltb_spec cp 0) as [Hneg|Hpos].
  { repeat split; try done; lia. }
  destruct (messages !! Z.to_nat cp) as [message|] eqn:Hm.
  2: { repeat split; try done; try lia. intros i m cs Hi Hl. subst cp.
       rewrite Nat2Z.id in Hm. congruence. }
  destruct (content message) as [cs0|] eqn:Hc.
  2: { repeat split; try done; try lia. intros i m cs Hi Hl. subst cp.
       rewrite Nat2Z.id in Hm. congruence. }
  split; [by rewrite length_insert|]. split; [|split; [|split]].
  - rewrite list_fmap_insert. apply list_insert_id. rewrite list_lookup_fmap, Hm.
    cbn. unfold pruneMessage. cbn [role content fmap option_fmap option_map].
    rewrite Hc. cbn. do 3 f_equal. rewrite !splice_all_filter, filter_app. cbn.
    by rewrite app_nil_r.
  - rewrite insert_take_drop by (by eapply lookup_lt_Some).
    assert (E : cachePoints messages
                = cachePoints (take (Z.to_nat cp) messages
                               ++ message :: drop (S (Z.to_nat cp)) messages))
      by (by rewrite take_drop_middle).
    rewrite E. unfold cachePoints.
    rewrite !map_app, !sum_list_with_app. cbn [map sum_list_with content].
    rewrite Hc. cbn [default]. unfold count_if, id. rewrite filter_app, length_app. cbn. lia.
  - intros i Hi. apply list_lookup_insert_ne. lia.
  - intros i m cs Hi Hl Hcs. subst cp. rewrite Nat2Z.id in *.
    rewrite list_lookup_insert_eq by (by eapply lookup_lt_Some).
    congruence.
Qed.

(** X19: placing the cache points of an iteration keeps the number of
    messages, adds at most two cache markers and nothing else (the messages
    are the same once cache markers are pruned, as for a model without message
    caching), and when the second point is the last index, the last message
    ends up with exactly one more block, a cache marker at its end. *)
Theorem cache_points_only_add_markers (firstCachePoint secondCachePoint : Z)
        (messages : list Message) :
  let placed := placeCachePoints firstCachePoint secondCachePoint messages in
  length placed = length messages /\
  pruneMessage <$> placed = pruneMessage <$> messages /\
  (cachePoints messages <= cachePoints placed <= cachePoints messages + 2)%nat /\
  (forall m cs,
      secondCachePoint = Z.of_nat (length messages) - 1 ->
      last messages = Some m -> content m = Some cs ->
      last placed
      = Some {| role := role m; content := Some (cs ++ [CCachePoint default_cachePoint]) |}).
Proof.
  unfold placeCachePoints.
  destruct (Z.eqb_spec firstCachePoint secondCachePoint) as [->|Hne]; cbn [foldl].
  - destruct (addCachePoint_effects messages secondCachePoint) as (H1 & H2 & H3 & _ & H5).
    repeat split; try done; try lia.
    intros m cs Hs Hl Hc. rewrite last_lookup in *. rewrite H1.
    apply H5; [|done..]. apply lookup_lt_Some in Hl. lia.
  - destruct (addCachePoint_effects messages firstCachePoint) as (H1 & H2 & H3 & H4 & _).
    destruct (addCachePoint_effects (addCachePoint messages firstCachePoint)
                                   secondCachePoint) as (K1 & K2 & K3 & _ & K5).
    repeat split; try congruence; try lia.
    intros m cs Hs Hl Hc. rewrite last_lookup in *. rewrite K1, H1.
    pose proof (lookup_lt_Some _ _ _ Hl) as Hlt.
    apply K5; [lia| |done]. rewrite H4; [done|lia].
Qed.

End CachePoints.

(** ** The turn loop as a whole *)

Section LoopInvariants.
Import Model Res Response Agent Views.
Variable middleOutFiltering : list MessageItem -> FilterResult.

(** What the retry wrapper leaves behind, whatever the provider does: the
    conversation is untouched, the count never goes down, and every call it
    issued was made with a count of at most 5 and used up one step. *)
Lemma pRetry_effects (n : nat) : forall (script : list Step) (st : LoopState),
  let r := pRetry n script st in
  items (snd r) = items st /\ log (snd r) = log st /\
  (maxTokensExceededCount st <= maxTokensExceededCount (snd r))%nat /\
  (isCancelled st = true -> isCancelled (snd r) = true) /\
  exists new,
    providerCalls (snd r) = providerCalls st ++ new /\
    Forall (fun c => (maxTokensExceededCount st <= c <= 5)%nat) new /\
    (length new <= S n)%nat /\
    snd (fst r) = drop (length new) script.
Proof.
  induction n as [|n IH]; intros script st; cbn [pRetry].
  all: destruct (isCancelled st) eqn:Ec; [no_call|].
  all: destruct (Nat.ltb_spec 5 (maxTokensExceededCount st)) as [H5|H5]; [no_call|].
  all: destruct script as [|s rest]; [no_call|].
  all: unfold converse;
    replace (5 <? maxTokensExceededCount st)%nat with false
      by (symmetry; apply Nat.ltb_ge; lia).
  - destruct (outcome s) as [res b|e].
    + destruct (stopReason res) as [[]|]; one_call st.
    + destruct (is_throttling e); one_call st.
  - destruct (outcome s) as [res b|e].
    + destruct (stopReason res) as [[]|]; one_call st.
    + destruct (is_throttling e).
      2: one_call st.
      match goal with |- context [pRetry n rest ?st2] =>
        destruct (IH rest st2) as (Hi & Hl & Hc & Hk & new & Hp & Hf & Hlen & Hr) end.
      cbv zeta. rewrite Hi, Hl. cbn [items log set_cancel record_call].
      repeat split; try done.
      * exists (maxTokensExceededCount st :: new). rewrite Hp, Hr.
        cbn [providerCalls set_cancel record_call].
        rewrite <- app_assoc. repeat split; try done.
        -- constructor; [lia|]. exact Hf.
        -- cbn. lia.
Qed.

Lemma itemFrame_updateMessageTokenCount (sk : nat) (n : Z) (lg : list MessageItem) :
  itemFrame <$> updateMessageTokenCount sk n lg = itemFrame <$> lg.
Proof.
  unfold updateMessageTokenCount.
  induction lg as [|i lg IH]; [done|].
  cbn [map fmap list_fmap] in *. rewrite IH. f_equal.
  by destruct (Nat.eqb (SK i) sk).
Qed.

(** Token attribution rewrites [tokenCount] and nothing else. *)
Lemma attributeTokens_effects (res : ConverseResponse) (total : Z) (st : LoopState) :
  let st' := attributeTokens res total st in
  itemFrame <$> items st' = itemFrame <$> items st /\
  itemFrame <$> log st' = itemFrame <$> log st /\
  maxTokensExceededCount st' = maxTokensExceededCount st /\
  isCancelled st' = isCancelled st /\
  detectedBudget st' = detectedBudget st /\
  providerCalls st' = providerCalls st.
Proof.
  unfold attributeTokens. rewrite at_last.
  destruct (last (items st)) as [lastItem|] eqn:El; [|done].
  destruct (Role_eqb (mi_role lastItem) user); [|done].
  cbn [items log set_items_log maxTokensExceededCount isCancelled detectedBudget
       providerCalls].
  rewrite itemFrame_updateMessageTokenCount. repeat split.
  rewrite list_fmap_insert. apply list_insert_id.
  rewrite list_lookup_fmap. rewrite last_lookup in El. by rewrite El.
Qed.

(** The loop as a whole: the provider is only ever called with a count of at
    most 5, each call uses up one step, the count never goes down, and the
    stored conversation only grows. *)
Lemma while_effects (fuel : nat) : forall (script : list Step) (st : LoopState),
  let r := while middleOutFiltering fuel script st in
  (maxTokensExceededCount st <= maxTokensExceededCount (snd r))%nat /\
  (isCancelled st = true -> isCancelled (snd r) = true) /\
  itemFrame <$> log st `prefix_of` itemFrame <$> log (snd r) /\
  exists new,
    providerCalls (snd r) = providerCalls st ++ new /\
    Forall (fun c => (maxTokensExceededCount st <= c <= 5)%nat) new /\
    snd (fst r) = drop (length new) script.
Proof.
  induction fuel as [|fuel IH]; intros script st; cbn [while].
  { cbn. repeat split; try done. exists []. by rewrite app_nil_r. }
  destruct (isCancelled st) eqn:Ec.
  { cbn. repeat split; try done. exists []. by rewrite app_nil_r. }
  pose proof (pRetry_effects retries script st) as P. cbv zeta in P.
  destruct (pRetry retries script st) as [[x rest] st1]. cbn [fst snd] in P.
  destruct P as (Hi & Hl & Hc & _ & new & Hp & Hf & _ & Hr).
  assert (Base : forall (e : Exit) (st2 : LoopState),
             (maxTokensExceededCount st1 <= maxTokensExceededCount st2)%nat ->
             itemFrame <$> log st1 `prefix_of` itemFrame <$> log st2 ->
             providerCalls st2 = providerCalls st1 ->
             let r := (e, rest, st2) in
             (maxTokensExceededCount st <= maxTokensExceededCount (snd r))%nat /\
             (false = true -> isCancelled (snd r) = true) /\
             itemFrame <$> log st `prefix_of` itemFrame <$> log (snd r) /\
             exists new,
               providerCalls (snd r) = providerCalls st ++ new /\
               Forall (fun c => (maxTokensExceededCount st <= c <= 5)%nat) new /\
               snd (fst r) = drop (length new) script).
  { intros e st2 H1 H2 H3. cbn. rewrite <- Hl. repeat split; try done; [lia|].
    exists new. by rewrite H3, Hp. }
  destruct x as [[[res step]|]|e|]; try (by apply Base).
  pose proof (attributeTokens_effects
                res (totalTokenCount (window middleOutFiltering (items st))) st1)
    as (Ai & Al & Ac & Ak & Ab & Ap).
  set (st2 := attributeTokens _ _ st1) in *.
  assert (Hsaved : forall item : MessageItem,
             let st3 := set_items_log (items st2) (log st2 ++ [item]) st2 in
             (maxTokensExceededCount st1 <= maxTokensExceededCount st3)%nat /\
             itemFrame <$> log st1 `prefix_of` itemFrame <$> log st3 /\
             providerCalls st3 = providerCalls st1).
  { intros item. cbn. rewrite fmap_app, Al, Ac, Ap.
    repeat split; [lia|]. by apply prefix_app_r. }
  destruct (stopReason res) as [[]|].
  2: { destruct (output_message res) as [toolUseMessage|];
         [|apply Base; [lia | by rewrite Al | done]].
       destruct (runTools step (toolUseRequests toolUseMessage)) as [results|];
         [|apply Base; [lia | by rewrite Al | done]].
       match goal with |- context [while _ fuel rest ?st4] =>
         destruct (IH rest st4) as (Wc & _ & Wl & new' & Wp & Wf & Wr);
         assert (Hc4 : maxTokensExceededCount st4 = maxTokensExceededCount st1)
           by (by rewrite <- Ac);
         rewrite Hc4 in Wc, Wf
       end.
       cbv zeta. repeat split; try done.
       - lia.
       - etrans; [|exact Wl].
         cbn [log set_items_log set_cancel]. rewrite <- Hl, <- Al, fmap_app.
         by apply prefix_app_r.
       - exists (new ++ new'). rewrite Wp, Wr, Hr.
         cbn [providerCalls set_items_log set_cancel]. rewrite Ap, Hp.
         rewrite <- app_assoc, drop_drop, length_app. repeat split; try done.
         apply Forall_app. split; [done|].
         eapply Forall_impl; [exact Wf|]. cbn. intros; lia. }
  all: destruct (output_message res ≫= content) as [[|c cs]|];
    try (apply Base; [lia | by rewrite Al | done]).
  all: destruct (Hsaved (saveConversationHistory
                           {| role := assistant; content := Some (c :: cs) |}
                           (default 0 (usage res ≫= outputTokens))
                           (detectedBudget st2) (log st2))) as (S1 & S2 & S3);
    by apply Base.
Qed.

(** X20: whatever the provider answers, the loop calls it only with a
    [maxTokensExceededCount] between the one it started with and 5, every call
    uses up exactly one step of the script, and the count never goes down. *)
Theorem provider_calls_within_budget (fuel : nat) (script : list Step) (st : LoopState) :
  let r := while middleOutFiltering fuel script st in
  exists new,
    providerCalls (snd r) = providerCalls st ++ new /\
    Forall (fun c => (maxTokensExceededCount st <= c <= 5)%nat) new /\
    snd (fst r) = drop (length new) script /\
    (maxTokensExceededCount st <= maxTokensExceededCount (snd r))%nat.
Proof.
  destruct (while_effects fuel script st) as (Hc & _ & _ & new & Hp & Hf & Hr).
  by exists new.
Qed.

(** X21: a turn only appends to the stored conversation: however it ends,
    the items that were there are still there, in place, with their sort key,
    role, type, content and thinking budget; only a [tokenCount] may have been
    rewritten. The first status event the turn reports is [working]. *)
Theorem history_append_only (t : Turn) (w : Worker) :
  let w' := snd (onMessageReceived middleOutFiltering t w) in
  itemFrame <$> history w `prefix_of` itemFrame <$> history w' /\
  (length (history w) <= length (history w'))%nat /\
  working :: nil `prefix_of` drop (length (statusUpdates w)) (statusUpdates w').
Proof.
  cbv zeta. unfold onMessageReceived. cbv zeta.
  pose proof (agentLoop_frame middleOutFiltering t (updateAgentStatusWithEvent working w))
    as [Hs _].
  assert (Hh : itemFrame <$> history w
               `prefix_of`
               itemFrame <$> history (snd (agentLoop middleOutFiltering t
                                             (updateAgentStatusWithEvent working w)))).
  { unfold agentLoop. cbv zeta.
    cbn [history cancelRequested updateAgentStatusWithEvent].
    match goal with |- context [while _ ?f ?s ?st0] =>
      destruct (while_effects f s st0) as (_ & _ & Hl & _);
      destruct (while middleOutFiltering f s st0) as [[[] rest] st']
    end; exact Hl. }
  destruct (agentLoop _ _ _) as [exit w2]. cbn [snd] in *.
  assert (Hw2 : statusUpdates w2 = statusUpdates w ++ [working]) by exact Hs.
  assert (Hgoal : forall w3, history w3 = history w2 ->
                             statusUpdates w ++ [working] `prefix_of` statusUpdates w3 ->
                             itemFrame <$> history w `prefix_of` itemFrame <$> history w3 /\
                             (length (history w) <= length (history w3))%nat /\
                             [working] `prefix_of`
                               drop (length (statusUpdates w)) (statusUpdates w3)).
  { intros w3 H3 [k Hk]. rewrite H3. split; [exact Hh|]. split.
    - apply prefix_length in Hh. by rewrite !length_fmap in Hh.
    - rewrite Hk, <- app_assoc, drop_app_length. by exists k. }
  destruct (cancelRequested w2); cbn [snd]; apply Hgoal; try done.
  - cbn. by rewrite Hw2.
  - cbn. rewrite Hw2. by apply prefix_app_r.
Qed.

Lemma runTools_defined (step : Step) (m : Message) :
  Forall (fun c => forall tu, c = CToolUse tu -> is_Some (toolUseId tu))
         (default [] (content m)) ->
  is_Some (runTools step (toolUseRequests m)).
Proof.
  unfold toolUseRequests, runTools. generalize (default [] (content m)) as cs.
  clear m. intros cs.
  induction 1 as [|c cs Hc _ IH]; [by eexists|].
  destruct c as [| |tu| | |]; try exact IH.
  destruct (Hc tu eq_refl) as [id Hid]. destruct IH as [results IH].
  cbn [JS.filter filter has_toolUse]. cbn [mapM]. rewrite Hid. cbn.
  cbn in IH. rewrite IH. by eexists.
Qed.

(** X22: the tool round of an answer yields a result message exactly when
    every tool request of the answer carries an id; then there is one tool
    result per tool request, in the order of the requests, each with the id of
    its request and the output of its tool, and the message holds nothing
    else. *)
Theorem runTools_pairs_results (step : Step) (m : Message) :
  (is_Some (runTools step (toolUseRequests m)) <->
   Forall (fun c => forall tu, c = CToolUse tu -> is_Some (toolUseId tu))
          (default [] (content m))) /\
  (forall results,
      runTools step (toolUseRequests m) = Some results ->
      Forall2 (fun request result =>
                 exists tu id,
                   request = CToolUse tu /\ toolUseId tu = Some id /\
                   result = CToolResult {| tr_toolUseId := Some id;
                                           tr_content := Some (toolOutput step tu);
                                           tr_status := None |})
              (toolUseRequests m) results /\
      AnthropicClient.toolResultIds results
      = AnthropicClient.toolUseIds (default [] (content m)) /\
      AnthropicClient.toolUseIds results = []).
Proof.
  split; [split; [|apply runTools_defined]|].
  - unfold toolUseRequests, runTools. generalize (default [] (content m)) as cs.
    clear m. intros cs. induction cs as [|c cs IH]; [constructor|].
    destruct c as [| |tu| | |];
      try (intros H; constructor; [by intros tu [=] | by apply IH]).
    cbn [JS.filter filter has_toolUse]. cbn [mapM].
    destruct (toolUseId tu) as [id|] eqn:Hid; [|by intros [? [=]]].
    cbn [mbind option_bind mret option_ret].
    match goal with |- context [mapM ?f ?l] => destruct (mapM f l) as [rs|] eqn:E end;
      [|by intros [? [=]]].
    intros _. constructor; [|apply IH; by eexists].
    intros tu' [= <-]. by rewrite Hid.
  - unfold toolUseRequests, runTools. generalize (default [] (content m)) as cs.
    clear m. intros cs.
    induction cs as [|c cs IH]; intros results.
    { cbn. intros [= <-]. by repeat split; [constructor|..]. }
    destruct c as [| |tu| | |]; try exact (IH results).
    cbn [JS.filter filter has_toolUse]. cbn [mapM].
    destruct (toolUseId tu) as [id|] eqn:Hid; [|done].
    cbn [mbind option_bind mret option_ret].
    match goal with |- context [mapM ?f ?l] => destruct (mapM f l) as [rs|] eqn:E end;
      [|done].
    cbn. intros [= <-]. destruct (IH rs eq_refl) as (H1 & H2 & H3).
    repeat split.
    + constructor; [by exists tu, id | exact H1].
    + unfold AnthropicClient.toolResultIds, AnthropicClient.toolUseIds in *.
      cbn [omap list_omap tr_toolUseId]. by rewrite Hid, H2.
    + exact H3.
Qed.

Lemma frame_types (l1 l2 : list MessageItem) :
  itemFrame <$> l1 = itemFrame <$> l2 -> messageType <$> l1 = messageType <$> l2.
Proof.
  intros H.
  apply (f_equal (fmap (fun f : nat * Role * MessageType * list ContentBlock * option Z =>
                          snd (fst (fst f))))) in H.
  by rewrite <- !list_fmap_compose in H.
Qed.

Lemma while_tool_rounds (rounds : list Step) :
  forall (fuel : nat) (final : Step) (rest : list Step) (st : LoopState),
    Forall toolRound rounds -> answers final ->
    isCancelled st = false -> (maxTokensExceededCount st <= 5)%nat ->
    (length rounds < fuel)%nat ->
    exists st',
      while middleOutFiltering fuel (rounds ++ final :: rest) st = (Finished, rest, st') /\
      isCancelled st' = false /\
      messageType <$> log st'
      = (messageType <$> log st)
        ++ concat (replicate (length rounds) [toolUse; toolResult])
        ++ [assistantResponse] /\
      providerCalls st'
      = providerCalls st ++ replicate (S (length rounds)) (maxTokensExceededCount st).
Proof.
  induction rounds as [|s rounds IH]; intros fuel final rest st Hr Ha Hc H5 Hfuel.
  - destruct fuel as [|fuel]; [cbn in Hfuel; lia|].
    destruct Ha as (res & b & c & cs & Hout & Hnt & Hnm & Hcontent & Hnc).
    cbn [app while]. rewrite Hc.
    rewrite (pRetry_responds _ _ _ _ res b) by done.
    pose proof (attributeTokens_effects
                  res (totalTokenCount (window middleOutFiltering (items st)))
                  (set_cancel (cancelDuringCall final) (record_call (Some b) st)))
      as (_ & Al & _ & Ak & _ & Ap).
    set (st2 := attributeTokens _ _ _) in *.
    rewrite Hcontent.
    assert (Hfin : exists st',
               (Finished, rest,
                set_items_log (items st2)
                  (log st2 ++ [saveConversationHistory
                                 {| role := assistant; content := Some (c :: cs) |}
                                 (default 0 (usage res ≫= outputTokens))
                                 (detectedBudget st2) (log st2)]) st2)
               = (Finished, rest, st') /\
               isCancelled st' = false /\
               messageType <$> log st' = (messageType <$> log st) ++ [assistantResponse] /\
               providerCalls st' = providerCalls st ++ [maxTokensExceededCount st]).
    { eexists. split; [done|]. cbn [isCancelled log providerCalls set_items_log].
      rewrite Ak, Ap, fmap_app, (frame_types _ _ Al). cbn. by rewrite Hc, Hnc. }
    destruct (stopReason res) as [[]|]; done.
  - destruct fuel as [|fuel]; [cbn in Hfuel; lia|].
    inversion Hr as [|? ? Hs Hr']; subst.
    destruct Hs as (res & b & m & Hout & Hstop & Hm & Hids & Hnc & Hnt).
    destruct (runTools_defined s m Hids) as [results Hresults].
    cbn [app while]. rewrite Hc.
    rewrite (pRetry_responds _ _ _ _ res b) by (try done; by rewrite Hstop).
    pose proof (attributeTokens_effects
                  res (totalTokenCount (window middleOutFiltering (items st)))
                  (set_cancel (cancelDuringCall s) (record_call (Some b) st)))
      as (_ & Al & Ac & Ak & _ & Ap).
    set (st2 := attributeTokens _ _ _) in *.
    rewrite Hstop, Hm, Hresults.
    match goal with |- context [while _ fuel _ ?st4] =>
      destruct (IH fuel final rest st4) as (st' & Hw & Hc' & Hl' & Hp'); try done
    end.
    { cbn. rewrite Ak. cbn. by rewrite Hc, Hnc, Hnt. }
    { cbn. rewrite Ac. done. }
    { cbn in Hfuel. lia. }
    exists st'. split; [exact Hw|]. split; [exact Hc'|]. split.
    + rewrite Hl'. cbn [log set_items_log set_cancel]. rewrite fmap_app.
      rewrite (frame_types _ _ Al). cbn. by rewrite <- app_assoc.
    + rewrite Hp'. cbn [providerCalls maxTokensExceededCount set_items_log set_cancel].
      rewrite Ap, Ac. cbn. by rewrite <- app_assoc.
Qed.

(** X23: a turn in which the provider answers with well-formed tool
    requests some number of times and then with a final message, and no
    cancellation arrives, finishes; it appends one tool-use item and one
    tool-result item per round and the final answer last, reports the status
    working and then pending, and leaves a conversation that [resume] does not
    run again. *)
Theorem tool_rounds_then_answer
        (t : Turn) (w : Worker) (rounds : list Step) (final : Step) (rest : list Step) :
  steps t = rounds ++ final :: rest ->
  Forall toolRound rounds -> answers final ->
  cancelRequested w = false -> cancelAfterLoop t = false ->
  let r := onMessageReceived middleOutFiltering t w in
  fst r = Finished /\
  messageType <$> history (snd r)
  = (messageType <$> history w)
    ++ concat (replicate (length rounds) [toolUse; toolResult])
    ++ [assistantResponse] /\
  statusUpdates (snd r) = statusUpdates w ++ [working; pending] /\
  cancelCallbacks (snd r) = cancelCallbacks w /\
  (forall t', Turn.resume middleOutFiltering t' (snd r) = (None, snd r)).
Proof.
  intros Hsteps Hr Ha Hw Ht.
  set (st0 := {| items := fr_items (middleOutFiltering (history w)); log := history w;
                 maxTokensExceededCount := 0; isCancelled := false;
                 detectedBudget := None; providerCalls := [] |}).
  destruct (while_tool_rounds rounds (S (length (steps t))) final rest st0 Hr Ha)
    as (st' & Hwhile & Hc' & Hl' & _); [done | cbn; lia | |].
  { rewrite Hsteps, length_app. lia. }
  rewrite <- Hsteps in Hwhile.
  assert (Hloop : exists title',
             agentLoop middleOutFiltering t (updateAgentStatusWithEvent working w)
             = (Finished,
                {| history := log st'; title := title';
                   statusUpdates := statusUpdates w ++ [working];
                   cancelRequested := false;
                   cancelCallbacks := cancelCallbacks w |})).
  { unfold agentLoop. cbv zeta.
    cbn [history cancelRequested title statusUpdates cancelCallbacks
         updateAgentStatusWithEvent].
    rewrite Hw. fold st0. rewrite Hwhile, Hc', Ht. by eexists. }
  destruct Hloop as [title' Hloop].
  unfold onMessageReceived. cbv zeta. rewrite Hloop.
  cbn [cancelRequested fst snd history statusUpdates cancelCallbacks
       updateAgentStatusWithEvent].
  repeat split; try done.
  - by rewrite <- app_assoc.
  - intros t'. unfold Turn.resume.
    cbn [history updateAgentStatusWithEvent]. rewrite at_last, <- fmap_last, Hl'.
    by rewrite !app_assoc, last_snoc.
Qed.

End LoopInvariants.

Lemma tool_rounds_then_answer_witness :
  let r := Agent.onMessageReceived Agent.noOpFiltering Cases.toolTurn Samples.greetedWorker in
  Forall Views.toolRound [Cases.toolStep; Cases.toolStep] /\
  Views.answers (Samples.finalStep false) /\
  Agent.messageType <$> Agent.history (snd r)
  = [Agent.userMessage; Agent.toolUse; Agent.toolResult; Agent.toolUse; Agent.toolResult;
     Agent.assistantResponse].
Proof.
  intros r.
  assert (Hround : Views.toolRound Cases.toolStep).
  { eexists _, _, _. repeat split.
    repeat constructor; intros tu [= <-]; by eexists. }
  assert (Hrounds : Forall Views.toolRound [Cases.toolStep; Cases.toolStep])
    by (by repeat constructor).
  assert (Hans : Views.answers (Samples.finalStep false)).
  { eexists _, _, _, _. by repeat split. }
  split; [exact Hrounds|]. split; [exact Hans|].
  exact (proj1 (proj2 (tool_rounds_then_answer
                         Agent.noOpFiltering Cases.toolTurn Samples.greetedWorker
                         [Cases.toolStep; Cases.toolStep] (Samples.finalStep false) []
                         eq_refl Hrounds Hans eq_refl eq_refl))).
Defined.

Section Throttling.
Import Model Res Response Agent Views.
Variable middleOutFiltering : list MessageItem -> FilterResult.

Lemma pRetry_throttles (throttles : list Step) :
  forall (n : nat) (rest : list Step) (st : LoopState),
    Forall throttled throttles ->
    isCancelled st = false -> (maxTokensExceededCount st <= 5)%nat ->
    exists st1,
      pRetry (length throttles + n) (throttles ++ rest) st = pRetry n rest st1 /\
      isCancelled st1 = false /\
      maxTokensExceededCount st1 = maxTokensExceededCount st /\
      providerCalls st1
      = providerCalls st ++ replicate (length throttles) (maxTokensExceededCount st) /\
      log st1 = log st /\ items st1 = items st.
Proof.
  induction throttles as [|s throttles IH]; intros n rest st Ht Hc H5.
  { exists st. by rewrite app_nil_r. }
  inversion Ht as [|? ? [Hs Hnc] Ht']; subst.
  destruct (IH n rest (set_cancel (cancelDuringCall s) (record_call None st)))
    as (st1 & Hp & Hc1 & Hn1 & Hcalls & Hl & Hi); [done | | done |].
  { cbn. by rewrite Hc, Hnc. }
  exists st1. split; [|repeat split; try done].
  - rewrite <- Hp. cbn [length Nat.add app pRetry]. rewrite Hc.
    replace (5 <? maxTokensExceededCount st)%nat with false
      by (symmetry; apply Nat.ltb_ge; lia).
    unfold converse.
    replace (5 <? maxTokensExceededCount st)%nat with false
      by (symmetry; apply Nat.ltb_ge; lia).
    by rewrite Hs.
  - rewrite Hcalls. cbn. by rewrite <- app_assoc.
Qed.

(** X24: a throttled call is retried: after up to 100 throttling errors in
    a row the answer that follows is returned, each attempt made with the same
    [maxTokensExceededCount]; the 101st throttling error in a row ends the turn
    with that error; any other provider error ends the turn after that one
    call. In both cases nothing was added to the stored conversation. *)
Theorem only_throttling_is_retried
        (throttles rest : list Step) (st : LoopState) (fuel : nat) :
  Forall throttled throttles ->
  isCancelled st = false ->
  (maxTokensExceededCount st <= 5)%nat ->
  (forall final res b,
      (length throttles <= 100)%nat ->
      outcome final = Responds res b -> stopReason res <> Some max_tokens ->
      exists st',
        pRetry retries (throttles ++ final :: rest) st
        = (Resolved (Some (res, final)), rest, st') /\
        providerCalls st'
        = providerCalls st
          ++ replicate (S (length throttles)) (maxTokensExceededCount st)) /\
  (length throttles = 101%nat ->
   exists st',
     while middleOutFiltering (S fuel) (throttles ++ rest) st
     = (Thrown (Err ThrottlingException), rest, st') /\
     log st' = log st /\
     providerCalls st' = providerCalls st ++ replicate 101 (maxTokensExceededCount st)) /\
  (forall s e,
      outcome s = Throws e -> is_throttling e = false ->
      exists st',
        while middleOutFiltering (S fuel) (s :: rest) st = (Thrown (Err e), rest, st') /\
        log st' = log st /\
        providerCalls st' = providerCalls st ++ [maxTokensExceededCount st]).
Proof.
  intros Ht Hc H5. split; [|split].
  - intros final res b Hlen Hout Hstop.
    destruct (pRetry_throttles throttles (retries - length throttles) (final :: rest)
                               st Ht Hc H5) as (st1 & Hp & Hc1 & Hn1 & Hcalls & _).
    replace (length throttles + (retries - length throttles))%nat with retries in Hp
      by (unfold retries; lia).
    rewrite Hp, (pRetry_responds _ _ _ _ res b) by (try done; lia).
    eexists. split; [done|].
    rewrite recorded_calls, Hcalls, Hn1, <- app_assoc. f_equal.
    change [maxTokensExceededCount st] with (replicate 1 (maxTokensExceededCount st)).
    rewrite <- replicate_add. f_equal. lia.
  - intros Hlen.
    destruct (exists_last (l := throttles)) as (init & s & ->).
    { intros ->. discriminate Hlen. }
    rewrite length_app in Hlen. cbn in Hlen.
    apply Forall_app in Ht as [Hinit Hs].
    inversion Hs as [|? ? [Hout Hnc] _]; subst.
    destruct (pRetry_throttles init 0 (s :: rest) st Hinit Hc H5)
      as (st1 & Hp & Hc1 & Hn1 & Hcalls & Hl & _).
    replace (length init + 0)%nat with retries in Hp by (unfold retries; lia).
    exists (set_cancel (cancelDuringCall s) (record_call None st1)).
    split; [|split].
    + cbn [while]. rewrite Hc, <- app_assoc. cbn [app]. rewrite Hp.
      cbn [pRetry]. rewrite Hc1.
      replace (5 <? maxTokensExceededCount st1)%nat with false
        by (symmetry; apply Nat.ltb_ge; lia).
      unfold converse.
      replace (5 <? maxTokensExceededCount st1)%nat with false
        by (symmetry; apply Nat.ltb_ge; lia).
      by rewrite Hout.
    + exact Hl.
    + rewrite recorded_calls, Hcalls, Hn1, <- app_assoc. f_equal.
      change [maxTokensExceededCount st] with (replicate 1 (maxTokensExceededCount st)).
      rewrite <- replicate_add. f_equal. lia.
  - intros s e Hout He.
    exists (set_cancel (cancelDuringCall s) (record_call None st)).
    split; [|done].
    cbn [while]. rewrite Hc.
    assert (Hp : forall n, pRetry n (s :: rest) st
                           = (Rejected (Err e), rest,
                              set_cancel (cancelDuringCall s) (record_call None st))).
    { intros n. destruct n; cbn [pRetry]; rewrite Hc;
        (replace (5 <? maxTokensExceededCount st)%nat with false
          by (symmetry; apply Nat.ltb_ge; lia));
        unfold converse;
        (replace (5 <? maxTokensExceededCount st)%nat with false
          by (symmetry; apply Nat.ltb_ge; lia));
        by rewrite Hout, He. }
    by rewrite Hp.
Qed.

End Throttling.

Lemma only_throttling_is_retried_witness :
  let throttles := replicate 101 Cases.throttleStep in
  let st := Samples.loopState Samples.secondTurnItems false in
  Forall Views.throttled throttles /\
  fst (fst (Agent.while Agent.noOpFiltering 1 (throttles ++ [Samples.finalStep false]) st))
  = Agent.Thrown (Agent.Err Res.ThrottlingException).
Proof.
  intros throttles st.
  assert (Ht : Forall Views.throttled throttles).
  { apply Forall_replicate. by split. }
  split; [exact Ht|].
  destruct (only_throttling_is_retried
              Agent.noOpFiltering throttles [Samples.finalStep false] st 0
              Ht eq_refl ltac:(cbn; lia)) as (_ & H & _).
  destruct (H eq_refl) as (st' & Hw & _).
  by rewrite Hw.
Defined.

(** ** Lists read from the environment *)

Section CdkLists.
Import Cdk.

Lemma list_ascii_of_string_snoc (cur : string) (c : ascii) :
  list_ascii_of_string (cur +:+ String c EmptyString) = list_ascii_of_string cur ++ [c].
Proof.
  induction cur as [|a cur IH]; [done|].
  change (a :: list_ascii_of_string (cur +:+ String c EmptyString)
          = a :: (list_ascii_of_string cur ++ [c])).
  by rewrite IH.
Qed.

Lemma split_blank (s : string) : forall cur : string,
  Forall (fun c => JS.is_space c = true) (list_ascii_of_string cur) ->
  Forall (fun c => c = ","%char \/ JS.is_space c = true) (list_ascii_of_string s) ->
  Forall (fun piece => JS.trim piece = EmptyString) (JS.split_comma_aux cur s).
Proof.
  induction s as [|c s IH]; intros cur Hcur Hs; cbn.
  - constructor; [by apply trim_blank | constructor].
  - inversion Hs as [|? ? Hc Hs']; subst.
    destruct (Ascii.eqb_spec c ","%char) as [->|Hne].
    + constructor; [by apply trim_blank | by apply IH].
    + destruct Hc as [?|Hc]; [done|]. apply IH; [|done].
      rewrite list_ascii_of_string_snoc. apply Forall_app. by split; [|repeat constructor].
Qed.

(** X25: a list read from the environment holds no empty item and every
    item is trimmed; it is [undefined] exactly when the variable is unset or
    empty, so a variable that holds only commas and blanks gives the empty
    list, not [undefined]. *)
Theorem parseCommaSeparatedList_items (envVar : option string) :
  (parseCommaSeparatedList envVar = None <-> envVar = None \/ envVar = Some EmptyString) /\
  (forall items,
      parseCommaSeparatedList envVar = Some items ->
      Forall (fun item => item <> EmptyString /\ JS.trim item = item) items) /\
  (forall s,
      envVar = Some s -> s <> EmptyString ->
      Forall (fun c => c = ","%char \/ JS.is_space c = true) (list_ascii_of_string s) ->
      parseCommaSeparatedList envVar = Some []).
Proof.
  unfold parseCommaSeparatedList. split; [|split].
  - destruct envVar as [[|c s]|]; cbn; split; try done; auto.
    + intros [?|?]; done.
  - intros items. destruct (JS.truthy_str envVar); [|done]. intros [= <-].
    apply Forall_and. split.
    + eapply Forall_impl; [apply filter_Forall|]. cbn. by intros [|] ?.
    + apply Forall_filter, Forall_map, Forall_forall. intros x _. apply trim_idem.
  - intros s -> Hs Hall. destruct s as [|c s]; [done|].
    cbn [JS.truthy_str default]. f_equal.
    assert (Hnone : forall l,
               Forall (fun piece => JS.trim piece = EmptyString) l ->
               JS.filter (fun item => JS.truthy_str (Some item)) (map JS.trim l) = []).
    { induction 1 as [|piece l Hpiece _ IH]; [done|]. cbn. by rewrite Hpiece. }
    apply Hnone, split_blank; [constructor | done].
Qed.

End CdkLists.

(** ** The session title of a turn *)

Section TitleOnce.
Import Model Res Response Agent.
Variable middleOutFiltering : list MessageItem -> FilterResult.

(** X26: a turn gives a session a title only when it has none (or an empty
    one) and the loop did not throw; a title that is there is never replaced,
    and a new title is never empty and is trimmed. *)
Theorem title_generated_once (t : Turn) (w : Worker) :
  let r := onMessageReceived middleOutFiltering t w in
  (forall s, title w = Some s -> s <> EmptyString -> title (snd r) = title w) /\
  (fst r <> Finished -> title (snd r) = title w) /\
  (title (snd r) <> title w ->
   (title w = None \/ title w = Some EmptyString) /\
   exists newTitle,
     title (snd r) = Some newTitle /\ newTitle <> EmptyString /\
     JS.trim newTitle = newTitle).
Proof.
  cbv zeta. unfold onMessageReceived. cbv zeta.
  assert (Hloop : forall w1 : Worker,
             title w1 = title w ->
             let r := agentLoop middleOutFiltering t w1 in
             (forall s, title w = Some s -> s <> EmptyString -> title (snd r) = title w) /\
             (fst r <> Finished -> title (snd r) = title w) /\
             (title (snd r) <> title w ->
              (title w = None \/ title w = Some EmptyString) /\
              exists newTitle,
                title (snd r) = Some newTitle /\ newTitle <> EmptyString /\
                JS.trim newTitle = newTitle)).
  { intros w1 H1. unfold agentLoop. cbv zeta. rewrite H1.
    set (generated := Sessions.generateSessionTitle (fun _ _ _ => titleReply t)
                                                     EmptyString EmptyString).
    assert (Htrim : JS.trim generated = generated).
    { subst generated. unfold Sessions.generateSessionTitle.
      destruct (titleReply t) as [[response budget]|e]; [|done].
      destruct (Sessions.firstText response); [apply trim_idem | done]. }
    destruct (while _ _ _ _) as [[[] rest] st]; cbn [fst snd title]; try by repeat split.
    destruct (title w) as [[|a s]|] eqn:Et.
    - destruct generated eqn:Eg; [by repeat split|].
      split; [by intros s0 [= <-] []|]. split; [by intros []|].
      intros _. split; [by right|]. by eexists.
    - by repeat split.
    - destruct generated eqn:Eg; [by repeat split|].
      split; [done|]. split; [by intros []|].
      intros _. split; [by left|]. by eexists. }
  specialize (Hloop (updateAgentStatusWithEvent working w) eq_refl). cbv zeta in Hloop.
  destruct (agentLoop _ _ _) as [exit w2]. cbn [fst snd] in *.
  by destruct (cancelRequested w2).
Qed.

End TitleOnce.
